(** * QA-assist agent framework: response parsing, caching and action extraction

    A shallow embedding of the core of the repository
    (features/testCaseGeneration/generator.py, features/codeGenerator/generator.py,
    features/recording/playwright_codegen.py and features/recording/recorder.py)
    together with the properties its specification states about it.

    Conventions.
    - Python [str] is [string]; a character is an [ascii].  Indices and the
      results of [str.find] are [Z], because the code relies on [-1] and on
      negative slice bounds.
    - Python values of dynamic type (what [json.loads] returns, the action
      dictionaries of the recorder) are values of the single type [json].
    - Exceptions are explicit: a computation that may raise has type [res A].
    - The file store behind the caches is a finite map from path to content. *)

From Stdlib Require Import String Ascii List ZArith Lia Bool.
From stdpp Require Import gmap strings pretty.
Import ListNotations.

Open Scope string_scope.
Open Scope Z_scope.

Set Warnings "-register-all".

(** String concatenation unfolds under [simpl], as list concatenation does. *)
Arguments String.append !s1 s2 : simpl nomatch.

(* ===================================================================== *)
(** * Part I: definitions                                                 *)
(* ===================================================================== *)

(** ** Python string primitives used by the sources *)

Module Py.

(** The one-character string with the given code. *)
Definition chr (n : nat) : string := String (ascii_of_nat n) EmptyString.

(** Characters that the sources write inside their literals: the double
    quote, the backslash and the newline. *)
Definition dquote : ascii := ascii_of_nat 34.
Definition backslash : ascii := ascii_of_nat 92.
Definition newline : ascii := ascii_of_nat 10.

Definition DQ : string := chr 34.
Definition BS : string := chr 92.
Definition NL : string := chr 10.

(** Literals of this development write a backquote where the text has a
    double quote; [lit] puts the double quotes back. *)
Fixpoint lit (s : string) : string :=
  match s with
  | EmptyString => EmptyString
  | String c t =>
      String (if Ascii.eqb c "`" then dquote else c) (lit t)
  end.

(** [s[n:]] for a natural [n]. *)
Fixpoint drop (n : nat) (s : string) : string :=
  match n, s with
  | O, _ => s
  | S k, EmptyString => EmptyString
  | S k, String _ t => drop k t
  end.

(** [s[:n]] for a natural [n]. *)
Fixpoint take (n : nat) (s : string) : string :=
  match n, s with
  | O, _ => EmptyString
  | S k, EmptyString => EmptyString
  | S k, String c t => String c (take k t)
  end.

Definition len (s : string) : Z := Z.of_nat (String.length s).

(** Normalisation of a slice bound: a negative bound counts from the end,
    and the result is clamped to [0, len s]. *)
Definition clamp (s : string) (i : Z) : Z :=
  let j := if i <? 0 then i + len s else i in
  Z.max 0 (Z.min j (len s)).

(** [s[start:stop]]. *)
Definition slice (s : string) (start stop : Z) : string :=
  let a := clamp s start in
  let b := clamp s stop in
  take (Z.to_nat (b - a)) (drop (Z.to_nat a) s).

(** [s[start:]]. *)
Definition slice_from (s : string) (start : Z) : string :=
  slice s start (len s).

(** Scan for the lowest occurrence of [sub]; [i] is the index of the head
    of [s] in the original string. *)
Fixpoint find_from (sub s : string) (i : Z) : Z :=
  if String.prefix sub s then i
  else match s with
       | EmptyString => -1
       | String _ t => find_from sub t (i + 1)
       end.

(** [s.find(sub, start)] for [start >= 0]. *)
Definition find_at (s sub : string) (start : Z) : Z :=
  if len s <? start then -1
  else find_from sub (drop (Z.to_nat start) s) start.

(** [s.find(sub)]. *)
Definition find (s sub : string) : Z := find_at s sub 0.

(** Scan for the highest occurrence of [sub], remembering the last hit. *)
Fixpoint rfind_from (sub s : string) (i last : Z) : Z :=
  let last' := if String.prefix sub s then i else last in
  match s with
  | EmptyString => last'
  | String _ t => rfind_from sub t (i + 1) last'
  end.

(** [s.rfind(sub)]. *)
Definition rfind (s sub : string) : Z := rfind_from sub s 0 (-1).

(** [sub in s]. *)
Definition contains (s sub : string) : bool := negb (find s sub =? -1).

(** [s.startswith(p)]. *)
Definition startswith (s p : string) : bool := String.prefix p s.

(** [s.replace(old, new)] for a non-empty [old]: occurrences are replaced
    left to right and do not overlap; [skip] counts the characters of the
    occurrence just replaced that are still to be dropped. *)
Fixpoint replace_go (old new : string) (skip : nat) (s : string) : string :=
  match s with
  | EmptyString => EmptyString
  | String c t =>
      match skip with
      | S k => replace_go old new k t
      | O =>
          if String.prefix old s
          then new +:+ replace_go old new (String.length old - 1) t
          else String c (replace_go old new 0 t)
      end
  end.

Definition replace (s old new : string) : string := replace_go old new 0 s.

(** Characters removed by [str.strip()]: the ASCII characters for which
    [str.isspace()] holds. *)
Definition is_space (c : ascii) : bool :=
  let n := nat_of_ascii c in
  ((9 <=? n) && (n <=? 13) || (28 <=? n) && (n <=? 32))%nat.

Fixpoint lstrip (s : string) : string :=
  match s with
  | EmptyString => EmptyString
  | String c t => if is_space c then lstrip t else s
  end.

Fixpoint rstrip (s : string) : string :=
  match s with
  | EmptyString => EmptyString
  | String c t =>
      match rstrip t with
      | EmptyString => if is_space c then EmptyString else String c EmptyString
      | r => String c r
      end
  end.

(** [s.strip()]. *)
Definition strip (s : string) : string := rstrip (lstrip s).

(** [s.split(sep)] for a one-character separator: [cur] holds the current
    piece, reversed into place by appending. *)
Fixpoint split_go (sep : ascii) (cur : string) (s : string) : list string :=
  match s with
  | EmptyString => [cur]
  | String c t =>
      if Ascii.eqb c sep then cur :: split_go sep EmptyString t
      else split_go sep (cur +:+ String c EmptyString) t
  end.

Definition split (s : string) (sep : ascii) : list string :=
  split_go sep EmptyString s.

(** [s.lower()] on ASCII letters. *)
Definition lower_char (c : ascii) : ascii :=
  let n := nat_of_ascii c in
  if ((65 <=? n) && (n <=? 90))%nat then ascii_of_nat (n + 32) else c.

Fixpoint lower (s : string) : string :=
  match s with
  | EmptyString => EmptyString
  | String c t => String (lower_char c) (lower t)
  end.

(** Membership of a character in a string. *)
Fixpoint has_char (c : ascii) (s : string) : bool :=
  match s with
  | EmptyString => false
  | String d t => Ascii.eqb d c || has_char c t
  end.

(** [sep.join(parts)]. *)
Fixpoint join (sep : string) (parts : list string) : string :=
  match parts with
  | [] => EmptyString
  | [p] => p
  | p :: rest => p +:+ sep +:+ join sep rest
  end.

(** [os.path.join(a, b)] on a POSIX system. *)
Definition os_path_join (a b : string) : string :=
  if startswith b "/" then b
  else if String.eqb a EmptyString || String.eqb (slice_from a (len a - 1)) "/"
       then a +:+ b
       else a +:+ "/" +:+ b.

End Py.

(** ** Exceptions *)

Module Exn.

(** The exception classes the modelled code can meet. *)
Inductive exn : Type :=
| JSONDecodeError
| AttributeError
| TypeError
| KeyError
| IndexError.

(** A computation that returns a value or raises. *)
Inductive res (A : Type) : Type :=
| Ok (a : A)
| Raise (e : exn).

Arguments Ok {A} a.
Arguments Raise {A} e.

Definition bind {A B : Type} (m : res A) (k : A -> res B) : res B :=
  match m with
  | Ok a => k a
  | Raise e => Raise e
  end.

(** [for x in xs: f x], stopping at the first exception. *)
Fixpoint mapM {A B : Type} (f : A -> res B) (xs : list A) : res (list B) :=
  match xs with
  | [] => Ok []
  | x :: rest =>
      bind (f x) (fun y => bind (mapM f rest) (fun ys => Ok (y :: ys)))
  end.

End Exn.

Import Exn.

Notation "'let!' x ':=' m 'in' k" := (Exn.bind m (fun x => k))
  (at level 10, x name, m at level 100, k at level 200).

(** ** JSON values and the dynamic operations the code applies to them *)

Module Json.

(** What [json.loads] returns: [None], [bool], [int], [str], [list] and
    [dict] with string keys in insertion order.  Numbers with a fraction or
    an exponent are outside the model. *)
Inductive json : Type :=
| JNull
| JBool (b : bool)
| JNum (n : Z)
| JStr (s : string)
| JArr (items : list json)
| JObj (fields : list (string * json)).

(** [d[k]] on the association list of a dictionary. *)
Fixpoint assoc (fields : list (string * json)) (k : string) : option json :=
  match fields with
  | [] => None
  | (k', v) :: rest => if String.eqb k' k then Some v else assoc rest k
  end.

(** [d[k] = v]: an existing key keeps its position. *)
Fixpoint assoc_set (fields : list (string * json)) (k : string) (v : json)
  : list (string * json) :=
  match fields with
  | [] => [(k, v)]
  | (k', v') :: rest =>
      if String.eqb k' k then (k, v) :: rest
      else (k', v') :: assoc_set rest k v
  end.

(** [v == "literal"]. *)
Definition is_str (v : json) (s : string) : bool :=
  match v with
  | JStr t => String.eqb t s
  | _ => false
  end.

(** [v.get(k, default)]: only a dictionary has [get]. *)
Definition get (v : json) (k : string) (default : json) : res json :=
  match v with
  | JObj fields =>
      Ok (match assoc fields k with Some x => x | None => default end)
  | _ => Raise AttributeError
  end.

(** Truth value of [v] in a condition. *)
Definition truthy (v : json) : bool :=
  match v with
  | JNull => false
  | JBool b => b
  | JNum n => negb (n =? 0)
  | JStr s => negb (String.eqb s EmptyString)
  | JArr items => match items with [] => false | _ => true end
  | JObj fields => match fields with [] => false | _ => true end
  end.

(** The characters of a string as one-character strings. *)
Fixpoint chars (s : string) : list json :=
  match s with
  | EmptyString => []
  | String c t => JStr (String c EmptyString) :: chars t
  end.

(** [for x in v]: a list yields its items, a string its characters, a
    dictionary its keys; nothing else is iterable. *)
Definition iter (v : json) : res (list json) :=
  match v with
  | JArr items => Ok items
  | JStr s => Ok (chars s)
  | JObj fields => Ok (map (fun kv => JStr (fst kv)) fields)
  | _ => Raise TypeError
  end.

(** [len(v)]. *)
Definition py_len (v : json) : res nat :=
  match v with
  | JArr items => Ok (length items)
  | JStr s => Ok (String.length s)
  | JObj fields => Ok (length fields)
  | _ => Raise TypeError
  end.

(** [v[i]] for a natural [i]: a dictionary has string keys only, so an
    integer subscript is a missing key. *)
Definition index (v : json) (i : nat) : res json :=
  match v with
  | JArr items =>
      match nth_error items i with
      | Some x => Ok x
      | None => Raise IndexError
      end
  | JStr s =>
      match nth_error (chars s) i with
      | Some x => Ok x
      | None => Raise IndexError
      end
  | JObj _ => Raise KeyError
  | _ => Raise TypeError
  end.

(** [key in v]. *)
Definition py_in (key : string) (v : json) : res bool :=
  match v with
  | JObj fields =>
      Ok (match assoc fields key with Some _ => true | None => false end)
  | JArr items => Ok (existsb (fun x => is_str x key) items)
  | JStr s => Ok (Py.contains s key)
  | _ => Raise TypeError
  end.

(** [all(key in v for key in keys)]. *)
Fixpoint all_in (keys : list string) (v : json) : res bool :=
  match keys with
  | [] => Ok true
  | k :: rest =>
      let! b := py_in k v in
      if b then all_in rest v else Ok false
  end.

End Json.

Import Json.

(** ** A reference implementation of [json.loads] and [json.dumps]

    The sources call Python's [json] library.  The general statements below
    take the parser as a parameter; this executable reference is what the
    concrete examples run.  It covers the grammar of RFC 8259 restricted to
    integer numbers and to [\u00XX] escapes, and it is strict in the way
    [json.loads] is: no trailing comma, no text after the value, no control
    character inside a string. *)

Module JsonRef.

Definition is_ws (c : ascii) : bool :=
  let n := nat_of_ascii c in
  ((n =? 32) || (n =? 9) || (n =? 10) || (n =? 13))%nat.

Fixpoint skip_ws (s : string) : string :=
  match s with
  | EmptyString => EmptyString
  | String c t => if is_ws c then skip_ws t else s
  end.

Definition digit_val (c : ascii) : option Z :=
  let n := nat_of_ascii c in
  if ((48 <=? n) && (n <=? 57))%nat then Some (Z.of_nat (n - 48)) else None.

Definition hex_val (c : ascii) : option nat :=
  let n := nat_of_ascii c in
  if ((48 <=? n) && (n <=? 57))%nat then Some (n - 48)%nat
  else if ((97 <=? n) && (n <=? 102))%nat then Some (n - 87)%nat
  else if ((65 <=? n) && (n <=? 70))%nat then Some (n - 55)%nat
  else None.

Fixpoint parse_digits (s : string) (acc : Z) : Z * string :=
  match s with
  | EmptyString => (acc, s)
  | String c t =>
      match digit_val c with
      | Some d => parse_digits t (acc * 10 + d)
      | None => (acc, s)
      end
  end.

(** An optional minus sign, then a zero or a digit string without a leading
    zero; a fraction or an exponent is rejected. *)
Definition parse_int (s : string) : option (Z * string) :=
  let '(neg, body) :=
    match s with
    | String "-" t => (true, t)
    | _ => (false, s)
    end in
  match body with
  | EmptyString => None
  | String c t =>
      match digit_val c with
      | None => None
      | Some d =>
          let '(n, rest) := if d =? 0 then (0, t) else parse_digits t d in
          match rest with
          | String "." _ | String "e" _ | String "E" _ => None
          | _ => Some (if neg then - n else n, rest)
          end
      end
  end.

Definition unescape (e : ascii) : option ascii :=
  if Ascii.eqb e Py.dquote then Some Py.dquote
  else if Ascii.eqb e Py.backslash then Some Py.backslash
  else if Ascii.eqb e "/" then Some "/"%char
  else if Ascii.eqb e "b" then Some (ascii_of_nat 8)
  else if Ascii.eqb e "f" then Some (ascii_of_nat 12)
  else if Ascii.eqb e "n" then Some (ascii_of_nat 10)
  else if Ascii.eqb e "r" then Some (ascii_of_nat 13)
  else if Ascii.eqb e "t" then Some (ascii_of_nat 9)
  else None.

(** The text after an opening quote, up to the closing one. *)
Fixpoint parse_string_body (s : string) : option (string * string) :=
  match s with
  | EmptyString => None
  | String c t =>
      if Ascii.eqb c Py.dquote then Some (EmptyString, t)
      else if Ascii.eqb c Py.backslash then
        match t with
        | String "u" (String "0" (String "0" (String h1 (String h2 t')))) =>
            match hex_val h1, hex_val h2, parse_string_body t' with
            | Some a, Some b, Some (body, rest) =>
                Some (String (ascii_of_nat (16 * a + b)) body, rest)
            | _, _, _ => None
            end
        | String e t' =>
            match unescape e, parse_string_body t' with
            | Some c', Some (body, rest) => Some (String c' body, rest)
            | _, _ => None
            end
        | EmptyString => None
        end
      else if (nat_of_ascii c <? 32)%nat then None
      else
        match parse_string_body t with
        | Some (body, rest) => Some (String c body, rest)
        | None => None
        end
  end.

Definition expect (p s : string) (v : json) : option (json * string) :=
  if String.prefix p s then Some (v, Py.drop (String.length p) s) else None.

(** [parse_value] reads one value at the head of [s]; [parse_elements]
    reads the items of an array after its bracket or a comma;
    [parse_members] the members of an object. *)
Fixpoint parse_value (fuel : nat) (s : string) : option (json * string) :=
  match fuel with
  | O => None
  | S f =>
      match s with
      | EmptyString => None
      | String c t =>
          if Ascii.eqb c "{" then
            match skip_ws t with
            | String "}" r => Some (JObj [], r)
            | t' => parse_members f t' []
            end
          else if Ascii.eqb c "[" then
            match skip_ws t with
            | String "]" r => Some (JArr [], r)
            | t' => parse_elements f t' []
            end
          else if Ascii.eqb c Py.dquote then
            match parse_string_body t with
            | Some (body, r) => Some (JStr body, r)
            | None => None
            end
          else if Ascii.eqb c "t" then expect "true" s (JBool true)
          else if Ascii.eqb c "f" then expect "false" s (JBool false)
          else if Ascii.eqb c "n" then expect "null" s JNull
          else
            match parse_int s with
            | Some (n, r) => Some (JNum n, r)
            | None => None
            end
      end
  end

with parse_elements (fuel : nat) (s : string) (acc : list json)
  : option (json * string) :=
  match fuel with
  | O => None
  | S f =>
      match parse_value f s with
      | None => None
      | Some (v, r) =>
          match skip_ws r with
          | String "," r' => parse_elements f (skip_ws r') (acc ++ [v])
          | String "]" r' => Some (JArr (acc ++ [v]), r')
          | _ => None
          end
      end
  end

with parse_members (fuel : nat) (s : string) (acc : list (string * json))
  : option (json * string) :=
  match fuel with
  | O => None
  | S f =>
      match s with
      | EmptyString => None
      | String q t =>
          if negb (Ascii.eqb q Py.dquote) then None
          else
            match parse_string_body t with
            | None => None
            | Some (key, r) =>
                match skip_ws r with
                | String ":" r1 =>
                    match parse_value f (skip_ws r1) with
                    | None => None
                    | Some (v, r2) =>
                        match skip_ws r2 with
                        | String "," r3 =>
                            parse_members f (skip_ws r3) (assoc_set acc key v)
                        | String "}" r3 => Some (JObj (assoc_set acc key v), r3)
                        | _ => None
                        end
                    end
                | _ => None
                end
            end
      end
  end.

(** [json.loads(s)]: [None] stands for [JSONDecodeError]. *)
Definition loads (s : string) : option json :=
  match parse_value (S (String.length s)) (skip_ws s) with
  | Some (v, rest) =>
      match skip_ws rest with
      | EmptyString => Some v
      | _ => None
      end
  | None => None
  end.

Definition hex_digit (n : nat) : ascii :=
  if (n <? 10)%nat then ascii_of_nat (48 + n) else ascii_of_nat (87 + n).

(** Escaping of [json.dumps(..., ensure_ascii=False)]. *)
Definition escape_char (c : ascii) : string :=
  let n := nat_of_ascii c in
  if Ascii.eqb c Py.dquote then Py.BS +:+ Py.DQ
  else if Ascii.eqb c Py.backslash then Py.BS +:+ Py.BS
  else if (n =? 10)%nat then Py.BS +:+ "n"
  else if (n =? 13)%nat then Py.BS +:+ "r"
  else if (n =? 9)%nat then Py.BS +:+ "t"
  else if (n =? 8)%nat then Py.BS +:+ "b"
  else if (n =? 12)%nat then Py.BS +:+ "f"
  else if (n <? 32)%nat then
    Py.BS +:+ "u00" +:+
    String (hex_digit (n / 16)) (String (hex_digit (n mod 16)) EmptyString)
  else String c EmptyString.

Fixpoint escape (s : string) : string :=
  match s with
  | EmptyString => EmptyString
  | String c t => escape_char c +:+ escape t
  end.

Definition quote (s : string) : string := Py.DQ +:+ escape s +:+ Py.DQ.

Fixpoint spaces (n : nat) : string :=
  match n with
  | O => EmptyString
  | S k => String " " (spaces k)
  end.

(** [json.dumps(v, indent=2, ensure_ascii=False)] at nesting depth [lvl]. *)
Fixpoint dumps_at (lvl : nat) (v : json) : string :=
  match v with
  | JNull => "null"
  | JBool true => "true"
  | JBool false => "false"
  | JNum n => pretty n
  | JStr s => quote s
  | JArr [] => "[]"
  | JArr items =>
      "[" +:+ Py.NL +:+
      Py.join ("," +:+ Py.NL)
        (map (fun x => spaces (2 * S lvl) +:+ dumps_at (S lvl) x) items)
      +:+ Py.NL +:+ spaces (2 * lvl) +:+ "]"
  | JObj [] => "{}"
  | JObj fields =>
      "{" +:+ Py.NL +:+
      Py.join ("," +:+ Py.NL)
        (map (fun kv => spaces (2 * S lvl) +:+ quote (fst kv) +:+ ": "
                        +:+ dumps_at (S lvl) (snd kv)) fields)
      +:+ Py.NL +:+ spaces (2 * lvl) +:+ "}"
  end.

Definition dumps (v : json) : string := dumps_at 0 v.

End JsonRef.

(** ** features/testCaseGeneration/generator.py *)

Module TestCaseGeneration.

Definition CACHE_DIR : string := "testcaseGenerated".

(** [get_cache_file_path].  The directory is created by the source before
    the path is built; the store below has no directories. *)
Definition get_cache_file_path (ticket_id : string) : string :=
  let safe_ticket_id :=
    Py.replace (Py.replace ticket_id "/" "_") Py.BS "_" in
  Py.os_path_join CACHE_DIR (safe_ticket_id +:+ "_test_case.json").

(** One row of a formatted test case: the dictionary with the keys
    ["Step"] and ["Expected Result"]. *)
Record step_row : Type := {
  Step : json;
  Expected_Result : json
}.

(** A formatted test case: the dictionary with the keys ["id"], ["title"]
    and ["steps"]. *)
Record test_case : Type := {
  tc_id : json;
  tc_title : json;
  tc_steps : list step_row
}.

(** The context handed back with a [needs_more_info] answer. *)
Record context : Type := {
  ctx_ticket_id : string;
  ctx_jira_key : string;
  ctx_jira_project : string;
  ctx_jira_summary : string;
  ctx_jira_description : string;
  ctx_validation_result : option json;
  ctx_questions : json
}.

(** The error texts of the three generation paths, with the values that
    the source interpolates into them. *)
Inductive message : Type :=
| InvalidTicket (notes : json)
| NeedsMoreInfo (notes : json) (questions : option (list json))
| NoTestCasesDespiteReady
| NoTestCasesGenerated
| UnknownStatus (status : json) (raw : string)
| UnexpectedStatus (status : json) (raw : string)
| ModelDidNotReturnValidJson (raw : string)
| ErrorGenerating (e : exn)
| ErrorRegenerating (e : exn).

(** The tuple [(df, raw, error, formatted_test_cases, context_data)]. *)
Record gen_result : Type := {
  df : list step_row;
  raw_output : string;
  error : option message;
  formatted_test_cases : option (list test_case);
  context_data : option context
}.

(** The failing return: an empty data frame, an empty raw text, the
    message, no test cases and the given context. *)
Definition failure (msg : message) (ctx : option context) : gen_result :=
  {| df := []; raw_output := EmptyString; error := Some msg;
     formatted_test_cases := None; context_data := ctx |}.

(** *** The brace-balanced scan *)

(** The loop over [generation_output[start:]]: [i] is the index of the head
    of [chars]; the result is the pair [(brace_count, end)] at loop exit. *)
Fixpoint scan_braces (chars : string) (i : Z) (brace_count : Z)
  (in_string escape_next : bool) (end_ : Z) : Z * Z :=
  match chars with
  | EmptyString => (brace_count, end_)
  | String char rest =>
      if escape_next then
        scan_braces rest (i + 1) brace_count in_string false end_
      else if Ascii.eqb char Py.backslash then
        scan_braces rest (i + 1) brace_count in_string true end_
      else if Ascii.eqb char Py.dquote then
        scan_braces rest (i + 1) brace_count (negb in_string) false end_
      else if negb in_string then
        if Ascii.eqb char "{" then
          scan_braces rest (i + 1) (brace_count + 1) in_string false end_
        else if Ascii.eqb char "}" then
          if brace_count - 1 =? 0 then (brace_count - 1, i + 1)
          else scan_braces rest (i + 1) (brace_count - 1) in_string false end_
        else scan_braces rest (i + 1) brace_count in_string false end_
      else scan_braces rest (i + 1) brace_count in_string false end_
  end.

(** The balanced span, when there is one. *)
Definition find_json_span (generation_output : string) : option string :=
  let start := Py.find generation_output "{" in
  if negb (start =? -1) then
    let '(brace_count, end_) :=
      scan_braces (Py.slice_from generation_output start) start 0
                  false false start in
    if brace_count =? 0 then Some (Py.slice generation_output start end_)
    else None
  else None.

(** The text that reaches [json.loads]: the span, or else the whole
    output. *)
Definition json_text (generation_output : string) : string :=
  match find_json_span generation_output with
  | Some json_str => json_str
  | None => generation_output
  end.

(** *** The legacy array pattern [(\[\s*\{.*?\}\s*\])] with DOTALL *)

Fixpoint skip_space (s : string) : nat * string :=
  match s with
  | EmptyString => (O, s)
  | String c t =>
      if Py.is_space c then let '(k, r) := skip_space t in (S k, r)
      else (O, s)
  end.

(** Length of a bracket [a], white space and a bracket [b] at the head. *)
Definition bracket_pair (a b : ascii) (s : string) : option nat :=
  match s with
  | EmptyString => None
  | String c t =>
      if Ascii.eqb c a then
        match skip_space t with
        | (k, String d _) => if Ascii.eqb d b then Some (k + 2)%nat else None
        | (_, EmptyString) => None
        end
      else None
  end.

(** The lazy middle: the shortest text followed by the closing pair. *)
Fixpoint lazy_close (s : string) : option nat :=
  match bracket_pair "}" "]" s with
  | Some n => Some n
  | None =>
      match s with
      | EmptyString => None
      | String _ t => option_map S (lazy_close t)
      end
  end.

Definition match_array_here (s : string) : option string :=
  match bracket_pair "[" "{" s with
  | None => None
  | Some n =>
      match lazy_close (Py.drop n s) with
      | None => None
      | Some m => Some (Py.take (n + m) s)
      end
  end.

(** [re.search(pattern, raw, re.DOTALL)]: group 1 of the leftmost match. *)
Fixpoint re_search_array (raw : string) : option string :=
  match match_array_here raw with
  | Some g => Some g
  | None =>
      match raw with
      | EmptyString => None
      | String _ t => re_search_array t
      end
  end.

Section WithJson.

(** [json.loads] ([None] is [JSONDecodeError]) and [json.dumps]. *)
Variable json_loads : string -> option json.
Variable json_dumps : json -> string.

(** Whether [open(path, 'w')] and the dump that follows go through.  The
    source wraps every write of a cache file in [try] and swallows the
    exception, so a write that fails leaves the store as it was. *)
Variable writable : string -> bool.

(** [pd.DataFrame(rows).to_dict('records')]: the rows read back from the
    data frame, in which pandas may have rewritten the values of a column
    (an integer beside a null becomes a float, the null a NaN). *)
Variable to_records : list step_row -> list step_row.

Definition loads_exn (s : string) : res json :=
  match json_loads s with
  | Some v => Ok v
  | None => Raise JSONDecodeError
  end.

(** [load_cached_test_cases]: any exception while reading is a miss. *)
Definition load_cached_test_cases (fs : gmap string string)
  (ticket_id : string) : option json :=
  let cache_file := get_cache_file_path ticket_id in
  match fs !! cache_file with
  | Some content =>
      match loads_exn content with
      | Ok v => Some v
      | Raise _ => None
      end
  | None => None
  end.

(** [save_test_cases_to_cache]: the handler of the function prints a
    warning and returns, so a failed write changes nothing. *)
Definition save_test_cases_to_cache (fs : gmap string string)
  (ticket_id : string) (test_cases_data : json) : gmap string string :=
  let cache_file := get_cache_file_path ticket_id in
  if writable cache_file
  then <[cache_file := json_dumps test_cases_data]> fs
  else fs.

(** *** Formatting of a [ready] payload *)

(** The loop [for i, step in enumerate(steps)]. *)
Fixpoint format_steps (expected_results : json) (i : nat) (steps : list json)
  : res (list step_row) :=
  match steps with
  | [] => Ok []
  | step :: rest =>
      let! n := Json.py_len expected_results in
      let! e := (if (i <? n)%nat then Json.index expected_results i
                 else Ok (JStr EmptyString)) in
      let! rows := format_steps expected_results (S i) rest in
      Ok ({| Step := step; Expected_Result := e |} :: rows)
  end.

(** The body of [for tc in test_cases]. *)
Definition format_test_case (tc : json) : res test_case :=
  let! id := Json.get tc "id" (JStr EmptyString) in
  let! title := Json.get tc "title" (JStr "Untitled") in
  let! steps := Json.get tc "steps" (JArr []) in
  let! expected_results := Json.get tc "expected_results" (JArr []) in
  let! step_list := Json.iter steps in
  let! formatted_steps := format_steps expected_results 0 step_list in
  Ok {| tc_id := id; tc_title := title; tc_steps := formatted_steps |}.

Definition format_test_cases (test_cases : json) : res (list test_case) :=
  let! tcs := Json.iter test_cases in
  mapM format_test_case tcs.

(** All step rows of all test cases, in order. *)
Definition all_rows (formatted : list test_case) : list step_row :=
  concat (map tc_steps formatted).

(** [questions_text]: [None] is the text for no specific questions. *)
Definition questions_text (questions : json) : res (option (list json)) :=
  if Json.truthy questions then
    let! qs := Json.iter questions in Ok (Some qs)
  else Ok None.

(** The part of a generation path that succeeds: rows for the data frame,
    the raw output handed back, and the formatted test cases. *)
Definition success (rows : list step_row) (raw : string)
  (formatted : list test_case) : gen_result :=
  {| df := rows; raw_output := raw; error := None;
     formatted_test_cases := Some formatted; context_data := None |}.

(** The cache entry written after a [ready] answer. *)
Definition cache_entry (notes test_cases : json) : json :=
  JObj [("status", JStr "ready"); ("notes", notes);
        ("test_cases", test_cases)].

(** *** [generate_test_cases], from the answer of the model on

    The function is entered where the source has obtained [raw] and
    [generation_output] from the crew (credentials, the Jira ticket and the
    call of the model are external).  The inner [try] is
    [generate_test_cases_try]; its [except json.JSONDecodeError] is
    [legacy_array_fallback]; the outer [except Exception] closes
    [generate_test_cases]. *)
Definition generate_test_cases_try (fs : gmap string string)
  (ticket_id jira_key jira_project jira_summary jira_description : string)
  (raw generation_output : string) : res (gen_result * gmap string string) :=
  let! data := loads_exn (json_text generation_output) in
  let! status := Json.get data "status" (JStr EmptyString) in
  if Json.is_str status "invalid" then
    let! notes := Json.get data "notes" (JStr "Invalid ticket") in
    Ok (failure (InvalidTicket notes) None, fs)
  else if Json.is_str status "needs_more_info" then
    let! questions := Json.get data "questions" (JArr []) in
    let! qtext := questions_text questions in
    let ctx := {| ctx_ticket_id := ticket_id;
                  ctx_jira_key := jira_key;
                  ctx_jira_project := jira_project;
                  ctx_jira_summary := jira_summary;
                  ctx_jira_description := jira_description;
                  ctx_validation_result := Some data;
                  ctx_questions := questions |} in
    let! notes := Json.get data "notes" (JStr EmptyString) in
    Ok (failure (NeedsMoreInfo notes qtext) (Some ctx), fs)
  else if Json.is_str status "ready" then
    let! test_cases := Json.get data "test_cases" (JArr []) in
    if negb (Json.truthy test_cases) then
      Ok (failure NoTestCasesDespiteReady None, fs)
    else
      let! formatted := format_test_cases test_cases in
      let! notes := Json.get data "notes" (JStr EmptyString) in
      Ok (success (all_rows formatted) raw formatted,
          save_test_cases_to_cache fs ticket_id (cache_entry notes test_cases))
  else Ok (failure (UnknownStatus status raw) None, fs).

(** One item of the old array format. *)
Definition legacy_row (item : json) : res step_row :=
  let! step := Json.get item "step" (JStr EmptyString) in
  let! expected := Json.get item "expected_result" (JStr EmptyString) in
  Ok {| Step := step; Expected_Result := expected |}.

(** The handler of [json.JSONDecodeError] in [generate_test_cases]. *)
Definition legacy_array_fallback (fs : gmap string string)
  (ticket_id raw : string) : res (gen_result * gmap string string) :=
  match re_search_array raw with
  | Some group =>
      let! data := loads_exn group in
      let! items := Json.iter data in
      let! rows := mapM legacy_row items in
      let formatted :=
        [ {| tc_id := JStr "TC-01"; tc_title := JStr "Test Case 1";
             tc_steps := to_records rows |} ] in
      let cached :=
        JArr [ JObj [("id", JStr "TC-01"); ("title", JStr "Test Case 1");
                     ("steps", JArr (map Step rows));
                     ("expected_results", JArr (map Expected_Result rows))] ]
      in
      Ok (success rows raw formatted,
          save_test_cases_to_cache fs ticket_id
            (cache_entry (JStr "Test cases generated (fallback format)")
                         cached))
  | None => Ok (failure (ModelDidNotReturnValidJson raw) None, fs)
  end.

Definition generate_test_cases (fs : gmap string string)
  (ticket_id jira_key jira_project jira_summary jira_description : string)
  (raw generation_output : string) : gen_result * gmap string string :=
  match generate_test_cases_try fs ticket_id jira_key jira_project
          jira_summary jira_description raw generation_output with
  | Ok r => r
  | Raise JSONDecodeError =>
      match legacy_array_fallback fs ticket_id raw with
      | Ok r => r
      | Raise e => (failure (ErrorGenerating e) None, fs)
      end
  | Raise e => (failure (ErrorGenerating e) None, fs)
  end.

(** *** [generate_test_cases_with_additional_info], from the answer on *)
Definition generate_test_cases_with_additional_info_try
  (fs : gmap string string) (ctx : context)
  (raw generation_output : string) : res (gen_result * gmap string string) :=
  let! data := loads_exn (json_text generation_output) in
  let! status := Json.get data "status" (JStr EmptyString) in
  if Json.is_str status "invalid" then
    let! notes := Json.get data "notes" (JStr "Invalid ticket") in
    Ok (failure (InvalidTicket notes) None, fs)
  else if Json.is_str status "needs_more_info" then
    let! questions := Json.get data "questions" (JArr []) in
    let! qtext := questions_text questions in
    let ctx' := {| ctx_ticket_id := ctx_ticket_id ctx;
                   ctx_jira_key := ctx_jira_key ctx;
                   ctx_jira_project := ctx_jira_project ctx;
                   ctx_jira_summary := ctx_jira_summary ctx;
                   ctx_jira_description := ctx_jira_description ctx;
                   ctx_validation_result := Some data;
                   ctx_questions := questions |} in
    let! notes := Json.get data "notes" (JStr EmptyString) in
    Ok (failure (NeedsMoreInfo notes qtext) (Some ctx'), fs)
  else if Json.is_str status "ready" then
    let! test_cases := Json.get data "test_cases" (JArr []) in
    if negb (Json.truthy test_cases) then
      Ok (failure NoTestCasesDespiteReady None, fs)
    else
      let! formatted := format_test_cases test_cases in
      let ticket_id := ctx_ticket_id ctx in
      let! notes := Json.get data "notes" (JStr EmptyString) in
      Ok (success (all_rows formatted) raw formatted,
          if negb (String.eqb ticket_id EmptyString)
          then save_test_cases_to_cache fs ticket_id
                 (cache_entry notes test_cases)
          else fs)
  else Ok (failure (UnknownStatus status raw) None, fs).

Definition generate_test_cases_with_additional_info
  (fs : gmap string string) (ctx : context)
  (raw generation_output : string) : gen_result * gmap string string :=
  match generate_test_cases_with_additional_info_try fs ctx raw
          generation_output with
  | Ok r => r
  | Raise JSONDecodeError => (failure (ModelDidNotReturnValidJson raw) None, fs)
  | Raise e => (failure (ErrorGenerating e) None, fs)
  end.

(** *** [regenerate_test_cases_with_feedback], from the answer on *)

(** The formatted test cases put back into the cached layout. *)
Definition cache_test_case (tc : test_case) : json :=
  JObj [("id", tc_id tc); ("title", tc_title tc);
        ("steps", JArr (map Step (tc_steps tc)));
        ("expected_results", JArr (map Expected_Result (tc_steps tc)))].

(** [extract_ticket_id] is the search of the ticket pattern in the feature
    text; no property below depends on what it finds. *)
Variable extract_ticket_id : string -> option string.

(** [ticket_id if ticket_id else extract_ticket_id(original_feature_text)]. *)
Definition cache_ticket_id (ticket_id : option string)
  (original_feature_text : string) : option string :=
  match ticket_id with
  | Some t =>
      if negb (String.eqb t EmptyString) then Some t
      else extract_ticket_id original_feature_text
  | None => extract_ticket_id original_feature_text
  end.

Definition regenerate_test_cases_with_feedback_try
  (fs : gmap string string) (original_feature_text : string)
  (ticket_id : option string) (raw generation_output : string)
  : res (gen_result * gmap string string) :=
  let! data := loads_exn (json_text generation_output) in
  let! status := Json.get data "status" (JStr EmptyString) in
  if Json.is_str status "ready" then
    let! test_cases := Json.get data "test_cases" (JArr []) in
    if negb (Json.truthy test_cases) then
      Ok (failure NoTestCasesGenerated None, fs)
    else
      let! formatted := format_test_cases test_cases in
      let! notes :=
        Json.get data "notes"
          (JStr "Test cases regenerated based on user feedback") in
      Ok (success (all_rows formatted) raw formatted,
          match cache_ticket_id ticket_id original_feature_text with
          | Some t =>
              if negb (String.eqb t EmptyString)
              then save_test_cases_to_cache fs t
                     (cache_entry notes (JArr (map cache_test_case formatted)))
              else fs
          | None => fs
          end)
  else Ok (failure (UnexpectedStatus status raw) None, fs).

Definition regenerate_test_cases_with_feedback
  (fs : gmap string string) (original_feature_text : string)
  (ticket_id : option string) (raw generation_output : string)
  : gen_result * gmap string string :=
  match regenerate_test_cases_with_feedback_try fs original_feature_text
          ticket_id raw generation_output with
  | Ok r => r
  | Raise JSONDecodeError => (failure (ModelDidNotReturnValidJson raw) None, fs)
  | Raise e => (failure (ErrorRegenerating e) None, fs)
  end.

End WithJson.

End TestCaseGeneration.

(** ** features/codeGenerator/generator.py *)

Module CodeGenerator.

Definition CODE_CACHE_DIR : string := "codeGenerated".

(** [if ticket_id:] for an optional string argument. *)
Definition given (ticket_id : option string) : option string :=
  match ticket_id with
  | Some t => if String.eqb t EmptyString then None else Some t
  | None => None
  end.

(** [get_code_cache_file_path]. *)
Definition get_code_cache_file_path (test_case_id : string)
  (ticket_id : option string) : string :=
  let safe_test_case_id :=
    Py.replace (Py.replace (Py.replace test_case_id "/" "_") Py.BS "_")
               " " "_" in
  let filename :=
    match given ticket_id with
    | Some t =>
        let safe_ticket_id := Py.replace (Py.replace t "/" "_") Py.BS "_" in
        safe_ticket_id +:+ "_" +:+ safe_test_case_id +:+ "_code.json"
    | None => safe_test_case_id +:+ "_code.json"
    end in
  Py.os_path_join CODE_CACHE_DIR filename.

Definition required_keys : list string :=
  ["locators"; "reusable_functions"; "test_functions"; "cursor_prompt"].

Definition FENCE : string := "```".
Definition FENCE_JSON : string := "```json".

(** The text [json_str] that [parse_code_json] hands to the parser. *)
Definition code_json_text (raw_output : string) : string :=
  if Py.contains raw_output FENCE_JSON then
    let start := Py.find raw_output FENCE_JSON + 7 in
    let end_ := Py.find_at raw_output FENCE start in
    Py.strip (Py.slice raw_output start end_)
  else if Py.contains raw_output FENCE then
    let start := Py.find raw_output FENCE + 3 in
    let end_ := Py.find_at raw_output FENCE start in
    let json_str := Py.strip (Py.slice raw_output start end_) in
    if Py.startswith json_str "json"
    then Py.strip (Py.slice_from json_str 4)
    else json_str
  else
    let start := Py.find raw_output "{" in
    let end_ := Py.rfind raw_output "}" + 1 in
    if (start >=? 0) && (end_ >? start)
    then Py.slice raw_output start end_
    else raw_output.

(** The rewrite applied before the second attempt. *)
Definition strip_trailing_commas (json_str : string) : string :=
  Py.replace
    (Py.replace json_str ("," +:+ Py.NL +:+ "}") (Py.NL +:+ "}"))
    ("," +:+ Py.NL +:+ "]") (Py.NL +:+ "]").

Section WithJson.

Variable json_loads : string -> option json.
Variable json_dumps : json -> string.

(** Whether the write of a cache file goes through; see
    [TestCaseGeneration.save_test_cases_to_cache]. *)
Variable writable : string -> bool.

Definition loads_exn (s : string) : res json :=
  match json_loads s with
  | Some v => Ok v
  | None => Raise JSONDecodeError
  end.

(** Parse and validate: the statements shared by both attempts. *)
Definition parse_and_validate (json_str : string) : res (option json) :=
  let! parsed := loads_exn json_str in
  let! complete := Json.all_in required_keys parsed in
  if complete then Ok (Some parsed) else Ok None.

(** The body of the outer [try]. *)
Definition parse_code_json_try (raw_output : string) : res (option json) :=
  parse_and_validate (code_json_text raw_output).

(** The handler of [json.JSONDecodeError]: one more attempt on the
    rewritten text; whatever it raises is dropped. *)
Definition parse_code_json_retry (raw_output : string) : option json :=
  match parse_and_validate
          (strip_trailing_commas (code_json_text raw_output)) with
  | Ok (Some parsed) => Some parsed
  | Ok None => None
  | Raise _ => None
  end.

(** [parse_code_json]: the result is [Ok] of the optional dictionary, or
    the exception that leaves the function. *)
Definition parse_code_json (raw_output : string) : res (option json) :=
  match parse_code_json_try raw_output with
  | Ok r => Ok r
  | Raise JSONDecodeError => Ok (parse_code_json_retry raw_output)
  | Raise _ => Ok None
  end.

(** [load_cached_code]. *)
Definition load_cached_code (fs : gmap string string)
  (test_case_id : string) (ticket_id : option string) : option json :=
  let cache_file := get_code_cache_file_path test_case_id ticket_id in
  match fs !! cache_file with
  | Some content =>
      match loads_exn content with
      | Ok v => Some v
      | Raise _ => None
      end
  | None => None
  end.

(** The entry [save_data] built by [save_code_to_cache]; [now] is the
    reading of the clock. *)
Definition save_data (now : string) (test_case_id test_case_title : string)
  (ticket_id : option string) (code_data formatted_code : json) : json :=
  JObj [("test_case_id", JStr test_case_id);
        ("test_case_title", JStr test_case_title);
        ("ticket_id", match ticket_id with Some t => JStr t | None => JNull end);
        ("generated_date", JStr now);
        ("code", code_data);
        ("formatted", formatted_code)].

(** [save_code_to_cache]. *)
Definition save_code_to_cache (fs : gmap string string) (now : string)
  (test_case_id test_case_title : string) (ticket_id : option string)
  (code_data formatted_code : json) : gmap string string :=
  let cache_file := get_code_cache_file_path test_case_id ticket_id in
  if writable cache_file
  then <[cache_file :=
           json_dumps (save_data now test_case_id test_case_title ticket_id
                                 code_data formatted_code)]> fs
  else fs.

End WithJson.

End CodeGenerator.

(** ** String conversion of dynamic values, as used by the f-strings *)

Module Fmt.

Definition repr_char (q : ascii) (c : ascii) : string :=
  let n := nat_of_ascii c in
  if Ascii.eqb c Py.backslash then Py.BS +:+ Py.BS
  else if Ascii.eqb c q then Py.BS +:+ String q EmptyString
  else if (n =? 10)%nat then Py.BS +:+ "n"
  else if (n =? 13)%nat then Py.BS +:+ "r"
  else if (n =? 9)%nat then Py.BS +:+ "t"
  else if ((n <? 32) || (n =? 127))%nat then
    Py.BS +:+ "x" +:+
    String (JsonRef.hex_digit (n / 16))
           (String (JsonRef.hex_digit (n mod 16)) EmptyString)
  else String c EmptyString.

Fixpoint repr_body (q : ascii) (s : string) : string :=
  match s with
  | EmptyString => EmptyString
  | String c t => repr_char q c +:+ repr_body q t
  end.

(** [repr(s)] for a string: single quotes unless the text has a single
    quote and no double quote. *)
Definition repr_str (s : string) : string :=
  let q := if Py.has_char "'" s && negb (Py.has_char Py.dquote s)
           then Py.dquote else "'"%char in
  String q (repr_body q s +:+ String q EmptyString).

(** [repr(v)]. *)
Fixpoint repr (v : json) : string :=
  match v with
  | JNull => "None"
  | JBool true => "True"
  | JBool false => "False"
  | JNum n => pretty n
  | JStr s => repr_str s
  | JArr items => "[" +:+ Py.join ", " (map repr items) +:+ "]"
  | JObj fields =>
      "{" +:+
      Py.join ", "
        (map (fun kv => repr_str (fst kv) +:+ ": " +:+ repr (snd kv)) fields)
      +:+ "}"
  end.

(** [str(v)], which is what [{v}] in an f-string inserts. *)
Definition str (v : json) : string :=
  match v with
  | JStr s => s
  | _ => repr v
  end.

End Fmt.

(** ** features/recording/playwright_codegen.py and recorder.py *)

Module Recording.

(** *** Action dictionaries *)

Definition selector_info (type value : string) : json :=
  JObj [("type", JStr type); ("value", JStr value)].

Definition navigate_action (url timestamp : string) : json :=
  JObj [("type", JStr "navigate"); ("url", JStr url);
        ("timestamp", JStr timestamp)].

Definition click_action (selector : json) (timestamp : string) : json :=
  JObj [("type", JStr "click"); ("selector", selector);
        ("timestamp", JStr timestamp)].

Definition fill_action (selector : json) (value timestamp : string) : json :=
  JObj [("type", JStr "fill"); ("selector", selector);
        ("value", JStr value); ("timestamp", JStr timestamp)].

(** *** [PlaywrightCodegenRecorder._extract_actions_from_code] *)

(** The loop over the two quote characters in the navigation branch. *)
Fixpoint goto_url (quotes : list string) (line : string) : option string :=
  match quotes with
  | [] => None
  | quote :: rest =>
      let pattern := "page.goto(" +:+ quote in
      if Py.contains line pattern then
        let start := Py.find line pattern + Py.len pattern in
        let end_ := Py.find_at line quote start in
        if end_ >? start then Some (Py.slice line start end_)
        else goto_url rest line
      else goto_url rest line
  end.

(** The literal after an accessor such as [get_by_test_id(]: the source
    repeats these statements for every accessor, with the accessor name
    written into the two patterns. *)
Definition accessor_literal (accessor line : string) : option string :=
  let double := accessor +:+ Py.DQ in
  let single := accessor +:+ "'" in
  let start := Py.find line double + Py.len double in
  let start := if start <? Py.len double
               then Py.find line single + Py.len single
               else start in
  let end_ := if Py.contains (Py.slice_from line start) Py.DQ
              then Py.find_at line Py.DQ start
              else Py.find_at line "'" start in
  if end_ >? start then Some (Py.slice line start end_) else None.

Definition selector_of (type accessor line : string) : option json :=
  option_map (selector_info type) (accessor_literal accessor line).

(** [selector_info] of the click branch. *)
Definition click_selector (line : string) : option json :=
  if Py.contains line "get_by_test_id(" then
    selector_of "testid" "get_by_test_id(" line
  else if Py.contains line "get_by_role(" then
    selector_of "role" "get_by_role(" line
  else if Py.contains line "locator(" then
    selector_of "css" "locator(" line
  else None.

(** [selector_info] of the fill branch. *)
Definition fill_selector (line : string) : option json :=
  if Py.contains line "get_by_test_id(" then
    selector_of "testid" "get_by_test_id(" line
  else if Py.contains line "locator(" then
    selector_of "css" "locator(" line
  else None.

(** The loop over [fill_patterns]; [pattern[-1]] is passed as [quote]. *)
Fixpoint fill_value (quotes : list string) (line : string) : string :=
  match quotes with
  | [] => EmptyString
  | quote :: rest =>
      let pattern := ".fill(" +:+ quote in
      if Py.contains line pattern then
        let value_start := Py.find line pattern + Py.len pattern in
        let value_end := Py.find_at line quote value_start in
        if value_end >? value_start
        then Py.slice line value_start value_end
        else fill_value rest line
      else fill_value rest line
  end.

Definition QUOTES : list string := [Py.DQ; "'"].

Section WithClock.

(** [datetime.now().isoformat()] when [n] actions have been recorded. *)
Variable clock : nat -> string.

Definition stamp (recorded_actions : list json) : string :=
  clock (length recorded_actions).

(** The body of [for line in lines]. *)
Definition extract_line (recorded_actions : list json) (line0 : string)
  : list json :=
  let line := Py.strip line0 in
  if Py.contains line "page.goto(" || Py.contains line "page.goto(" then
    match goto_url QUOTES line with
    | Some url =>
        recorded_actions ++ [navigate_action url (stamp recorded_actions)]
    | None => recorded_actions
    end
  else if Py.contains line ".click()" then
    match click_selector line with
    | Some sel => recorded_actions ++ [click_action sel (stamp recorded_actions)]
    | None => recorded_actions
    end
  else if Py.contains line ".fill(" then
    match fill_selector line with
    | Some sel =>
        recorded_actions ++
        [fill_action sel (fill_value QUOTES line) (stamp recorded_actions)]
    | None => recorded_actions
    end
  else recorded_actions.

(** [_extract_actions_from_code]: the new value of [self.recorded_actions]. *)
Definition _extract_actions_from_code (start_url generated_python_code : string)
  (recorded_actions : list json) : list json :=
  if String.eqb generated_python_code EmptyString then
    recorded_actions ++ [navigate_action start_url (stamp recorded_actions)]
  else
    let lines := Py.split generated_python_code Py.newline in
    let recorded := fold_left extract_line lines recorded_actions in
    match recorded with
    | [] => [navigate_action start_url (stamp recorded)]
    | _ => recorded
    end.

End WithClock.

(** *** [convert_actions_to_test_steps] *)

(** [_make_selector_readable]: [startswith] exists on strings only. *)
Definition _make_selector_readable (selector : json) : res string :=
  if negb (Json.truthy selector) then Ok "element"
  else
    match selector with
    | JStr s =>
        if Py.startswith s "data-testid=" then
          Ok (Py.replace s "data-testid=" EmptyString)
        else if Py.startswith s "#" then
          Ok ("element with id '" +:+ Py.slice_from s 1 +:+ "'")
        else if Py.startswith s "[name='" then
          Ok ("field '" +:+
              Py.replace (Py.replace s "[name='" EmptyString) "']" EmptyString
              +:+ "'")
        else if Py.startswith s "text='" then
          Ok ("'" +:+
              Py.replace (Py.replace s "text='" EmptyString) "'" EmptyString
              +:+ "'")
        else Ok s
    | _ => Raise AttributeError
    end.

(** The loop of [convert_actions_to_test_steps]: [steps] and [step_num]
    are the two accumulators. *)
Fixpoint convert_loop (actions : list json) (steps : list string)
  (step_num : Z) : res (list string) :=
  match actions with
  | [] => Ok steps
  | action :: rest =>
      let! action_type := Json.get action "type" JNull in
      let! selector := Json.get action "selector" (JStr EmptyString) in
      let! value := Json.get action "value" (JStr EmptyString) in
      if Json.is_str action_type "navigate" then
        let! url := Json.get action "url" (JStr EmptyString) in
        convert_loop rest
          (steps ++ [pretty step_num +:+ ". Navigate to " +:+ Fmt.str url])
          (step_num + 1)
      else if Json.is_str action_type "click" then
        let! readable_selector := _make_selector_readable selector in
        convert_loop rest
          (steps ++ [pretty step_num +:+ ". Click on " +:+ readable_selector])
          (step_num + 1)
      else if Json.is_str action_type "fill" then
        let! readable_selector := _make_selector_readable selector in
        convert_loop rest
          (steps ++ [pretty step_num +:+ ". Enter '" +:+ Fmt.str value
                     +:+ "' in " +:+ readable_selector])
          (step_num + 1)
      else if Json.is_str action_type "keypress" then
        let! key := Json.get action "key" (JStr EmptyString) in
        convert_loop rest
          (steps ++ [pretty step_num +:+ ". Press " +:+ Fmt.str key +:+ " key"])
          (step_num + 1)
      else convert_loop rest steps step_num
  end.

Definition convert_actions_to_test_steps (actions : list json)
  : res (list string) :=
  convert_loop actions [] 1.

(** *** [BrowserRecorder._extract_locators_from_actions] *)

(** The two declarations for one selector, or [None] where the source
    takes [continue]. *)
Definition locator_lines (sel_type sel_value sel_name : json)
  (locator_name : string) : option (string * string) :=
  let v := Fmt.str sel_value in
  if Json.is_str sel_type "testid" then
    Some ("    " +:+ locator_name +:+ " = page.get_by_test_id(" +:+ Py.DQ
          +:+ v +:+ Py.DQ +:+ ")",
          "const " +:+ locator_name +:+ " = page.getByTestId('" +:+ v
          +:+ "');")
  else if Json.is_str sel_type "role" then
    if Json.truthy sel_name then
      Some ("    " +:+ locator_name +:+ " = page.get_by_role(" +:+ Py.DQ
            +:+ v +:+ Py.DQ +:+ ", name=" +:+ Py.DQ +:+ Fmt.str sel_name
            +:+ Py.DQ +:+ ")",
            "const " +:+ locator_name +:+ " = page.getByRole('" +:+ v
            +:+ "', { name: '" +:+ Fmt.str sel_name +:+ "' });")
    else
      Some ("    " +:+ locator_name +:+ " = page.get_by_role(" +:+ Py.DQ
            +:+ v +:+ Py.DQ +:+ ")",
            "const " +:+ locator_name +:+ " = page.getByRole('" +:+ v
            +:+ "');")
  else if Json.is_str sel_type "text" then
    Some ("    " +:+ locator_name +:+ " = page.get_by_text(" +:+ Py.DQ
          +:+ v +:+ Py.DQ +:+ ")",
          "const " +:+ locator_name +:+ " = page.getByText('" +:+ v
          +:+ "');")
  else if Json.is_str sel_type "id" then
    Some ("    " +:+ locator_name +:+ " = page.locator(" +:+ Py.DQ +:+ "#"
          +:+ v +:+ Py.DQ +:+ ")",
          "const " +:+ locator_name +:+ " = page.locator('#" +:+ v +:+ "');")
  else if Json.is_str sel_type "name" then
    Some ("    " +:+ locator_name +:+ " = page.locator(" +:+ Py.DQ
          +:+ "[name=" +:+ Py.BS +:+ Py.DQ +:+ v +:+ Py.BS +:+ Py.DQ +:+ "]"
          +:+ Py.DQ +:+ ")",
          "const " +:+ locator_name +:+ " = page.locator('[name=" +:+ Py.DQ
          +:+ v +:+ Py.DQ +:+ "]');")
  else None.

(** [sel_value.replace("-", "_").replace(" ", "_").lower()], cut to thirty
    characters; only a string has [replace]. *)
Definition locator_name_of (sel_value : json) : res string :=
  match sel_value with
  | JStr s =>
      let name := Py.lower (Py.replace (Py.replace s "-" "_") " " "_") in
      Ok (if Py.len name >? 30 then Py.slice name 0 30 else name)
  | _ => Raise AttributeError
  end.

(** The state of the loop: the two lists of lines and the set of keys
    already seen. *)
Record locator_state : Type := {
  locators_python : list string;
  locators_javascript : list string;
  seen_selectors : gset string
}.

(** The body of [for action in self.actions]. *)
Definition locator_step (st : locator_state) (action : json)
  : res locator_state :=
  let! selector := Json.get action "selector" (JObj []) in
  match selector with
  | JObj _ =>
      let! sel_type := Json.get selector "type" (JStr EmptyString) in
      let! sel_value := Json.get selector "value" (JStr EmptyString) in
      let! sel_name := Json.get selector "name" (JStr EmptyString) in
      if negb (Json.truthy sel_value) then Ok st
      else
        let locator_key := Fmt.str sel_type +:+ "_" +:+ Fmt.str sel_value in
        if decide (locator_key ∈ seen_selectors st) then Ok st
        else
          let seen := {[ locator_key ]} ∪ seen_selectors st in
          let! locator_name := locator_name_of sel_value in
          match locator_lines sel_type sel_value sel_name locator_name with
          | Some (py_loc, js_loc) =>
              Ok {| locators_python := locators_python st ++ [py_loc];
                    locators_javascript := locators_javascript st ++ [js_loc];
                    seen_selectors := seen |}
          | None =>
              Ok {| locators_python := locators_python st;
                    locators_javascript := locators_javascript st;
                    seen_selectors := seen |}
          end
  | _ => Ok st
  end.

Fixpoint locator_loop (st : locator_state) (actions : list json)
  : res locator_state :=
  match actions with
  | [] => Ok st
  | action :: rest =>
      let! st' := locator_step st action in
      locator_loop st' rest
  end.

(** The lines collected by [_extract_locators_from_actions], headers
    included, before they are joined. *)
Definition locator_declarations (actions : list json)
  : res (list string * list string) :=
  let! st := locator_loop {| locators_python := ["class Locators:"];
                             locators_javascript := ["// Locators"];
                             seen_selectors := ∅ |} actions in
  let py := match locators_python st with
            | [header] => [header; "    # No locators recorded"]
            | lines => lines
            end in
  Ok (py, locators_javascript st).

(** [_extract_locators_from_actions]: the new values of
    [self.locators_python] and [self.locators_javascript]. *)
Definition _extract_locators_from_actions (actions : list json)
  : res (string * string) :=
  let! decls := locator_declarations actions in
  Ok (Py.join Py.NL (fst decls), Py.join Py.NL (snd decls)).

End Recording.

(** ** Notions used to state the properties

    These definitions follow the words of the specification, not a source
    function: they say what a sanitised identifier is and what the text of a
    JSON object looks like to a brace counter. *)

Module Sanitized.

(** Character-wise replacement. *)
Fixpoint map_chars (f : ascii -> ascii) (s : string) : string :=
  match s with
  | EmptyString => EmptyString
  | String c t => String (f c) (map_chars f t)
  end.

(** A path separator becomes an underscore. *)
Definition no_separator (c : ascii) : ascii :=
  if Ascii.eqb c "/" || Ascii.eqb c Py.backslash then "_"%char else c.

(** A path separator or a space becomes an underscore. *)
Definition no_separator_no_space (c : ascii) : ascii :=
  if Ascii.eqb c "/" || Ascii.eqb c Py.backslash || Ascii.eqb c " "
  then "_"%char else c.

(** The identifier has neither kind of path separator. *)
Definition separator_free (s : string) : bool :=
  negb (Py.has_char "/" s) && negb (Py.has_char Py.backslash s).

(** The identifier has no path separator and no space. *)
Definition filesystem_safe (s : string) : bool :=
  separator_free s && negb (Py.has_char " " s).

End Sanitized.

Module Shape.

(** One item between the quotes of a JSON string: a character other than
    the double quote and the backslash, or a backslash escape. *)
Inductive qitem : Type :=
| QChar (c : ascii)
| QEscape (c : ascii).

(** The text between the braces of a JSON object, as far as a brace
    counter can tell: characters outside strings (structural characters,
    white space, numbers, [true], [false], [null], brackets), quoted
    strings, and nested objects, in sequence. *)
Inductive shape : Type :=
| SEnd
| SPlain (c : ascii) (rest : shape)
| SQuoted (q : list qitem) (rest : shape)
| SObject (body : shape) (rest : shape).

Definition render_qitem (i : qitem) : string :=
  match i with
  | QChar c => String c EmptyString
  | QEscape c => String Py.backslash (String c EmptyString)
  end.

Fixpoint render_quoted (q : list qitem) : string :=
  match q with
  | [] => EmptyString
  | i :: rest => render_qitem i +:+ render_quoted rest
  end.

(** The text of a shape. *)
Fixpoint render (sh : shape) : string :=
  match sh with
  | SEnd => EmptyString
  | SPlain c rest => String c (render rest)
  | SQuoted q rest =>
      String Py.dquote (render_quoted q +:+ String Py.dquote (render rest))
  | SObject body rest =>
      String "{" (render body +:+ String "}" (render rest))
  end.

(** The text of the object with the given body. *)
Definition object_text (body : shape) : string :=
  String "{" (render body +:+ "}").

Definition special (c : ascii) : bool :=
  Ascii.eqb c "{" || Ascii.eqb c "}" || Ascii.eqb c Py.dquote
  || Ascii.eqb c Py.backslash.

Definition wf_qitem (i : qitem) : bool :=
  match i with
  | QChar c => negb (Ascii.eqb c Py.dquote) && negb (Ascii.eqb c Py.backslash)
  | QEscape _ => true
  end.

(** Well-formedness: a plain character is none of the four special ones,
    and a plain character of a string is neither quote nor backslash. *)
Fixpoint wf (sh : shape) : bool :=
  match sh with
  | SEnd => true
  | SPlain c rest => negb (special c) && wf rest
  | SQuoted q rest => forallb wf_qitem q && wf rest
  | SObject body rest => wf body && wf rest
  end.

End Shape.

Module Padding.

Import TestCaseGeneration.

(** The rows the specification asks for: row [i] carries
    [expected_results[i]] if present, else the empty string. *)
Fixpoint padded (steps expected_results : list json) : list step_row :=
  match steps with
  | [] => []
  | step :: steps' =>
      match expected_results with
      | e :: expected' =>
          {| Step := step; Expected_Result := e |} :: padded steps' expected'
      | [] =>
          {| Step := step; Expected_Result := JStr EmptyString |}
          :: padded steps' []
      end
  end.

(** A test case of the payload: a dictionary whose ["steps"] and
    ["expected_results"] are the given lists. *)
Definition has_lists (tc : json) (steps expected_results : list json) : Prop :=
  exists fields,
    tc = JObj fields
    /\ Json.assoc fields "steps" = Some (JArr steps)
    /\ Json.assoc fields "expected_results" = Some (JArr expected_results).

(** The status that the paths read from a dictionary. *)
Definition status_of (fields : list (string * json)) : json :=
  match Json.assoc fields "status" with
  | Some s => s
  | None => JStr EmptyString
  end.

End Padding.

Module Outcome.

Import TestCaseGeneration.

(** The computation does not raise [JSONDecodeError]. *)
Definition decodes {A : Type} (m : res A) : Prop :=
  m <> Raise JSONDecodeError.

(** The outcome of a [try] body is neither [JSONDecodeError] nor a result
    that reports invalid JSON. *)
Definition settled (m : res (gen_result * gmap string string)) : Prop :=
  match m with
  | Ok (g, _) => forall raw, error g <> Some (ModelDidNotReturnValidJson raw)
  | Raise e => e <> JSONDecodeError
  end.

End Outcome.

Module Lines.





End Lines.

(** ** Concrete inputs on which the properties are exercised *)

Module Examples.

Import Shape TestCaseGeneration.

(** The body of the object [{"a": {"b": "}"}}], which holds a closing brace
    inside a string. *)
Definition nested_body : shape :=
  SQuoted [QChar "a"]
    (SPlain ":" (SPlain " "
      (SObject
         (SQuoted [QChar "b"] (SPlain ":" (SPlain " "
            (SQuoted [QChar "}"] SEnd))))
         SEnd))).

(** The body of the object [{"a": 1}]. *)
Definition small_body : shape :=
  SQuoted [QChar "a"] (SPlain ":" (SPlain " " (SPlain "1" SEnd))).

(** A text inside a [json] code fence. *)
Definition fenced (s : string) : string :=
  CodeGenerator.FENCE_JSON +:+ Py.NL +:+ s +:+ Py.NL +:+ CodeGenerator.FENCE.

Definition a_context : context :=
  {| ctx_ticket_id := "PAN-1"; ctx_jira_key := "PAN-1";
     ctx_jira_project := "P"; ctx_jira_summary := "S";
     ctx_jira_description := "D"; ctx_validation_result := None;
     ctx_questions := JArr [] |}.

(** A test case with three steps and one expected result, and one with two
    steps and none. *)
Definition case_3_1 : json :=
  JObj [("id", JStr "TC-01"); ("title", JStr "Login");
        ("steps", JArr [JStr "s1"; JStr "s2"; JStr "s3"]);
        ("expected_results", JArr [JStr "e1"])].

Definition case_2_0 : json :=
  JObj [("id", JStr "TC-02"); ("title", JStr "Logout");
        ("steps", JArr [JStr "t1"; JStr "t2"]);
        ("expected_results", JArr [])].

Definition ready_fields : list (string * json) :=
  [("status", JStr "ready"); ("notes", JStr "two cases");
   ("test_cases", JArr [case_3_1; case_2_0])].

Definition empty_ready_fields : list (string * json) :=
  [("status", JStr "ready"); ("notes", JStr "nothing");
   ("test_cases", JArr [])].

Definition needs_more_info_fields : list (string * json) :=
  [("status", JStr "needs_more_info"); ("notes", JStr "x");
   ("questions", JArr [JStr "what browser?"])].

Definition invalid_fields : list (string * json) :=
  [("status", JStr "invalid"); ("notes", JStr "not a story")].

(** A generated-code payload with the four required keys, and one that
    lacks the last of them. *)
Definition code_fields : list (string * json) :=
  [("locators", JObj [("python", JStr "class Locators: pass")]);
   ("reusable_functions", JObj []);
   ("test_functions", JObj []);
   ("cursor_prompt", JStr "Refine the locators")].






(** The three lines of the end-to-end scenario. *)
Definition scenario_code : string :=
  Py.join Py.NL
    [Py.lit "page.goto(`https://x.test/login`)";
     Py.lit "page.get_by_test_id(`submit-btn`).click()";
     Py.lit "page.locator(`#email`).fill(`a@b.com`)"].

(** The same three actions with the selectors written as strings, the form
    that [_make_selector_readable] takes apart. *)
Definition string_selector_actions : list json :=
  [JObj [("type", JStr "navigate"); ("url", JStr "https://x.test/login")];
   JObj [("type", JStr "click"); ("selector", JStr "data-testid=submit-btn")];
   JObj [("type", JStr "fill"); ("selector", JStr "#email");
         ("value", JStr "a@b.com")]].



(** The two lists of every case of the example answer. *)
Definition ready_lists : list (list json * list json) :=
  [([JStr "s1"; JStr "s2"; JStr "s3"], [JStr "e1"]);
   ([JStr "t1"; JStr "t2"], [])].

(** A payload that passes the validation of [parse_code_json] though its
    first section is a number. *)
Definition flat_code_fields : list (string * json) :=
  [("locators", JNum 1); ("reusable_functions", JObj []);
   ("test_functions", JObj []); ("cursor_prompt", JStr "p")].

(** The display form of [code_fields]. *)
Definition code_formatted : json :=
  JObj [("locators_python", JStr "class Locators: pass");
        ("locators_javascript", JStr EmptyString);
        ("reusable_functions_python", JStr EmptyString);
        ("reusable_functions_javascript", JStr EmptyString);
        ("test_functions_python", JStr EmptyString);
        ("test_functions_javascript", JStr EmptyString);
        ("cursor_prompt", JStr "Refine the locators")].

(** A file system on which every write goes through, and one on which
    none does. *)
Definition all_writable (path : string) : bool := true.
Definition read_only (path : string) : bool := false.

(** Rows that pandas hands back as they are. *)
Definition same_records (rows : list TestCaseGeneration.step_row)
  : list TestCaseGeneration.step_row := rows.

(** The formatted test cases of [ready_fields]. *)
Definition ready_formatted : list test_case :=
  [ {| tc_id := JStr "TC-01"; tc_title := JStr "Login";
       tc_steps :=
         [ {| Step := JStr "s1"; Expected_Result := JStr "e1" |};
           {| Step := JStr "s2"; Expected_Result := JStr EmptyString |};
           {| Step := JStr "s3"; Expected_Result := JStr EmptyString |} ] |};
    {| tc_id := JStr "TC-02"; tc_title := JStr "Logout";
       tc_steps :=
         [ {| Step := JStr "t1"; Expected_Result := JStr EmptyString |};
           {| Step := JStr "t2"; Expected_Result := JStr EmptyString |} ] |} ].

(** A clock that counts. *)
Definition tick (n : nat) : string := "t" +:+ pretty n.

(** The answer of a model: a line of prose, then the payload. *)
Definition answer (fields : list (string * json)) : string :=
  "Here is the result:" +:+ Py.NL +:+ JsonRef.dumps (JObj fields).

End Examples.

(** ** What the extractor produces *)

Module Produced.

Import Recording.

(** The three forms of action that the extractor appends. *)
Inductive extracted : json -> Prop :=
| extracted_navigate (url timestamp : string) :
    extracted (navigate_action url timestamp)
| extracted_click (type value timestamp : string) :
    extracted (click_action (selector_info type value) timestamp)
| extracted_fill (type value text timestamp : string) :
    extracted (fill_action (selector_info type value) text timestamp).

(** The value under ["type"] of an action dictionary. *)
Definition kind_is (kind : string) (action : json) : bool :=
  match Json.get action "type" JNull with
  | Ok t => Json.is_str t kind
  | Raise _ => false
  end.

Definition is_click_or_fill (action : json) : bool :=
  kind_is "click" action || kind_is "fill" action.

(** A line without any of the three tokens that the extractor looks for. *)
Definition plain_line (line0 : string) : bool :=
  let line := Py.strip line0 in
  negb (Py.contains line "page.goto(")
  && negb (Py.contains line ".click()")
  && negb (Py.contains line ".fill(").

(** Step [i] of a list begins with its number, counted from one, a full
    stop and a space. *)
Definition numbered (steps : list string) : Prop :=
  forall (i : nat) (s : string),
    nth_error steps i = Some s ->
    Py.startswith s (pretty (Z.of_nat i + 1) +:+ ". ") = true.

End Produced.

(** ** The cached branch of [generate_test_cases] *)

Module ReadThrough.

Import TestCaseGeneration.

Section WithJson.

Variable json_loads : string -> option json.

(** The statements of [generate_test_cases] between the extraction of the
    ticket id and the request to Jira: [Some] is the result returned from
    the cache, [None] means that the function goes on to generate.  They
    stand outside every [try], so an exception leaves the function. *)
Definition cached_test_cases (fs : gmap string string) (ticket_id : string)
  : res (option gen_result) :=
  match load_cached_test_cases json_loads fs ticket_id with
  | Some cached_data =>
      if Json.truthy cached_data then
        let! cached := Json.get cached_data "test_cases" (JArr []) in
        if Json.truthy cached then
          let! formatted := format_test_cases cached in
          Ok (Some {| df := all_rows formatted;
                      raw_output := "Cached test cases for " +:+ ticket_id;
                      error := None;
                      formatted_test_cases := Some formatted;
                      context_data := None |})
        else Ok None
      else Ok None
  | None => Ok None
  end.

End WithJson.

(** A generation path leaves the store alone unless it succeeds. *)
Definition quiet (fs : gmap string string)
  (m : res (gen_result * gmap string string)) : Prop :=
  match m with
  | Ok (g, fs') => error g <> None -> fs' = fs
  | Raise _ => True
  end.


End ReadThrough.

(** ** The rest of features/codeGenerator/generator.py *)

Module CodeFlow.

Import CodeGenerator.

(** [d[k]] on a dictionary: a missing key raises. *)
Definition item (v : json) (k : string) : res json :=
  match v with
  | JObj fields =>
      match Json.assoc fields k with
      | Some x => Ok x
      | None => Raise KeyError
      end
  | _ => Raise TypeError
  end.

(** The double [get] of a section and of a language in it, with the empty
    dictionary and the empty string as defaults. *)
Definition section_text (code_dict : json) (section language : string)
  : res json :=
  let! sec := Json.get code_dict section (JObj []) in
  Json.get sec language (JStr EmptyString).

(** [format_code_for_display]. *)
Definition format_code_for_display (code_dict : json) : res json :=
  let! lp := section_text code_dict "locators" "python" in
  let! lj := section_text code_dict "locators" "javascript" in
  let! rp := section_text code_dict "reusable_functions" "python" in
  let! rj := section_text code_dict "reusable_functions" "javascript" in
  let! tp := section_text code_dict "test_functions" "python" in
  let! tj := section_text code_dict "test_functions" "javascript" in
  let! cp := Json.get code_dict "cursor_prompt" (JStr EmptyString) in
  Ok (JObj [("locators_python", lp); ("locators_javascript", lj);
            ("reusable_functions_python", rp);
            ("reusable_functions_javascript", rj);
            ("test_functions_python", tp);
            ("test_functions_javascript", tj);
            ("cursor_prompt", cp)]).

(** The name of an exception class; the text that Python gives an
    exception is not modelled. *)
Definition exn_name (e : exn) : string :=
  match e with
  | JSONDecodeError => "JSONDecodeError"
  | AttributeError => "AttributeError"
  | TypeError => "TypeError"
  | KeyError => "KeyError"
  | IndexError => "IndexError"
  end.

Section WithJson.

Variable json_loads : string -> option json.
Variable json_dumps : json -> string.
Variable writable : string -> bool.

(** [generate_playwright_code], from the answer [raw_output] of the crew
    on.  The last branch is the handler of the function, which nothing after
    the answer reaches. *)
Definition generate_playwright_code (raw_output : string) : json :=
  match parse_code_json json_loads raw_output with
  | Ok (Some generated_code) =>
      if Json.truthy generated_code then
        JObj [("success", JBool true); ("code", generated_code);
              ("raw", JStr raw_output)]
      else
        JObj [("success", JBool false);
              ("error",
               JStr "Failed to parse generated code. Please try again.");
              ("raw", JStr raw_output)]
  | Ok None =>
      JObj [("success", JBool false);
            ("error", JStr "Failed to parse generated code. Please try again.");
            ("raw", JStr raw_output)]
  | Raise e =>
      JObj [("success", JBool false);
            ("error", JStr ("Error generating code: " +:+ exn_name e));
            ("raw", JStr EmptyString)]
  end.

(** [handle_generate_code]: the result dictionary and the store, or the
    exception that leaves the function (it has no handler of its own).
    [now] is the reading of the clock, [raw_output] the answer of the crew
    should the function come to ask for it. *)
Definition handle_generate_code (fs : gmap string string) (now : string)
  (test_case_id test_case_title : string) (test_steps : list string)
  (ticket_id : option string) (raw_output : string)
  : res (json * gmap string string) :=
  if String.eqb test_case_id EmptyString
     || String.eqb test_case_title EmptyString then
    Ok (JObj [("success", JBool false);
              ("error", JStr "Test case ID and title are required.")], fs)
  else
    match test_steps with
    | [] =>
        Ok (JObj [("success", JBool false);
                  ("error", JStr "Test steps are required to generate code.")],
            fs)
    | _ =>
        let cached_code :=
          match load_cached_code json_loads fs test_case_id ticket_id with
          | Some c => if Json.truthy c then Some c else None
          | None => None
          end in
        match cached_code with
        | Some c =>
            let! code := Json.get c "code" (JObj []) in
            let! formatted := Json.get c "formatted" (JObj []) in
            Ok (JObj [("success", JBool true); ("code", code);
                      ("formatted", formatted); ("cached", JBool true)], fs)
        | None =>
            let result := generate_playwright_code raw_output in
            let! ok := item result "success" in
            if Json.truthy ok then
              let! code := item result "code" in
              let! formatted := format_code_for_display code in
              let result' :=
                match result with
                | JObj fields => JObj (Json.assoc_set fields "formatted" formatted)
                | other => other
                end in
              Ok (result',
                  match given ticket_id with
                  | Some _ =>
                      save_code_to_cache json_dumps writable fs now
                        test_case_id
                        test_case_title ticket_id code formatted
                  | None => fs
                  end)
            else Ok (result, fs)
        end
    end.

End WithJson.

(** A section of the generated code is absent or is a dictionary. *)
Definition section_ok (fields : list (string * json)) (section : string)
  : bool :=
  match Json.assoc fields section with
  | None => true
  | Some (JObj _) => true
  | Some _ => false
  end.

Definition sections_ok (fields : list (string * json)) : bool :=
  section_ok fields "locators"
  && section_ok fields "reusable_functions"
  && section_ok fields "test_functions".

End CodeFlow.

(** ** The ticket history of features/testCaseGeneration/generator.py *)

Module History.

(** [entry.get(`ticket_id`) == ticket_id]: a missing key gives [None],
    which no string equals. *)
Definition names (entry : json) (ticket_id : string) : res bool :=
  let! v := Json.get entry "ticket_id" JNull in
  Ok (Json.is_str v ticket_id).

(** [get_ticket_history_entry]. *)
Fixpoint get_ticket_history_entry (ticket_history : list json)
  (ticket_id : string) : res (option json) :=
  match ticket_history with
  | [] => Ok None
  | entry :: rest =>
      let! hit := names entry ticket_id in
      if hit then Ok (Some entry)
      else get_ticket_history_entry rest ticket_id
  end.

(** The loop of [update_ticket_in_history] that looks for the index of the
    ticket; [idx] is the index of the head of the list. *)
Fixpoint existing_index (ticket_history : list json) (ticket_id : string)
  (idx : nat) : res (option nat) :=
  match ticket_history with
  | [] => Ok None
  | entry :: rest =>
      let! hit := names entry ticket_id in
      if hit then Ok (Some idx)
      else existing_index rest ticket_id (S idx)
  end.

(** The dictionary [history_entry]; [generated_date] is the formatted
    reading of the clock. *)
Definition history_entry (generated_date ticket_id ticket_summary : string)
  (test_cases : list json) : json :=
  JObj [("ticket_id", JStr ticket_id);
        ("ticket_summary", JStr ticket_summary);
        ("test_cases", JArr test_cases);
        ("generated_date", JStr generated_date);
        ("test_case_count", JNum (Z.of_nat (length test_cases)))].

(** [save_ticket_to_history]: a missing or empty date is replaced by the
    reading [now] of the clock. *)
Definition save_ticket_to_history (now : string)
  (ticket_id ticket_summary : string) (test_cases : list json)
  (generated_date : option string) : json :=
  let generated_date :=
    match generated_date with
    | Some d => if String.eqb d EmptyString then now else d
    | None => now
    end in
  history_entry generated_date ticket_id ticket_summary test_cases.

(** [update_ticket_in_history]: the list after the assignment at the index
    found, or after the append. *)
Definition update_ticket_in_history (now : string)
  (ticket_history : list json) (ticket_id ticket_summary : string)
  (test_cases : list json) : res (list json) :=
  let! existing := existing_index ticket_history ticket_id 0 in
  let entry := history_entry now ticket_id ticket_summary test_cases in
  Ok (match existing with
      | Some idx => <[idx := entry]> ticket_history
      | None => (ticket_history ++ [entry])%list
      end).

(** [clear_ticket_history]. *)
Definition clear_ticket_history : list json := [].

(** One call of [update_ticket_in_history]: the reading of the clock and
    the three arguments after the history. *)
Record update : Type := Update {
  at_time : string;
  ticket : string;
  summary : string;
  cases : list json
}.

(** A history built from the cleared one by a sequence of updates, the
    first of the list first. *)
Fixpoint replay (ticket_history : list json) (updates : list update)
  : res (list json) :=
  match updates with
  | [] => Ok ticket_history
  | u :: rest =>
      let! next := update_ticket_in_history (at_time u) ticket_history
                     (ticket u) (summary u) (cases u) in
      replay next rest
  end.

(** The entry of the last update of a ticket, if any. *)
Fixpoint latest (updates : list update) (ticket_id : string)
  (found : option json) : option json :=
  match updates with
  | [] => found
  | u :: rest =>
      latest rest ticket_id
        (if String.eqb (ticket u) ticket_id
         then Some (history_entry (at_time u) (ticket u) (summary u) (cases u))
         else found)
  end.

(** The ticket that an entry is filed under. *)
Definition ticket_of (entry : json) : option string :=
  match entry with
  | JObj fields =>
      match Json.assoc fields "ticket_id" with
      | Some (JStr t) => Some t
      | _ => None
      end
  | _ => None
  end.

End History.

(** ** The cache of recorded flows of features/recording/recorder.py *)

Module FlowCache.

Import CodeGenerator.

Definition RECORDING_CACHE_DIR : string := "recordings".

(** The identifier of a recording as it appears in file names. *)
Definition safe_recording (recording_id : string) : string :=
  Py.replace (Py.replace (Py.replace recording_id "/" "_") Py.BS "_") " " "_".

(** [get_recording_cache_file_path]. *)
Definition get_recording_cache_file_path (recording_id : string) : string :=
  let safe_id := safe_recording recording_id in
  let filename := safe_id +:+ "_recording.json" in
  Py.os_path_join RECORDING_CACHE_DIR filename.

(** The dictionary [save_data] of [save_recorded_flow]. *)
Definition flow_data (now recording_id url test_case_title : string)
  (actions : list json) (test_steps : list string) : json :=
  JObj [("recording_id", JStr recording_id);
        ("url", JStr url);
        ("test_case_title", JStr test_case_title);
        ("actions", JArr actions);
        ("test_steps", JArr (map JStr test_steps));
        ("recorded_date", JStr now)].

(** The path [codegen_file] of [save_recorded_flow]. *)
Definition codegen_file (recording_id : string) (ticket_id : option string)
  : string :=
  let codegen_filename :=
    match given ticket_id with
    | Some t =>
        let safe_ticket_id := Py.replace (Py.replace t "/" "_") Py.BS "_" in
        let safe_recording_id := safe_recording recording_id in
        safe_ticket_id +:+ "_" +:+ safe_recording_id +:+ "_recording.json"
    | None =>
        let safe_recording_id := safe_recording recording_id in
        safe_recording_id +:+ "_recording.json"
    end in
  Py.os_path_join "codeGenerated" codegen_filename.

(** The dictionary [codegen_data] of [save_recorded_flow]; each [or] of
    the source keeps its left operand when it is truthy. *)
Definition codegen_data (now recording_id url test_case_title : string)
  (actions : list json) (test_steps : list string)
  (ticket_id : option string) (generated_code : option json)
  (test_case_id : option string) : json :=
  JObj [("recording_id", JStr recording_id);
        ("test_case_id",
         JStr match given test_case_id with
              | Some t => t
              | None => recording_id
              end);
        ("ticket_id",
         JStr match given ticket_id with
              | Some t => t
              | None => EmptyString
              end);
        ("test_case_title", JStr test_case_title);
        ("url", JStr url);
        ("actions", JArr actions);
        ("test_steps", JArr (map JStr test_steps));
        ("generated_code",
         match generated_code with
         | Some g => if Json.truthy g then g else JObj []
         | None => JObj []
         end);
        ("recorded_date", JStr now)].

Section WithJson.

Variable json_loads : string -> option json.
Variable json_dumps : json -> string.

(** Whether the write of a file goes through. *)
Variable writable : string -> bool.

(** [load_recorded_flow]. *)
Definition load_recorded_flow (fs : gmap string string)
  (recording_id : string) : option json :=
  let cache_file := get_recording_cache_file_path recording_id in
  match fs !! cache_file with
  | Some content =>
      match json_loads content with
      | Some v => Some v
      | None => None
      end
  | None => None
  end.

(** [save_recorded_flow]: the path returned and the store after the
    function; [now] and [later] are the two readings of the clock.  Both
    writes are inside one [try]: the first write that fails ends the
    function, which then returns the empty string and keeps what was
    written before. *)
Definition save_recorded_flow (fs : gmap string string) (now later : string)
  (recording_id url : string) (actions : list json)
  (test_steps : list string) (test_case_title : string)
  (ticket_id : option string) (generated_code : option json)
  (test_case_id : option string) : string * gmap string string :=
  let cache_file := get_recording_cache_file_path recording_id in
  let save_data :=
    flow_data now recording_id url test_case_title actions test_steps in
  if writable cache_file then
    let fs1 := <[cache_file := json_dumps save_data]> fs in
    let codegen_file := codegen_file recording_id ticket_id in
    let codegen_data :=
      codegen_data later recording_id url test_case_title actions test_steps
        ticket_id generated_code test_case_id in
    if writable codegen_file
    then (codegen_file, <[codegen_file := json_dumps codegen_data]> fs1)
    else (EmptyString, fs1)
  else (EmptyString, fs).

End WithJson.

(** The last [n] characters of a string. *)
Definition ending (n : nat) (s : string) : string :=
  Py.drop (String.length s - n) s.

End FlowCache.

(** ** The conversion to JavaScript of features/recording/playwright_codegen.py *)

Module JsConversion.

(** [s.endswith(p)]. *)
Definition endswith (s p : string) : bool :=
  (String.length p <=? String.length s)%nat
  && String.eqb (Py.drop (String.length s - String.length p) s) p.

(** [' ' * n]. *)
Fixpoint spaces (n : nat) : string :=
  match n with
  | O => EmptyString
  | S k => String " " (spaces k)
  end.

(** The script returned for an empty recording. *)
Definition EMPTY_TEST : string :=
  "const { test, expect } = require('@playwright/test');" +:+ Py.NL +:+ Py.NL
  +:+ "test('test', async ({ page }) => {" +:+ Py.NL +:+ "});".

(** The six replacements, in the order of the source. *)
Definition replacements (python_code : string) : string :=
  let js_code := python_code in
  let js_code :=
    Py.replace js_code "from playwright.sync_api import Page, expect"
      "const { test, expect } = require('@playwright/test');" in
  let js_code :=
    Py.replace js_code "def test(page: Page):"
      "test('test', async ({ page }) => {" in
  let js_code := Py.replace js_code "page.goto(" "await page.goto(" in
  let js_code := Py.replace js_code ".click()" ".click();" in
  let js_code := Py.replace js_code ".fill(" ".fill(" in
  let js_code := Py.replace js_code ".press(" ".press(" in
  js_code.

(** The body of [for line in lines]: the line appended to [js_lines]. *)
Definition await_line (line : string) : string :=
  let stripped := Py.strip line in
  if Py.startswith stripped "page." && negb (Py.startswith stripped "await")
  then
    let indent := (String.length line - String.length (Py.lstrip line))%nat in
    spaces indent +:+ "await " +:+ stripped +:+ ";"
  else line.

(** The list [js_lines] when the function returns. *)
Definition js_lines (python_code : string) : list string :=
  let js_code := replacements python_code in
  let lines := Py.split js_code Py.newline in
  (map await_line lines
   ++ if negb (endswith (Py.strip js_code) "});") then ["});"] else [])%list.

(** [_convert_python_to_javascript]. *)
Definition _convert_python_to_javascript (python_code : string) : string :=
  if String.eqb python_code EmptyString then EMPTY_TEST
  else Py.join Py.NL (js_lines python_code).

End JsConversion.

(* ===================================================================== *)
(** * Part II: properties                                                 *)
(* ===================================================================== *)

(** ** Facts about the string primitives *)

Module PyFacts.

Lemma app_assoc (a b c : string) : (a +:+ b) +:+ c = a +:+ (b +:+ c).
Proof.
  induction a as [|x a IH]; simpl; [reflexivity|]. now rewrite IH.
Qed.

Lemma app_nil_r (a : string) : a +:+ EmptyString = a.
Proof.
  induction a as [|x a IH]; simpl; [reflexivity|]. now rewrite IH.
Qed.

Lemma length_app (a b : string) :
  String.length (a +:+ b) = (String.length a + String.length b)%nat.
Proof.
  induction a as [|x a IH]; simpl; [reflexivity|]. now rewrite IH.
Qed.

Lemma len_app (a b : string) : Py.len (a +:+ b) = Py.len a + Py.len b.
Proof. unfold Py.len. rewrite length_app. lia. Qed.

Lemma len_nonneg (a : string) : 0 <= Py.len a.
Proof. unfold Py.len. lia. Qed.

Lemma len_cons (c : ascii) (a : string) : Py.len (String c a) = 1 + Py.len a.
Proof. unfold Py.len. simpl String.length. lia. Qed.

Lemma drop_app (pre x : string) : Py.drop (String.length pre) (pre +:+ x) = x.
Proof. induction pre as [|c pre IH]; simpl; [now destruct x|exact IH]. Qed.

Lemma take_app (mid post : string) :
  Py.take (String.length mid) (mid +:+ post) = mid.
Proof.
  induction mid as [|c mid IH]; simpl; [now destruct post|]. now rewrite IH.
Qed.

Lemma clamp_inside (s : string) (i : Z) :
  0 <= i <= Py.len s -> Py.clamp s i = i.
Proof.
  intros H. unfold Py.clamp.
  destruct (i <? 0) eqn:E; [apply Z.ltb_lt in E; lia|]. lia.
Qed.

(** Slicing out the middle of a concatenation gives the middle. *)
Lemma slice_middle (pre mid post : string) :
  Py.slice (pre +:+ mid +:+ post) (Py.len pre) (Py.len pre + Py.len mid) = mid.
Proof.
  unfold Py.slice.
  pose proof (len_nonneg pre). pose proof (len_nonneg mid).
  pose proof (len_nonneg post).
  rewrite !clamp_inside by (rewrite !len_app; lia).
  replace (Py.len pre + Py.len mid - Py.len pre) with (Py.len mid) by lia.
  unfold Py.len. rewrite !Nat2Z.id. rewrite drop_app. apply take_app.
Qed.

Lemma slice_from_app (pre x : string) :
  Py.slice_from (pre +:+ x) (Py.len pre) = x.
Proof.
  unfold Py.slice_from.
  rewrite <- (app_nil_r x) at 1.
  rewrite len_app.
  pose proof (slice_middle pre x EmptyString) as H.
  rewrite H. reflexivity.
Qed.

Lemma prefix_one (c d : ascii) (t : string) :
  String.prefix (String c EmptyString) (String d t) = Ascii.eqb d c.
Proof.
  simpl. destruct (ascii_dec c d) as [->|N].
  - rewrite Ascii.eqb_refl. now destruct t.
  - symmetry. apply Ascii.eqb_neq. congruence.
Qed.

(** The first occurrence of a character that the prefix does not hold. *)
Lemma find_from_absent (c : ascii) (pre rest : string) (i : Z) :
  Py.has_char c pre = false ->
  Py.find_from (String c EmptyString) (pre +:+ String c rest) i
  = i + Py.len pre.
Proof.
  revert i. induction pre as [|d pre IH]; intros i H.
  - simpl append. cbn [Py.find_from]. rewrite prefix_one, Ascii.eqb_refl.
    unfold Py.len. simpl. lia.
  - simpl in H. apply orb_false_elim in H as [Hd Hp].
    simpl append. cbn [Py.find_from]. rewrite prefix_one, Hd.
    rewrite IH by exact Hp. rewrite len_cons. lia.
Qed.

Lemma find_absent (c : ascii) (pre rest : string) :
  Py.has_char c pre = false ->
  Py.find (pre +:+ String c rest) (String c EmptyString) = Py.len pre.
Proof.
  intros H. unfold Py.find, Py.find_at.
  pose proof (len_nonneg (pre +:+ String c rest)).
  destruct (Py.len (pre +:+ String c rest) <? 0) eqn:E;
    [apply Z.ltb_lt in E; lia|].
  simpl Py.drop. rewrite find_from_absent by exact H. lia.
Qed.

(** A string without the character has no occurrence of it. *)
Lemma find_from_none (c : ascii) (s : string) (i : Z) :
  Py.has_char c s = false ->
  Py.find_from (String c EmptyString) s i = -1.
Proof.
  revert i. induction s as [|d s IH]; intros i H.
  - reflexivity.
  - simpl in H. apply orb_false_elim in H as [Hd Hs].
    cbn [Py.find_from]. rewrite prefix_one, Hd. now apply IH.
Qed.

Lemma find_none (c : ascii) (s : string) :
  Py.has_char c s = false -> Py.find s (String c EmptyString) = -1.
Proof.
  intros H. unfold Py.find, Py.find_at.
  pose proof (len_nonneg s).
  destruct (Py.len s <? 0) eqn:E; [apply Z.ltb_lt in E; lia|].
  simpl Py.drop. now apply find_from_none.
Qed.

End PyFacts.

(** ** The cache keys *)

Module KeyFacts.

Import Sanitized.

Lemma replace_one (c d : ascii) (s : string) :
  Py.replace s (String c EmptyString) (String d EmptyString)
  = map_chars (fun x => if Ascii.eqb x c then d else x) s.
Proof.
  unfold Py.replace. induction s as [|x s IH]; [reflexivity|].
  cbn [Py.replace_go map_chars]. rewrite PyFacts.prefix_one.
  simpl String.length. simpl Nat.sub.
  destruct (Ascii.eqb x c); simpl; now rewrite IH.
Qed.

Lemma map_chars_compose (f g : ascii -> ascii) (s : string) :
  map_chars g (map_chars f s) = map_chars (fun x => g (f x)) s.
Proof. induction s as [|x s IH]; simpl; [reflexivity|]. now rewrite IH. Qed.

Lemma map_chars_ext (f g : ascii -> ascii) (s : string) :
  (forall x, f x = g x) -> map_chars f s = map_chars g s.
Proof.
  intros E. induction s as [|x s IH]; simpl; [reflexivity|].
  now rewrite E, IH.
Qed.

(** The chain of replacements applied to a ticket id. *)
Lemma sanitize_ticket (t : string) :
  Py.replace (Py.replace t "/" "_") Py.BS "_" = map_chars no_separator t.
Proof.
  unfold Py.BS, Py.chr. rewrite !replace_one, map_chars_compose.
  apply map_chars_ext. intros x. unfold no_separator, Py.backslash.
  destruct (Ascii.eqb x "/") eqn:E1; [reflexivity|].
  destruct (Ascii.eqb x (ascii_of_nat 92)) eqn:E2; reflexivity.
Qed.

(** The chain of replacements applied to a test-case id. *)
Lemma sanitize_test_case (t : string) :
  Py.replace (Py.replace (Py.replace t "/" "_") Py.BS "_") " " "_"
  = map_chars no_separator_no_space t.
Proof.
  unfold Py.BS, Py.chr. rewrite !replace_one, !map_chars_compose.
  apply map_chars_ext. intros x. unfold no_separator_no_space, Py.backslash.
  destruct (Ascii.eqb x "/") eqn:E1; [reflexivity|].
  destruct (Ascii.eqb x (ascii_of_nat 92)) eqn:E2; [reflexivity|].
  simpl. destruct (Ascii.eqb x " "); reflexivity.
Qed.

Lemma has_char_map (f : ascii -> ascii) (c : ascii) (s : string) :
  (forall x, Ascii.eqb (f x) c = false) ->
  Py.has_char c (map_chars f s) = false.
Proof.
  intros H. induction s as [|x s IH]; simpl; [reflexivity|].
  now rewrite H, IH.
Qed.

Lemma has_char_app (c : ascii) (a b : string) :
  Py.has_char c (a +:+ b) = Py.has_char c a || Py.has_char c b.
Proof.
  induction a as [|x a IH]; simpl; [reflexivity|].
  now rewrite IH, orb_assoc.
Qed.

Lemma no_separator_slash (x : ascii) : Ascii.eqb (no_separator x) "/" = false.
Proof.
  unfold no_separator.
  destruct (Ascii.eqb x "/") eqn:E1; [reflexivity|].
  destruct (Ascii.eqb x Py.backslash) eqn:E2; [reflexivity|]. exact E1.
Qed.

Lemma no_separator_backslash (x : ascii) :
  Ascii.eqb (no_separator x) Py.backslash = false.
Proof.
  unfold no_separator.
  destruct (Ascii.eqb x "/") eqn:E1; [reflexivity|].
  destruct (Ascii.eqb x Py.backslash) eqn:E2; [reflexivity|]. exact E2.
Qed.

Lemma no_separator_no_space_spec (x : ascii) :
  Ascii.eqb (no_separator_no_space x) "/" = false /\
  Ascii.eqb (no_separator_no_space x) Py.backslash = false /\
  Ascii.eqb (no_separator_no_space x) " " = false.
Proof.
  unfold no_separator_no_space.
  destruct (Ascii.eqb x "/") eqn:E1; [now repeat split|].
  destruct (Ascii.eqb x Py.backslash) eqn:E2; [now repeat split|].
  destruct (Ascii.eqb x " ") eqn:E3; [now repeat split|].
  simpl. now repeat split.
Qed.

Lemma separator_free_ticket (t : string) :
  separator_free (map_chars no_separator t) = true.
Proof.
  unfold separator_free.
  rewrite !has_char_map; auto using no_separator_slash, no_separator_backslash.
Qed.

Lemma filesystem_safe_test_case (t : string) :
  filesystem_safe (map_chars no_separator_no_space t) = true.
Proof.
  unfold filesystem_safe, separator_free.
  rewrite !has_char_map; auto; intros x;
    destruct (no_separator_no_space_spec x) as (A & B & C); assumption.
Qed.

Lemma separator_free_app (a b : string) :
  separator_free (a +:+ b) = separator_free a && separator_free b.
Proof.
  unfold separator_free. rewrite !has_char_app.
  destruct (Py.has_char "/" a), (Py.has_char "/" b),
    (Py.has_char Py.backslash a), (Py.has_char Py.backslash b); reflexivity.
Qed.

(** Joining a directory without a final slash and a name without a leading
    slash puts one slash between them. *)
Lemma join_dir (dir name : string) :
  Py.startswith name "/" = false ->
  String.eqb dir EmptyString = false ->
  String.eqb (Py.slice_from dir (Py.len dir - 1)) "/" = false ->
  Py.os_path_join dir name = dir +:+ "/" +:+ name.
Proof.
  intros H1 H2 H3. unfold Py.os_path_join. now rewrite H1, H2, H3.
Qed.

Lemma startswith_slash_app (a b : string) :
  Py.has_char "/" a = false -> Py.startswith b "/" = false ->
  Py.startswith (a +:+ b) "/" = false.
Proof.
  intros Ha Hb. destruct a as [|x a]; [exact Hb|].
  simpl in Ha. apply orb_false_elim in Ha as [Hx _].
  unfold Py.startswith. simpl append. rewrite PyFacts.prefix_one. exact Hx.
Qed.

(** C9, as stated, fails on the code: a space in a ticket id is kept.  The
    ticket id [PAN 1] gives the file names [PAN 1_test_case.json] and
    [PAN 1_TC_01_code.json], which are not free of spaces. *)
Lemma ticket_id_space_is_kept :
  TestCaseGeneration.get_cache_file_path "PAN 1"
    = "testcaseGenerated/PAN 1_test_case.json"
  /\ CodeGenerator.get_code_cache_file_path "TC 01" (Some "PAN 1")
    = "codeGenerated/PAN 1_TC_01_code.json"
  /\ filesystem_safe "PAN 1_test_case.json" = false
  /\ filesystem_safe "PAN 1_TC_01_code.json" = false.
Proof. repeat split; vm_compute; reflexivity. Qed.

(** C9, as amended: the file name of the test-case cache is the ticket id
    with every path separator replaced by an underscore, followed by
    [_test_case.json]; the file name of the code cache is the ticket id
    (when one is given) with every path separator replaced, an underscore,
    and the test-case id with every path separator and every space
    replaced, followed by [_code.json].  Both file names are free of path
    separators, and the test-case id part is free of spaces as well. *)
Theorem cache_file_names_sanitized (ticket_id test_case_id : string) :
  let safe_ticket := map_chars no_separator ticket_id in
  let safe_case := map_chars no_separator_no_space test_case_id in
  let code_name :=
    (if String.eqb ticket_id EmptyString then EmptyString
     else safe_ticket +:+ "_") +:+ safe_case +:+ "_code.json" in
  TestCaseGeneration.get_cache_file_path ticket_id
    = "testcaseGenerated/" +:+ safe_ticket +:+ "_test_case.json"
  /\ CodeGenerator.get_code_cache_file_path test_case_id (Some ticket_id)
    = "codeGenerated/" +:+ code_name
  /\ CodeGenerator.get_code_cache_file_path test_case_id None
    = "codeGenerated/" +:+ safe_case +:+ "_code.json"
  /\ separator_free (safe_ticket +:+ "_test_case.json") = true
  /\ separator_free code_name = true
  /\ filesystem_safe safe_case = true.
Proof.
  intros safe_ticket safe_case code_name.
  pose proof (separator_free_ticket ticket_id) as Ht.
  pose proof (filesystem_safe_test_case test_case_id) as Hc.
  fold safe_ticket in Ht. fold safe_case in Hc.
  assert (Hc' : separator_free safe_case = true)
    by (unfold filesystem_safe in Hc; now apply andb_prop in Hc).
  assert (St : Py.has_char "/" safe_ticket = false).
  { unfold separator_free in Ht. apply andb_prop in Ht as [A _].
    now apply negb_true_iff in A. }
  assert (Sc : Py.has_char "/" safe_case = false).
  { unfold separator_free in Hc'. apply andb_prop in Hc' as [A _].
    now apply negb_true_iff in A. }
  repeat split.
  - unfold TestCaseGeneration.get_cache_file_path.
    rewrite sanitize_ticket. fold safe_ticket.
    rewrite join_dir; [reflexivity | | reflexivity | reflexivity].
    now apply startswith_slash_app.
  - unfold CodeGenerator.get_code_cache_file_path, CodeGenerator.given.
    rewrite sanitize_test_case. fold safe_case.
    unfold code_name.
    destruct (String.eqb ticket_id EmptyString) eqn:E.
    + rewrite join_dir; [reflexivity | | reflexivity | reflexivity].
      now apply startswith_slash_app.
    + rewrite sanitize_ticket. fold safe_ticket.
      rewrite join_dir; [now rewrite !PyFacts.app_assoc
                        | | reflexivity | reflexivity].
      apply startswith_slash_app; [exact St | reflexivity].
  - unfold CodeGenerator.get_code_cache_file_path, CodeGenerator.given.
    rewrite sanitize_test_case. fold safe_case.
    rewrite join_dir; [reflexivity | | reflexivity | reflexivity].
    now apply startswith_slash_app.
  - rewrite separator_free_app, Ht. reflexivity.
  - unfold code_name.
    destruct (String.eqb ticket_id EmptyString).
    + simpl append. rewrite separator_free_app, Hc'. reflexivity.
    + rewrite !separator_free_app, Ht, Hc'. reflexivity.
  - exact Hc.
Qed.

End KeyFacts.

(** ** The brace-balanced extraction *)

Module SpanFacts.

Import Shape TestCaseGeneration.

Lemma special_false (c : ascii) :
  special c = false ->
  Ascii.eqb c "{" = false /\ Ascii.eqb c "}" = false /\
  Ascii.eqb c Py.dquote = false /\ Ascii.eqb c Py.backslash = false.
Proof.
  unfold special. intros H.
  apply orb_false_elim in H as [H H4].
  apply orb_false_elim in H as [H H3].
  apply orb_false_elim in H as [H1 H2]. auto.
Qed.

(** Inside a string the counter and the flag survive the whole body. *)
Lemma scan_quoted (q : list qitem) :
  forallb wf_qitem q = true ->
  forall (k : string) (i n e : Z),
    scan_braces (render_quoted q +:+ k) i n true false e
    = scan_braces k (i + Py.len (render_quoted q)) n true false e.
Proof.
  induction q as [|it q IH]; intros W k i n e.
  - simpl. f_equal. unfold Py.len. simpl. lia.
  - simpl in W. apply andb_prop in W as [Wi Wq].
    destruct it as [c|c].
    + simpl in Wi. apply andb_prop in Wi as [A B].
      apply negb_true_iff in A. apply negb_true_iff in B.
      simpl render_quoted. simpl append.
      cbn [scan_braces]. rewrite B, A. simpl negb. cbv iota.
      rewrite IH by exact Wq. f_equal. rewrite PyFacts.len_cons. lia.
    + simpl render_quoted. simpl append.
      cbn [scan_braces]. rewrite Ascii.eqb_refl.
      rewrite IH by exact Wq. f_equal.
      rewrite !PyFacts.len_cons. lia.
Qed.

(** Outside a string, with a positive counter, a well-formed shape leaves
    the counter and the flags as it found them. *)
Lemma scan_shape (sh : shape) :
  wf sh = true ->
  forall (k : string) (i n e : Z), 1 <= n ->
    scan_braces (render sh +:+ k) i n false false e
    = scan_braces k (i + Py.len (render sh)) n false false e.
Proof.
  induction sh as [|c rest IH|q rest IH|body IHb rest IHr];
    intros W k i n e Hn.
  - simpl. f_equal. unfold Py.len. simpl. lia.
  - simpl in W. apply andb_prop in W as [Wc Wr].
    apply negb_true_iff in Wc.
    destruct (special_false c Wc) as (A & B & C & D).
    simpl render. simpl append. cbn [scan_braces].
    rewrite D, C, A, B. simpl negb. cbv iota.
    rewrite IH by assumption. f_equal. rewrite PyFacts.len_cons. lia.
  - simpl in W. apply andb_prop in W as [Wq Wr].
    simpl render. simpl append. cbn [scan_braces].
    replace (Ascii.eqb Py.dquote Py.backslash) with false by reflexivity.
    rewrite Ascii.eqb_refl. simpl negb.
    rewrite PyFacts.app_assoc. rewrite scan_quoted by exact Wq.
    simpl append. cbn [scan_braces].
    replace (Ascii.eqb Py.dquote Py.backslash) with false by reflexivity.
    rewrite Ascii.eqb_refl. simpl negb.
    rewrite IH by assumption. f_equal.
    rewrite PyFacts.len_cons, PyFacts.len_app, PyFacts.len_cons. lia.
  - simpl in W. apply andb_prop in W as [Wb Wr].
    simpl render. simpl append. cbn [scan_braces].
    replace (Ascii.eqb "{" Py.backslash) with false by reflexivity.
    replace (Ascii.eqb "{" Py.dquote) with false by reflexivity.
    rewrite Ascii.eqb_refl. simpl negb. cbv iota.
    rewrite PyFacts.app_assoc. rewrite IHb by (assumption || lia).
    simpl append. cbn [scan_braces].
    replace (Ascii.eqb "}" Py.backslash) with false by reflexivity.
    replace (Ascii.eqb "}" Py.dquote) with false by reflexivity.
    replace (Ascii.eqb "}" "{") with false by reflexivity.
    rewrite Ascii.eqb_refl. simpl negb. cbv iota.
    destruct (n + 1 - 1 =? 0) eqn:E; [apply Z.eqb_eq in E; lia|].
    replace (n + 1 - 1) with n by lia.
    rewrite IHr by assumption. f_equal.
    rewrite PyFacts.len_cons, PyFacts.len_app, PyFacts.len_cons. lia.
Qed.

(** The scan of an object text stops right after its closing brace. *)
Lemma scan_object (body : shape) (post : string) (start : Z) :
  wf body = true ->
  scan_braces (object_text body +:+ post) start 0 false false start
  = (0, start + Py.len (object_text body)).
Proof.
  intros W. unfold object_text. simpl append. cbn [scan_braces].
  replace (Ascii.eqb "{" Py.backslash) with false by reflexivity.
  replace (Ascii.eqb "{" Py.dquote) with false by reflexivity.
  rewrite Ascii.eqb_refl. simpl negb. cbv iota.
  rewrite PyFacts.app_assoc. rewrite scan_shape by (assumption || lia).
  simpl append. cbn [scan_braces].
  replace (Ascii.eqb "}" Py.backslash) with false by reflexivity.
  replace (Ascii.eqb "}" Py.dquote) with false by reflexivity.
  replace (Ascii.eqb "}" "{") with false by reflexivity.
  rewrite Ascii.eqb_refl. simpl negb. cbv iota.
  simpl (0 + 1 - 1 =? 0). cbv iota.
  f_equal.
  rewrite PyFacts.len_cons, PyFacts.len_app.
  unfold Py.len at 3. simpl String.length. lia.
Qed.

(** The span found in a text whose prefix has no opening brace. *)
Lemma span_of_embedded_object (pre post : string) (body : shape) :
  Py.has_char "{" pre = false ->
  wf body = true ->
  find_json_span (pre +:+ object_text body +:+ post)
  = Some (object_text body).
Proof.
  intros Hpre W. unfold find_json_span.
  assert (F : Py.find (pre +:+ object_text body +:+ post) "{" = Py.len pre).
  { unfold object_text. simpl append. now apply PyFacts.find_absent. }
  rewrite F.
  pose proof (PyFacts.len_nonneg pre) as Hn.
  destruct (Py.len pre =? -1) eqn:E; [apply Z.eqb_eq in E; lia|].
  simpl negb. cbv iota.
  rewrite PyFacts.slice_from_app.
  rewrite scan_object by exact W.
  simpl (0 =? 0). cbv iota.
  now rewrite PyFacts.slice_middle.
Qed.

End SpanFacts.

(** ** What the generation paths can raise and report *)

Module GenerationFacts.

Import TestCaseGeneration Outcome.

Lemma decodes_bind {A B : Type} (m : res A) (k : A -> res B) :
  decodes m -> (forall a, decodes (k a)) -> decodes (Exn.bind m k).
Proof.
  unfold decodes. intros Hm Hk. destruct m as [a|e]; simpl.
  - apply Hk.
  - intros E. apply Hm. congruence.
Qed.

Lemma settled_bind {A : Type} (m : res A)
  (k : A -> res (gen_result * gmap string string)) :
  decodes m -> (forall a, settled (k a)) -> settled (Exn.bind m k).
Proof.
  unfold decodes. intros Hm Hk. destruct m as [a|e]; simpl.
  - apply Hk.
  - intros E. apply Hm. congruence.
Qed.

Lemma decodes_get (v : json) (k : string) (d : json) :
  decodes (Json.get v k d).
Proof. unfold decodes. destruct v; simpl; discriminate. Qed.

Lemma decodes_iter (v : json) : decodes (Json.iter v).
Proof. unfold decodes. destruct v; simpl; discriminate. Qed.

Lemma decodes_len (v : json) : decodes (Json.py_len v).
Proof. unfold decodes. destruct v; simpl; discriminate. Qed.

Lemma decodes_index (v : json) (i : nat) : decodes (Json.index v i).
Proof.
  unfold decodes. destruct v; simpl; try discriminate.
  - destruct (nth_error (Json.chars s) i); discriminate.
  - destruct (nth_error items i); discriminate.
Qed.

Lemma decodes_ok {A : Type} (a : A) : decodes (Ok a).
Proof. unfold decodes. discriminate. Qed.

Lemma decodes_mapM {A B : Type} (f : A -> res B) (xs : list A) :
  (forall x, decodes (f x)) -> decodes (mapM f xs).
Proof.
  intros Hf. induction xs as [|x xs IH]; simpl.
  - apply decodes_ok.
  - apply decodes_bind; [apply Hf|]. intros y.
    apply decodes_bind; [exact IH|]. intros ys. apply decodes_ok.
Qed.

Lemma decodes_format_steps (er : json) (steps : list json) (i : nat) :
  decodes (format_steps er i steps).
Proof.
  revert i. induction steps as [|s steps IH]; intros i; simpl.
  - apply decodes_ok.
  - apply decodes_bind; [apply decodes_len|]. intros n.
    apply decodes_bind.
    + destruct (i <? n)%nat; [apply decodes_index | apply decodes_ok].
    + intros e. apply decodes_bind; [apply IH|]. intros rows.
      apply decodes_ok.
Qed.

Lemma decodes_format_test_case (tc : json) : decodes (format_test_case tc).
Proof.
  unfold format_test_case.
  repeat (apply decodes_bind; [apply decodes_get|]; intros ?).
  apply decodes_bind; [apply decodes_iter|]. intros l.
  apply decodes_bind; [apply decodes_format_steps|]. intros rows.
  apply decodes_ok.
Qed.

Lemma decodes_format_test_cases (tcs : json) : decodes (format_test_cases tcs).
Proof.
  unfold format_test_cases.
  apply decodes_bind; [apply decodes_iter|]. intros l.
  apply decodes_mapM, decodes_format_test_case.
Qed.

Lemma decodes_questions_text (q : json) : decodes (questions_text q).
Proof.
  unfold questions_text. destruct (Json.truthy q); [|apply decodes_ok].
  apply decodes_bind; [apply decodes_iter|]. intros l. apply decodes_ok.
Qed.

Lemma settled_failure (msg : message) (ctx : option context)
  (fs : gmap string string) :
  (forall raw, msg <> ModelDidNotReturnValidJson raw) ->
  settled (Ok (failure msg ctx, fs)).
Proof. intros H raw E. simpl in E. injection E as E. now apply (H raw). Qed.

Lemma settled_success (rows : list step_row) (raw : string)
  (formatted : list test_case) (fs : gmap string string) :
  settled (Ok (success rows raw formatted, fs)).
Proof. intros raw' E. discriminate. Qed.

Ltac settle :=
  repeat first
    [ apply settled_success
    | apply settled_failure; intros ?; discriminate
    | apply settled_bind;
      [ first [ apply decodes_get | apply decodes_iter
              | apply decodes_format_test_cases
              | apply decodes_questions_text ]
      | intros ? ]
    | match goal with
      | |- settled (if ?c then _ else _) => destruct c
      end ].

Section Paths.

Variable json_loads : string -> option json.
Variable json_dumps : json -> string.
Variable writable : string -> bool.
Variable to_records :
  list TestCaseGeneration.step_row -> list TestCaseGeneration.step_row.
Variable extract_ticket_id : string -> option string.

(** Once the text has parsed, the initial path neither raises
    [JSONDecodeError] nor reports invalid JSON. *)
Lemma settled_generate (fs : gmap string string)
  (ticket_id jira_key jira_project jira_summary jira_description : string)
  (raw out : string) (data : json) :
  json_loads (json_text out) = Some data ->
  settled (generate_test_cases_try json_loads json_dumps writable fs ticket_id jira_key
             jira_project jira_summary jira_description raw out).
Proof.
  intros H. unfold generate_test_cases_try, loads_exn. rewrite H.
  cbn [Exn.bind]. settle.
Qed.

Lemma settled_additional_info (fs : gmap string string) (ctx : context)
  (raw out : string) (data : json) :
  json_loads (json_text out) = Some data ->
  settled (generate_test_cases_with_additional_info_try json_loads json_dumps writable
             fs ctx raw out).
Proof.
  intros H. unfold generate_test_cases_with_additional_info_try, loads_exn.
  rewrite H. cbn [Exn.bind]. settle.
Qed.

Lemma settled_regenerate (fs : gmap string string) (feature : string)
  (ticket_id : option string) (raw out : string) (data : json) :
  json_loads (json_text out) = Some data ->
  settled (regenerate_test_cases_with_feedback_try json_loads json_dumps writable
             extract_ticket_id fs feature ticket_id raw out).
Proof.
  intros H. unfold regenerate_test_cases_with_feedback_try, loads_exn.
  rewrite H. cbn [Exn.bind]. settle.
Qed.

(** Invalid JSON is reported by the initial path only when the parser has
    rejected the text. *)
Lemma generate_reports_only_parse_failure (fs : gmap string string)
  (ticket_id jira_key jira_project jira_summary jira_description : string)
  (raw out raw' : string) :
  error (fst (generate_test_cases json_loads json_dumps writable to_records fs ticket_id jira_key
                jira_project jira_summary jira_description raw out))
    = Some (ModelDidNotReturnValidJson raw') ->
  json_loads (json_text out) = None.
Proof.
  intros E. destruct (json_loads (json_text out)) as [data|] eqn:L;
    [exfalso | reflexivity].
  pose proof (settled_generate fs ticket_id jira_key jira_project jira_summary
                jira_description raw out data L) as S.
  unfold generate_test_cases in E.
  destruct (generate_test_cases_try _ _ _ _ _ _ _ _ _ _) as [[g fs']|e].
  - simpl in *. now apply (S raw').
  - simpl in S. destruct e; simpl in E; congruence.
Qed.

Lemma additional_info_reports_only_parse_failure (fs : gmap string string)
  (ctx : context) (raw out raw' : string) :
  error (fst (generate_test_cases_with_additional_info json_loads json_dumps writable
                fs ctx raw out))
    = Some (ModelDidNotReturnValidJson raw') ->
  json_loads (json_text out) = None.
Proof.
  intros E. destruct (json_loads (json_text out)) as [data|] eqn:L;
    [exfalso | reflexivity].
  pose proof (settled_additional_info fs ctx raw out data L) as S.
  unfold generate_test_cases_with_additional_info in E.
  destruct (generate_test_cases_with_additional_info_try _ _ _ _ _ _)
    as [[g fs']|e].
  - simpl in *. now apply (S raw').
  - simpl in S. destruct e; simpl in E; congruence.
Qed.

Lemma regenerate_reports_only_parse_failure (fs : gmap string string)
  (feature : string) (ticket_id : option string) (raw out raw' : string) :
  error (fst (regenerate_test_cases_with_feedback json_loads json_dumps writable
                extract_ticket_id fs feature ticket_id raw out))
    = Some (ModelDidNotReturnValidJson raw') ->
  json_loads (json_text out) = None.
Proof.
  intros E. destruct (json_loads (json_text out)) as [data|] eqn:L;
    [exfalso | reflexivity].
  pose proof (settled_regenerate fs feature ticket_id raw out data L) as S.
  unfold regenerate_test_cases_with_feedback in E.
  destruct (regenerate_test_cases_with_feedback_try _ _ _ _ _ _ _ _)
    as [[g fs']|e].
  - simpl in *. now apply (S raw').
  - simpl in S. destruct e; simpl in E; congruence.
Qed.

(** When the parser rejects the text, the initial path reports invalid JSON
    unless the raw output holds an array in the old format. *)
Lemma generate_parse_failure (fs : gmap string string)
  (ticket_id jira_key jira_project jira_summary jira_description : string)
  (raw out : string) :
  json_loads (json_text out) = None ->
  re_search_array raw = None ->
  generate_test_cases json_loads json_dumps writable to_records fs ticket_id jira_key
    jira_project jira_summary jira_description raw out
  = (failure (ModelDidNotReturnValidJson raw) None, fs).
Proof.
  intros L R. unfold generate_test_cases, generate_test_cases_try, loads_exn.
  rewrite L. cbn [Exn.bind]. unfold legacy_array_fallback. now rewrite R.
Qed.

Lemma additional_info_parse_failure (fs : gmap string string)
  (ctx : context) (raw out : string) :
  json_loads (json_text out) = None ->
  generate_test_cases_with_additional_info json_loads json_dumps writable fs ctx raw out
  = (failure (ModelDidNotReturnValidJson raw) None, fs).
Proof.
  intros L. unfold generate_test_cases_with_additional_info,
    generate_test_cases_with_additional_info_try, loads_exn.
  now rewrite L.
Qed.

Lemma regenerate_parse_failure (fs : gmap string string)
  (feature : string) (ticket_id : option string) (raw out : string) :
  json_loads (json_text out) = None ->
  regenerate_test_cases_with_feedback json_loads json_dumps writable extract_ticket_id
    fs feature ticket_id raw out
  = (failure (ModelDidNotReturnValidJson raw) None, fs).
Proof.
  intros L. unfold regenerate_test_cases_with_feedback,
    regenerate_test_cases_with_feedback_try, loads_exn.
  now rewrite L.
Qed.

End Paths.

End GenerationFacts.

(** ** The extraction of the JSON object from the answer of the model *)

Module Extraction.

Import Shape TestCaseGeneration Examples.

(** C3, as stated, fails on the code: prose that holds a brace before the
    object takes the scan away from the object.  The input
    [see {x} {"a": 1}] holds the single JSON object [{"a": 1}], and the
    span returned is [{x}], which is not JSON. *)
Lemma brace_in_prose_hides_object :
  wf small_body = true
  /\ object_text small_body = Py.lit "{`a`: 1}"
  /\ JsonRef.loads (object_text small_body) = Some (JObj [("a", JNum 1)])
  /\ find_json_span ("see {x} " +:+ object_text small_body) = Some "{x}"
  /\ JsonRef.loads "{x}" = None.
Proof. repeat split; vm_compute; reflexivity. Qed.

Section Statement.

Variable json_loads : string -> option json.
Variable json_dumps : json -> string.
Variable writable : string -> bool.
Variable to_records :
  list TestCaseGeneration.step_row -> list TestCaseGeneration.step_row.
Variable extract_ticket_id : string -> option string.

(** C3, as amended: for every input made of a prefix without an opening
    brace (prose, or the opening of a code fence), the text of one JSON
    object, and any suffix, the span found is exactly the text of the
    object; braces inside double-quoted strings and characters after a
    backslash do not move the counter.  When the input has no opening brace,
    or the counter does not come back to zero, the text handed to the parser
    is the entire input.  Invalid JSON is reported only when the parser
    rejected the text it was handed; when it did, the two follow-up paths
    report invalid JSON, and the initial path does so unless the raw output
    holds an array in the old format. *)
Theorem balanced_object_extraction :
  (forall (pre post : string) (body : shape),
      Py.has_char "{" pre = false -> wf body = true ->
      find_json_span (pre +:+ object_text body +:+ post)
      = Some (object_text body))
  /\ (forall out : string, Py.has_char "{" out = false -> json_text out = out)
  /\ (forall out : string,
        fst (scan_braces (Py.slice_from out (Py.find out "{"))
               (Py.find out "{") 0 false false (Py.find out "{")) <> 0 ->
        json_text out = out)
  /\ (forall fs tid key project summary description raw out raw',
        error (fst (generate_test_cases json_loads json_dumps writable to_records fs tid key
                      project summary description raw out))
          = Some (ModelDidNotReturnValidJson raw') ->
        json_loads (json_text out) = None)
  /\ (forall fs ctx raw out raw',
        error (fst (generate_test_cases_with_additional_info json_loads
                      json_dumps writable fs ctx raw out))
          = Some (ModelDidNotReturnValidJson raw') ->
        json_loads (json_text out) = None)
  /\ (forall fs feature tid raw out raw',
        error (fst (regenerate_test_cases_with_feedback json_loads json_dumps writable
                      extract_ticket_id fs feature tid raw out))
          = Some (ModelDidNotReturnValidJson raw') ->
        json_loads (json_text out) = None)
  /\ (forall fs tid key project summary description raw out,
        json_loads (json_text out) = None ->
        re_search_array raw = None ->
        generate_test_cases json_loads json_dumps writable to_records fs tid key project summary
          description raw out
        = (failure (ModelDidNotReturnValidJson raw) None, fs))
  /\ (forall fs ctx raw out,
        json_loads (json_text out) = None ->
        generate_test_cases_with_additional_info json_loads json_dumps writable fs ctx
          raw out
        = (failure (ModelDidNotReturnValidJson raw) None, fs))
  /\ (forall fs feature tid raw out,
        json_loads (json_text out) = None ->
        regenerate_test_cases_with_feedback json_loads json_dumps writable
          extract_ticket_id fs feature tid raw out
        = (failure (ModelDidNotReturnValidJson raw) None, fs)).
Proof.
  split; [|split; [|split; [|split; [|split; [|split; [|split; [|split]]]]]]].
  - intros pre post body Hp W. now apply SpanFacts.span_of_embedded_object.
  - intros out H. unfold json_text, find_json_span.
    rewrite (PyFacts.find_none "{" out H). reflexivity.
  - intros out H. unfold json_text, find_json_span.
    destruct (negb (Py.find out "{" =? -1)); [|reflexivity].
    destruct (scan_braces _ _ _ _ _ _) as [bc e]. simpl in H.
    destruct (bc =? 0) eqn:E; [apply Z.eqb_eq in E; contradiction|reflexivity].
  - intros. eapply GenerationFacts.generate_reports_only_parse_failure; eauto.
  - intros.
    eapply GenerationFacts.additional_info_reports_only_parse_failure; eauto.
  - intros. eapply GenerationFacts.regenerate_reports_only_parse_failure; eauto.
  - intros. now apply GenerationFacts.generate_parse_failure.
  - intros. now apply GenerationFacts.additional_info_parse_failure.
  - intros. now apply GenerationFacts.regenerate_parse_failure.
Qed.

End Statement.

(** The amended statement at work on a fenced object with a brace inside a
    string, on a text without braces, on an unclosed object, and on an
    answer that is not JSON. *)
Lemma balanced_object_extraction_witness :
  find_json_span (fenced (object_text nested_body))
    = Some (Py.lit "{`a`: {`b`: `}`}}")
  /\ json_text "no braces here" = "no braces here"
  /\ json_text (Py.lit "{`a`: 1") = Py.lit "{`a`: 1"
  /\ JsonRef.loads (json_text "not json") = None
  /\ fst (generate_test_cases JsonRef.loads JsonRef.dumps all_writable same_records ∅ "PAN-1" "PAN-1"
            "P" "S" "D" "not json" "not json")
     = failure (ModelDidNotReturnValidJson "not json") None
  /\ fst (generate_test_cases_with_additional_info JsonRef.loads JsonRef.dumps all_writable
            ∅ a_context "not json" "not json")
     = failure (ModelDidNotReturnValidJson "not json") None
  /\ fst (regenerate_test_cases_with_feedback JsonRef.loads JsonRef.dumps all_writable
            (fun _ => None) ∅ "feature" None "not json" "not json")
     = failure (ModelDidNotReturnValidJson "not json") None.
Proof.
  destruct (balanced_object_extraction JsonRef.loads JsonRef.dumps all_writable
              same_records (fun _ => None))
    as (A & B & C & D & E & F & G & H & I).
  split; [|split; [|split; [|split; [|split; [|split]]]]].
  - unfold fenced.
    rewrite <- PyFacts.app_assoc.
    rewrite (A (CodeGenerator.FENCE_JSON +:+ Py.NL)
               (Py.NL +:+ CodeGenerator.FENCE) nested_body);
      [vm_compute; reflexivity | reflexivity | reflexivity].
  - apply B. reflexivity.
  - apply C. vm_compute. discriminate.
  - apply (D ∅ "PAN-1" "PAN-1" "P" "S" "D" "not json" "not json" "not json").
    vm_compute. reflexivity.
  - rewrite (G ∅ "PAN-1" "PAN-1" "P" "S" "D" "not json" "not json");
      [reflexivity | vm_compute; reflexivity | vm_compute; reflexivity].
  - rewrite (H ∅ a_context "not json" "not json");
      [reflexivity | vm_compute; reflexivity].
  - rewrite (I ∅ "feature" None "not json" "not json");
      [reflexivity | vm_compute; reflexivity].
Defined.

End Extraction.

(** ** The normaliser *)

Module NormalizerFacts.

Import TestCaseGeneration Padding.

Lemma skipn_cons {A : Type} (l : list A) (i : nat) (x : A) :
  nth_error l i = Some x -> skipn i l = x :: skipn (S i) l.
Proof.
  revert i. induction l as [|y l IH]; intros i H.
  - destruct i; discriminate.
  - destruct i as [|i].
    + injection H as ->. reflexivity.
    + change (skipn i l = x :: skipn (S i) l). now apply IH.
Qed.

Lemma padded_nil_length (steps : list json) :
  length (padded steps []) = length steps.
Proof. induction steps as [|s steps IH]; simpl; congruence. Qed.

(** There are as many rows as steps. *)
Lemma padded_length (steps expected : list json) :
  length (padded steps expected) = length steps.
Proof.
  revert expected. induction steps as [|s steps IH]; intros expected.
  - reflexivity.
  - destruct expected; simpl; now rewrite IH.
Qed.

(** Row [i] pairs step [i] with expected result [i], or with the empty
    string from the end of the expected results on. *)
Lemma padded_row (steps expected : list json) (i : nat) (step : json) :
  nth_error steps i = Some step ->
  nth_error (padded steps expected) i
  = Some {| Step := step;
            Expected_Result :=
              match nth_error expected i with
              | Some e => e
              | None => JStr EmptyString
              end |}.
Proof.
  revert expected i. induction steps as [|s steps IH]; intros expected i H.
  - destruct i; discriminate.
  - destruct i as [|i]; simpl in H.
    + injection H as ->. destruct expected; reflexivity.
    + destruct expected as [|e expected]; simpl.
      * rewrite (IH [] i H). now destruct i.
      * now apply IH.
Qed.

(** The loop of the source computes the padded rows. *)
Lemma format_steps_padded (expected steps : list json) (i : nat) :
  format_steps (JArr expected) i steps = Ok (padded steps (skipn i expected)).
Proof.
  revert i. induction steps as [|s steps IH]; intros i.
  - reflexivity.
  - cbn [format_steps Json.py_len Exn.bind].
    destruct (i <? length expected)%nat eqn:E.
    + apply Nat.ltb_lt in E.
      destruct (nth_error expected i) as [x|] eqn:N;
        [|apply nth_error_None in N; lia].
      cbn [Json.index]. rewrite N. cbn [Exn.bind].
      rewrite IH. cbn [Exn.bind].
      rewrite (skipn_cons expected i x N). reflexivity.
    + apply Nat.ltb_ge in E. cbn [Exn.bind]. rewrite IH. cbn [Exn.bind].
      rewrite !skipn_all2 by lia. reflexivity.
Qed.

Lemma format_test_case_padded (tc : json) (steps expected : list json) :
  has_lists tc steps expected ->
  exists id title,
    format_test_case tc
    = Ok {| tc_id := id; tc_title := title;
            tc_steps := padded steps expected |}.
Proof.
  intros (fields & -> & Hs & He).
  unfold format_test_case. cbn [Json.get Exn.bind].
  rewrite Hs, He. cbn [Json.iter Exn.bind].
  rewrite format_steps_padded. cbn [Exn.bind skipn].
  eexists _, _. reflexivity.
Qed.

Lemma format_all_padded (tcs : list json)
  (lists : list (list json * list json)) :
  Forall2 (fun tc l => has_lists tc (fst l) (snd l)) tcs lists ->
  exists formatted,
    mapM format_test_case tcs = Ok formatted
    /\ Forall2 (fun tc' l => tc_steps tc' = padded (fst l) (snd l))
               formatted lists.
Proof.
  induction 1 as [|tc l tcs lists H _ IH].
  - exists []. split; [reflexivity | constructor].
  - destruct IH as (formatted & E & F).
    destruct (format_test_case_padded tc (fst l) (snd l) H) as (id & t & Etc).
    eexists (_ :: formatted). cbn [mapM]. rewrite Etc, E. cbn [Exn.bind].
    split; [reflexivity|]. constructor; [reflexivity | exact F].
Qed.

End NormalizerFacts.

(** ** The three generation paths *)

Module Normalizer.

Import TestCaseGeneration Padding.

Section Statement.

Variable json_loads : string -> option json.
Variable json_dumps : json -> string.
Variable writable : string -> bool.
Variable to_records :
  list TestCaseGeneration.step_row -> list TestCaseGeneration.step_row.
Variable extract_ticket_id : string -> option string.

(** C5: for a [ready] payload whose test cases carry a list of steps and a
    list of expected results, the initial path succeeds, and the formatted
    test case [k] has exactly as many rows as case [k] has steps; row [i]
    carries step [i] with [expected_results[i]] when that exists and with
    the empty string from the end of the expected results on. *)
Theorem short_expected_results_are_padded
  (fs : gmap string string)
  (ticket_id jira_key jira_project jira_summary jira_description : string)
  (raw out : string) (fields : list (string * json)) (tcs : list json)
  (lists : list (list json * list json)) :
  json_loads (json_text out) = Some (JObj fields) ->
  Json.assoc fields "status" = Some (JStr "ready") ->
  Json.assoc fields "test_cases" = Some (JArr tcs) ->
  tcs <> [] ->
  Forall2 (fun tc l => has_lists tc (fst l) (snd l)) tcs lists ->
  exists formatted,
    fst (generate_test_cases json_loads json_dumps writable to_records fs ticket_id jira_key
           jira_project jira_summary jira_description raw out)
    = success (all_rows formatted) raw formatted
    /\ Forall2
         (fun tc' l =>
            length (tc_steps tc') = length (fst l)
            /\ forall i step,
                 nth_error (fst l) i = Some step ->
                 nth_error (tc_steps tc') i
                 = Some {| Step := step;
                           Expected_Result :=
                             match nth_error (snd l) i with
                             | Some e => e
                             | None => JStr EmptyString
                             end |})
         formatted lists.
Proof.
  intros L S T N W.
  destruct (NormalizerFacts.format_all_padded tcs lists W)
    as (formatted & E & F).
  exists formatted. split.
  - unfold generate_test_cases, generate_test_cases_try, loads_exn.
    rewrite L. cbn [Exn.bind Json.get]. rewrite S, T.
    change (Json.is_str (JStr "ready") "invalid") with false.
    change (Json.is_str (JStr "ready") "needs_more_info") with false.
    change (Json.is_str (JStr "ready") "ready") with true.
    cbv iota.
    destruct tcs as [|tc tcs]; [contradiction|].
    cbn [Json.truthy negb]. cbv iota.
    unfold format_test_cases. cbn [Json.iter Exn.bind].
    rewrite E. cbn [Exn.bind]. reflexivity.
  - eapply Forall2_impl; [exact F|].
    intros tc' l Hl. simpl in Hl. rewrite Hl. split.
    + apply NormalizerFacts.padded_length.
    + intros i step Hi. now apply NormalizerFacts.padded_row.
Qed.

(** C6: a payload with status [ready] and an empty array of test cases
    gives the error about a ready status without test cases, with no test
    cases and no write to the cache, on the initial path and on the path
    with additional information. *)
Theorem empty_ready_is_an_error
  (fs : gmap string string)
  (ticket_id jira_key jira_project jira_summary jira_description : string)
  (ctx : context) (raw out : string) (fields : list (string * json)) :
  json_loads (json_text out) = Some (JObj fields) ->
  Json.assoc fields "status" = Some (JStr "ready") ->
  Json.assoc fields "test_cases" = Some (JArr []) ->
  generate_test_cases json_loads json_dumps writable to_records fs ticket_id jira_key
    jira_project jira_summary jira_description raw out
  = (failure NoTestCasesDespiteReady None, fs)
  /\ generate_test_cases_with_additional_info json_loads json_dumps writable fs ctx
       raw out
     = (failure NoTestCasesDespiteReady None, fs).
Proof.
  intros L S T. split.
  - unfold generate_test_cases, generate_test_cases_try, loads_exn.
    rewrite L. cbn [Exn.bind Json.get]. rewrite S, T. reflexivity.
  - unfold generate_test_cases_with_additional_info,
      generate_test_cases_with_additional_info_try, loads_exn.
    rewrite L. cbn [Exn.bind Json.get]. rewrite S, T. reflexivity.
Qed.

(** C7: on the path that regenerates with feedback, a payload whose status
    is not [ready] gives the error about an unexpected status, with no test
    cases, no context for a further round and no write to the cache.  No
    input makes this path return a context or the request for more
    information, and test cases are returned only for a payload whose status
    is [ready]. *)
Theorem regeneration_accepts_only_ready
  (fs : gmap string string) (feature : string) (ticket_id : option string)
  (raw out : string) :
  (forall fields,
      json_loads (json_text out) = Some (JObj fields) ->
      Json.is_str (status_of fields) "ready" = false ->
      regenerate_test_cases_with_feedback json_loads json_dumps writable
        extract_ticket_id fs feature ticket_id raw out
      = (failure (UnexpectedStatus (status_of fields) raw) None, fs))
  /\ context_data
       (fst (regenerate_test_cases_with_feedback json_loads json_dumps writable
               extract_ticket_id fs feature ticket_id raw out)) = None
  /\ (forall notes questions,
        error (fst (regenerate_test_cases_with_feedback json_loads json_dumps writable
                      extract_ticket_id fs feature ticket_id raw out))
        <> Some (NeedsMoreInfo notes questions))
  /\ (forall tcs,
        formatted_test_cases
          (fst (regenerate_test_cases_with_feedback json_loads json_dumps writable
                  extract_ticket_id fs feature ticket_id raw out)) = Some tcs ->
        exists fields,
          json_loads (json_text out) = Some (JObj fields)
          /\ status_of fields = JStr "ready").
Proof.
  unfold regenerate_test_cases_with_feedback,
    regenerate_test_cases_with_feedback_try, loads_exn.
  split; [|split; [|split]].
  - intros fields L S. rewrite L. cbn [Exn.bind Json.get].
    fold (status_of fields). rewrite S. reflexivity.
  - destruct (json_loads (json_text out)) as [data|]; [|reflexivity].
    cbn [Exn.bind]. destruct data; try reflexivity.
    cbn [Json.get Exn.bind]. fold (status_of fields).
    destruct (Json.is_str (status_of fields) "ready"); [|reflexivity].
    destruct (Json.assoc fields "test_cases") as [t|];
      cbn [Json.truthy negb].
    + destruct (Json.truthy t); [|reflexivity]. cbn [negb].
      destruct (format_test_cases t) as [f|[]]; reflexivity.
    + reflexivity.
  - intros notes questions.
    destruct (json_loads (json_text out)) as [data|]; [|discriminate].
    cbn [Exn.bind]. destruct data; try discriminate.
    cbn [Json.get Exn.bind]. fold (status_of fields).
    destruct (Json.is_str (status_of fields) "ready"); [|discriminate].
    destruct (Json.assoc fields "test_cases") as [t|];
      cbn [Json.truthy negb].
    + destruct (Json.truthy t); [|discriminate]. cbn [negb].
      destruct (format_test_cases t) as [f|[]]; discriminate.
    + discriminate.
  - intros tcs.
    destruct (json_loads (json_text out)) as [data|]; [|discriminate].
    cbn [Exn.bind]. destruct data; try discriminate.
    cbn [Json.get Exn.bind]. fold (status_of fields).
    destruct (Json.is_str (status_of fields) "ready") eqn:S; [|discriminate].
    intros _. exists fields. split; [reflexivity|].
    unfold Json.is_str in S. destruct (status_of fields); try discriminate.
    apply String.eqb_eq in S. now subst.
Qed.

End Statement.

Import Examples.

(** The padding on an answer with a case of three steps and one expected
    result and a case of two steps and no expected result. *)
Lemma short_expected_results_are_padded_witness :
  exists formatted,
    fst (generate_test_cases JsonRef.loads JsonRef.dumps all_writable same_records ∅ "PAN-1" "PAN-1"
           "P" "S" "D" (answer ready_fields) (answer ready_fields))
    = success (all_rows formatted) (answer ready_fields) formatted
    /\ Forall2
         (fun tc' l =>
            length (tc_steps tc') = length (fst l)
            /\ forall i step,
                 nth_error (fst l) i = Some step ->
                 nth_error (tc_steps tc') i
                 = Some {| Step := step;
                           Expected_Result :=
                             match nth_error (snd l) i with
                             | Some e => e
                             | None => JStr EmptyString
                             end |})
         formatted ready_lists.
Proof.
  apply (short_expected_results_are_padded JsonRef.loads JsonRef.dumps all_writable same_records ∅
           "PAN-1" "PAN-1" "P" "S" "D"
           (answer ready_fields) (answer ready_fields)
           ready_fields [case_3_1; case_2_0] ready_lists).
  - vm_compute. reflexivity.
  - reflexivity.
  - reflexivity.
  - discriminate.
  - repeat constructor; eexists; repeat split; reflexivity.
Defined.

(** The rows that the code computes for the example answer. *)
Example padded_rows_of_the_example :
  option_map (map (fun tc => map Expected_Result (tc_steps tc)))
    (formatted_test_cases
       (fst (generate_test_cases JsonRef.loads JsonRef.dumps all_writable same_records ∅ "PAN-1" "PAN-1"
               "P" "S" "D" (answer ready_fields) (answer ready_fields))))
  = Some [[JStr "e1"; JStr EmptyString; JStr EmptyString];
          [JStr EmptyString; JStr EmptyString]].
Proof. vm_compute. reflexivity. Qed.

(** An empty [ready] answer on both paths. *)
Lemma empty_ready_is_an_error_witness :
  generate_test_cases JsonRef.loads JsonRef.dumps all_writable same_records ∅ "PAN-1" "PAN-1" "P" "S"
    "D" (answer empty_ready_fields) (answer empty_ready_fields)
  = (failure NoTestCasesDespiteReady None, ∅)
  /\ generate_test_cases_with_additional_info JsonRef.loads JsonRef.dumps all_writable ∅
       a_context (answer empty_ready_fields) (answer empty_ready_fields)
     = (failure NoTestCasesDespiteReady None, ∅).
Proof.
  apply (empty_ready_is_an_error JsonRef.loads JsonRef.dumps all_writable same_records ∅ "PAN-1" "PAN-1"
           "P" "S" "D" a_context (answer empty_ready_fields)
           (answer empty_ready_fields) empty_ready_fields).
  - vm_compute. reflexivity.
  - reflexivity.
  - reflexivity.
Defined.

(** The statuses [needs_more_info] and [invalid], which the initial path
    accepts, are errors on the regeneration path. *)
Lemma regeneration_accepts_only_ready_witness :
  regenerate_test_cases_with_feedback JsonRef.loads JsonRef.dumps all_writable
    (fun _ => None) ∅ "feature" (Some "PAN-1")
    (answer needs_more_info_fields) (answer needs_more_info_fields)
  = (failure (UnexpectedStatus (JStr "needs_more_info")
                (answer needs_more_info_fields)) None, ∅)
  /\ regenerate_test_cases_with_feedback JsonRef.loads JsonRef.dumps all_writable
       (fun _ => None) ∅ "feature" (Some "PAN-1")
       (answer invalid_fields) (answer invalid_fields)
     = (failure (UnexpectedStatus (JStr "invalid") (answer invalid_fields))
          None, ∅).
Proof.
  split.
  - apply (proj1 (regeneration_accepts_only_ready JsonRef.loads JsonRef.dumps all_writable
                    (fun _ => None) ∅ "feature" (Some "PAN-1")
                    (answer needs_more_info_fields)
                    (answer needs_more_info_fields))
             needs_more_info_fields).
    + vm_compute. reflexivity.
    + reflexivity.
  - apply (proj1 (regeneration_accepts_only_ready JsonRef.loads JsonRef.dumps all_writable
                    (fun _ => None) ∅ "feature" (Some "PAN-1")
                    (answer invalid_fields) (answer invalid_fields))
             invalid_fields).
    + vm_compute. reflexivity.
    + reflexivity.
Defined.

(** On the initial path the same [needs_more_info] answer asks for another
    round and hands back a context. *)
Example initial_path_asks_for_more_info :
  let r := fst (generate_test_cases JsonRef.loads JsonRef.dumps all_writable same_records ∅ "PAN-1"
                  "PAN-1" "P" "S" "D" (answer needs_more_info_fields)
                  (answer needs_more_info_fields)) in
  error r = Some (NeedsMoreInfo (JStr "x") (Some [JStr "what browser?"]))
  /\ option_map ctx_questions (context_data r)
     = Some (JArr [JStr "what browser?"]).
Proof. vm_compute. split; reflexivity. Qed.

End Normalizer.

(** ** The parser of the generated code *)

Module CodeJson.

Import CodeGenerator.


Section Statement.

Variable json_loads : string -> option json.





End Statement.

Import Examples.




(** A list or a string that holds the four names passes the validation as
    well: the test of the source is membership, which lists and strings
    also answer. *)
Example validation_is_membership :
  parse_code_json JsonRef.loads
    (Py.lit "[`locators`, `reusable_functions`, `test_functions`, `cursor_prompt`]")
  = Ok (Some (JArr [JStr "locators"; JStr "reusable_functions";
                    JStr "test_functions"; JStr "cursor_prompt"]))
  /\ parse_code_json JsonRef.loads "12" = Ok None.
Proof. split; vm_compute; reflexivity. Qed.

End CodeJson.

(** ** The caches *)

Module Cache.

Section Statement.

Variable json_loads : string -> option json.
Variable json_dumps : json -> string.
Variable writable : string -> bool.


End Statement.

Import Examples.

(** C8, as stated, fails on the code.  The code cache does not return the
    value handed to the write: the read gives the entry built around it,
    which is another dictionary.  And a write that the file system refuses
    is swallowed, so the read that follows it is a miss. *)
Lemma written_value_is_not_what_is_read :
  let X := JObj code_fields in
  let entry := CodeGenerator.save_data "2026-01-01T00:00:00" "TC-01" "Login"
                 (Some "PAN-1") X (JObj []) in
  CodeGenerator.load_cached_code JsonRef.loads
    (CodeGenerator.save_code_to_cache JsonRef.dumps all_writable ∅
       "2026-01-01T00:00:00" "TC-01" "Login" (Some "PAN-1") X (JObj []))
    "TC-01" (Some "PAN-1") = Some entry
  /\ Some entry <> Some X
  /\ JsonRef.loads (JsonRef.dumps (JObj ready_fields))
     = Some (JObj ready_fields)
  /\ TestCaseGeneration.load_cached_test_cases JsonRef.loads
       (TestCaseGeneration.save_test_cases_to_cache JsonRef.dumps read_only ∅
          "PAN-1" (JObj ready_fields)) "PAN-1" = None.
Proof.
  intros X entry. split; [vm_compute; reflexivity|].
  split; [discriminate|]. split; vm_compute; reflexivity.
Qed.


End Cache.

(** ** The action extractor and what is derived from its actions *)

Module ActionFacts.

Import Recording Lines.





Lemma prefix_app (sub rest : string) : String.prefix sub (sub +:+ rest) = true.
Proof.
  induction sub as [|c sub IH]; simpl; [now destruct rest|].
  destruct (ascii_dec c c); [exact IH | contradiction].
Qed.

Lemma find_from_present (sub pre rest : string) (i : Z) :
  0 <= i -> Py.find_from sub (pre +:+ sub +:+ rest) i <> -1.
Proof.
  revert i. induction pre as [|c pre IH]; intros i Hi.
  - simpl append. pose proof (prefix_app sub rest) as P.
    destruct (sub +:+ rest); cbn [Py.find_from]; rewrite P; lia.
  - simpl append. cbn [Py.find_from].
    destruct (String.prefix sub (String c (pre +:+ sub +:+ rest))); [lia|].
    apply IH. lia.
Qed.

(** A text that holds the pattern contains it. *)
Lemma contains_present (sub pre rest : string) :
  Py.contains (pre +:+ sub +:+ rest) sub = true.
Proof.
  unfold Py.contains, Py.find, Py.find_at.
  pose proof (PyFacts.len_nonneg (pre +:+ sub +:+ rest)).
  destruct (Py.len (pre +:+ sub +:+ rest) <? 0) eqn:E;
    [apply Z.ltb_lt in E; lia|].
  simpl Py.drop.
  pose proof (find_from_present sub pre rest 0 ltac:(lia)) as N.
  destruct (Py.find_from sub (pre +:+ sub +:+ rest) 0 =? -1) eqn:G;
    [apply Z.eqb_eq in G; contradiction | reflexivity].
Qed.








Section Statement.

Variable clock : nat -> string.


(** C1 on the code, at the three lines of the scenario.  The extractor
    yields the three actions of the claim.  The conversion to steps stops
    with [AttributeError] at the click, whose selector is a dictionary; and
    the locator declarations hold one locator, for the test id, and none
    for the selector [#email] of type [css]. *)
Theorem scenario_on_the_code (start_url : string) :
  let actions := _extract_actions_from_code clock start_url
                   Examples.scenario_code [] in
  actions
  = [navigate_action "https://x.test/login" (clock 0%nat);
     click_action (selector_info "testid" "submit-btn") (clock 1%nat);
     fill_action (selector_info "css" "#email") "a@b.com" (clock 2%nat)]
  /\ convert_actions_to_test_steps actions = Raise AttributeError
  /\ locator_declarations actions
     = Ok (["class Locators:";
            "    submit_btn = page.get_by_test_id("
              +:+ Py.DQ +:+ "submit-btn" +:+ Py.DQ +:+ ")"],
           ["// Locators";
            "const submit_btn = page.getByTestId('submit-btn');"]).
Proof. vm_compute. repeat split; reflexivity. Qed.

End Statement.

Import Examples.

(** The steps of the claim are what the conversion gives for the same three
    actions when their selectors are strings. *)
Example steps_from_string_selectors :
  convert_actions_to_test_steps string_selector_actions
  = Ok ["1. Navigate to https://x.test/login";
        "2. Click on submit-btn";
        "3. Enter 'a@b.com' in element with id 'email'"].
Proof. vm_compute. reflexivity. Qed.



End ActionFacts.

(** ** Further properties of the action extractor *)

Module ExtractorFacts.

Import Recording Lines Produced.

Section WithClock.

Variable clock : nat -> string.

(** A line leaves the recorded actions alone or appends one action. *)
Lemma extract_line_shape (recorded : list json) (line0 : string) :
  extract_line clock recorded line0 = recorded
  \/ exists a, extracted a
              /\ extract_line clock recorded line0 = (recorded ++ [a])%list.
Proof.
  unfold extract_line.
  destruct (Py.contains (Py.strip line0) "page.goto("
            || Py.contains (Py.strip line0) "page.goto(").
  - destruct (goto_url QUOTES (Py.strip line0)) as [url|]; [right|now left].
    eexists. split; [apply extracted_navigate | reflexivity].
  - destruct (Py.contains (Py.strip line0) ".click()").
    + unfold click_selector, selector_of.
      repeat match goal with
             | |- context [if ?c then _ else _] => destruct c
             end;
        try (now left);
        match goal with
        | |- context [accessor_literal ?a ?l] =>
            destruct (accessor_literal a l); simpl; [right | now left]
        end;
        eexists; (split; [apply extracted_click | reflexivity]).
    + destruct (Py.contains (Py.strip line0) ".fill("); [|now left].
      unfold fill_selector, selector_of.
      repeat match goal with
             | |- context [if ?c then _ else _] => destruct c
             end;
        try (now left);
        match goal with
        | |- context [accessor_literal ?a ?l] =>
            destruct (accessor_literal a l); simpl; [right | now left]
        end;
        eexists; (split; [apply extracted_fill | reflexivity]).
Qed.

(** The loop over the lines keeps what was recorded and appends at most one
    action per line. *)
Lemma fold_extract_shape (lines : list string) (recorded : list json) :
  exists more,
    fold_left (extract_line clock) lines recorded = (recorded ++ more)%list
    /\ Forall extracted more
    /\ (length more <= length lines)%nat.
Proof.
  revert recorded. induction lines as [|l lines IH]; intros recorded.
  - exists []. simpl. rewrite app_nil_r. repeat split; auto.
  - simpl fold_left.
    destruct (extract_line_shape recorded l) as [E|(a & Ha & E)]; rewrite E.
    + destruct (IH recorded) as (more & F & A & L).
      exists more. repeat split; auto. simpl. lia.
    + destruct (IH (recorded ++ [a])%list) as (more & F & A & L).
      exists (a :: more). rewrite F, <- app_assoc. simpl.
      repeat split; auto. lia.
Qed.

Lemma split_go_nonempty (sep : ascii) (cur s : string) :
  (1 <= length (Py.split_go sep cur s))%nat.
Proof.
  revert cur. induction s as [|c s IH]; intros cur; simpl; [lia|].
  destruct (Ascii.eqb c sep); simpl; [lia | apply IH].
Qed.

(** X1: the extraction never ends with an empty list of actions; it keeps
    the actions recorded before as a prefix, and what it appends is at most
    one action per line of the code, each a navigate, click or fill
    dictionary of the extractor. *)
Theorem extraction_keeps_and_floors (start_url code : string)
  (recorded : list json) :
  _extract_actions_from_code clock start_url code recorded <> []
  /\ exists more,
       _extract_actions_from_code clock start_url code recorded
       = (recorded ++ more)%list
       /\ Forall extracted more
       /\ (length more <= length (Py.split code Py.newline))%nat.
Proof.
  unfold _extract_actions_from_code.
  destruct (String.eqb code EmptyString) eqn:E.
  - split; [now destruct recorded|].
    apply String.eqb_eq in E. subst code.
    eexists. split; [reflexivity|]. split.
    + repeat constructor.
    + simpl. lia.
  - destruct (fold_extract_shape (Py.split code Py.newline) recorded)
      as (more & F & A & L).
    rewrite F.
    destruct (recorded ++ more)%list as [|x xs] eqn:R.
    + apply app_eq_nil in R as [-> ->].
      split; [discriminate|].
      eexists. split; [reflexivity|]. split; [repeat constructor|].
      pose proof (split_go_nonempty Py.newline EmptyString code).
      unfold Py.split. simpl. lia.
    + split; [discriminate|]. exists more. auto.
Qed.

Lemma plain_line_records_nothing (recorded : list json) (line0 : string) :
  plain_line line0 = true -> extract_line clock recorded line0 = recorded.
Proof.
  unfold plain_line, extract_line. intros H.
  apply andb_prop in H as [H F]. apply andb_prop in H as [G C].
  apply negb_true_iff in G, C, F. now rewrite G, C, F.
Qed.

(** X2: when no line of the code holds a navigation, click or fill token
    and nothing was recorded before, the result is exactly one navigation to
    the start URL. *)
Theorem no_action_lines_give_start_navigation (start_url code : string) :
  forallb plain_line (Py.split code Py.newline) = true ->
  _extract_actions_from_code clock start_url code []
  = [navigate_action start_url (clock 0%nat)].
Proof.
  intros H. unfold _extract_actions_from_code.
  destruct (String.eqb code EmptyString); [reflexivity|].
  assert (F : forall lines, forallb plain_line lines = true ->
                fold_left (extract_line clock) lines [] = []).
  { induction lines as [|l lines IH]; intros P; [reflexivity|].
    simpl in P. apply andb_prop in P as [Pl Ps].
    simpl. rewrite plain_line_records_nothing by exact Pl. now apply IH. }
  now rewrite F.
Qed.



End WithClock.

Import Examples.

(** Code without any action line gives the navigation to the start URL. *)
Lemma no_action_lines_give_start_navigation_witness :
  _extract_actions_from_code tick "https://x.test"
    ("import re" +:+ Py.NL +:+ "print(1)") []
  = [navigate_action "https://x.test" (tick 0)].
Proof.
  apply (no_action_lines_give_start_navigation tick "https://x.test"
           ("import re" +:+ Py.NL +:+ "print(1)")).
  vm_compute. reflexivity.
Defined.


End ExtractorFacts.

(** ** Further properties of the locator declarations and of the steps *)

Module DerivedFacts.

Import Recording Produced.

(** A step that succeeds only adds to the keys seen, and succeeds without
    any change from every state that has seen at least as much. *)
Lemma locator_step_stable (st st' : locator_state) (action : json) :
  locator_step st action = Ok st' ->
  seen_selectors st ⊆ seen_selectors st'
  /\ forall st2, seen_selectors st' ⊆ seen_selectors st2 ->
       locator_step st2 action = Ok st2.
Proof.
  unfold locator_step.
  destruct (Json.get action "selector" (JObj [])) as [selector|e];
    cbn [Exn.bind]; [|discriminate].
  destruct selector;
    try (intros H; injection H as <-; split; [set_solver | reflexivity]).
  cbn [Json.get Exn.bind].
  set (sel_type := match Json.assoc fields "type" with
                   | Some x => x | None => JStr EmptyString end).
  set (sel_value := match Json.assoc fields "value" with
                    | Some x => x | None => JStr EmptyString end).
  set (sel_name := match Json.assoc fields "name" with
                   | Some x => x | None => JStr EmptyString end).
  destruct (Json.truthy sel_value); cbn [negb];
    [|intros H; injection H as <-; split; [set_solver | reflexivity]].
  set (key := Fmt.str sel_type +:+ "_" +:+ Fmt.str sel_value).
  destruct (decide (key ∈ seen_selectors st)) as [In|Out].
  - intros H. injection H as <-. split; [set_solver|].
    intros st2 Sub. destruct (decide (key ∈ seen_selectors st2)); [reflexivity|].
    set_solver.
  - destruct (locator_name_of sel_value) as [name|e]; cbn [Exn.bind];
      [|discriminate].
    destruct (locator_lines sel_type sel_value sel_name name) as [[py js]|];
      intros H; injection H as <-; cbn [seen_selectors];
      (split; [set_solver|]);
      intros st2 Sub;
      (destruct (decide (key ∈ seen_selectors st2)); [reflexivity|]);
      set_solver.
Qed.

Lemma locator_loop_grows (actions : list json) (st st' : locator_state) :
  locator_loop st actions = Ok st' ->
  seen_selectors st ⊆ seen_selectors st'.
Proof.
  revert st. induction actions as [|a actions IH]; intros st H.
  - injection H as <-. set_solver.
  - cbn [locator_loop] in H.
    destruct (locator_step st a) as [st1|e] eqn:E; cbn [Exn.bind] in H;
      [|discriminate].
    apply locator_step_stable in E as [G _]. apply IH in H. set_solver.
Qed.

Lemma locator_loop_stable (actions : list json) (st st' : locator_state) :
  locator_loop st actions = Ok st' ->
  forall st2, seen_selectors st' ⊆ seen_selectors st2 ->
    locator_loop st2 actions = Ok st2.
Proof.
  revert st. induction actions as [|a actions IH]; intros st H st2 Sub.
  - reflexivity.
  - cbn [locator_loop] in *.
    destruct (locator_step st a) as [st1|e] eqn:E; cbn [Exn.bind] in H;
      [|discriminate].
    pose proof (locator_loop_grows _ _ _ H) as G.
    apply locator_step_stable in E as [_ S].
    rewrite S by set_solver. cbn [Exn.bind]. now apply (IH st1).
Qed.

Lemma locator_loop_app (l1 l2 : list json) (st : locator_state) :
  locator_loop st (l1 ++ l2)%list
  = Exn.bind (locator_loop st l1) (fun st' => locator_loop st' l2).
Proof.
  revert st. induction l1 as [|a l1 IH]; intros st; [reflexivity|].
  cbn [app locator_loop].
  destruct (locator_step st a) as [st1|e]; cbn [Exn.bind]; [apply IH|reflexivity].
Qed.

(** X4: the locator declarations have no duplicate accumulation: when the
    declarations of a list of actions are generated without an exception,
    generating them for the list followed by any part of it played again
    (here the whole list) gives the same declarations. *)
Theorem locator_declarations_idempotent (actions : list json)
  (decls : list string * list string) :
  locator_declarations actions = Ok decls ->
  locator_declarations (actions ++ actions)%list = Ok decls.
Proof.
  unfold locator_declarations.
  set (st0 := {| locators_python := ["class Locators:"];
                 locators_javascript := ["// Locators"];
                 seen_selectors := ∅ |}).
  rewrite locator_loop_app.
  destruct (locator_loop st0 actions) as [st|e] eqn:E; cbn [Exn.bind];
    [|discriminate].
  rewrite (locator_loop_stable actions st0 st E st) by set_solver.
  cbn [Exn.bind]. auto.
Qed.

(** The conversion loop on actions of the extractor: navigations become
    steps, the first click or fill raises. *)
Lemma convert_loop_extracted (actions : list json) :
  Forall extracted actions ->
  forall (steps : list string) (n : Z),
    (existsb is_click_or_fill actions = false ->
     exists more,
       convert_loop actions steps n = Ok (steps ++ more)%list
       /\ length more = length actions)
    /\ (existsb is_click_or_fill actions = true ->
        convert_loop actions steps n = Raise AttributeError).
Proof.
  induction 1 as [|a actions Ha _ IH]; intros steps n.
  - split; [|discriminate]. intros _. exists []. now rewrite app_nil_r.
  - destruct Ha as [url ts|type value ts|type value text ts].
    + specialize (IH (steps ++ [pretty n +:+ ". Navigate to " +:+ url])%list
                     (n + 1)) as [IH1 IH2].
      split; intros E.
      * change (existsb is_click_or_fill actions = false) in E.
        destruct (IH1 E) as (more & C & L).
        exists ((pretty n +:+ ". Navigate to " +:+ url) :: more).
        split; [|simpl; now rewrite L].
        rewrite <- app_assoc in C. exact C.
      * change (existsb is_click_or_fill actions = true) in E.
        exact (IH2 E).
    + split; [discriminate | reflexivity].
    + split; [discriminate | reflexivity].
Qed.

Section WithClock.

Variable clock : nat -> string.

(** X5: on the actions that the extractor returns for any code, the
    conversion to test steps succeeds, with one step per action, exactly when
    no click or fill was extracted; as soon as the code yields one click or
    fill action, the conversion raises [AttributeError]. *)
Theorem conversion_of_extracted_actions (start_url code : string) :
  let actions := _extract_actions_from_code clock start_url code [] in
  (existsb is_click_or_fill actions = false ->
   exists steps,
     convert_actions_to_test_steps actions = Ok steps
     /\ length steps = length actions)
  /\ (existsb is_click_or_fill actions = true ->
      convert_actions_to_test_steps actions = Raise AttributeError).
Proof.
  intros actions.
  destruct (ExtractorFacts.extraction_keeps_and_floors clock start_url code [])
    as (_ & more & E & A & _).
  fold actions in E. simpl in E. rewrite E.
  unfold convert_actions_to_test_steps.
  destruct (convert_loop_extracted more A [] 1) as [H1 H2].
  split; [|exact H2].
  intros N. destruct (H1 N) as (steps & C & L). exists steps. auto.
Qed.

End WithClock.

Lemma begins_with_number (p rest : string) :
  Py.startswith (p +:+ (". " +:+ rest)) (p +:+ ". ") = true.
Proof.
  unfold Py.startswith. rewrite <- PyFacts.app_assoc.
  apply ActionFacts.prefix_app.
Qed.

Lemma numbered_snoc (steps : list string) (s : string) :
  numbered steps ->
  Py.startswith s (pretty (Z.of_nat (length steps) + 1) +:+ ". ") = true ->
  numbered (steps ++ [s]).
Proof.
  intros N S i t H.
  destruct (Nat.lt_ge_cases i (length steps)) as [L|G].
  - rewrite nth_error_app1 in H by exact L. now apply N.
  - rewrite nth_error_app2 in H by exact G.
    destruct (i - length steps)%nat as [|k] eqn:D.
    + injection H as <-. replace i with (length steps) by lia. exact S.
    + destruct k; discriminate.
Qed.

(** The loop keeps the numbering and adds at most one step per action. *)
Lemma convert_loop_numbered (actions : list json) :
  forall (steps result : list string) (n : Z),
    n = Z.of_nat (length steps) + 1 ->
    numbered steps ->
    convert_loop actions steps n = Ok result ->
    numbered result
    /\ (length result <= length steps + length actions)%nat.
Proof.
  induction actions as [|a actions IH]; intros steps result n Hn N H.
  - injection H as <-. split; [exact N | simpl; lia].
  - cbn [convert_loop] in H.
    destruct (Json.get a "type" JNull) as [ty|e]; [|discriminate].
    destruct (Json.get a "selector" (JStr EmptyString)) as [sel|e];
      [|discriminate].
    destruct (Json.get a "value" (JStr EmptyString)) as [val|e];
      [|discriminate].
    cbn [Exn.bind] in H.
    assert (Next : forall s,
               Py.startswith s (pretty n +:+ ". ") = true ->
               convert_loop actions (steps ++ [s]) (n + 1) = Ok result ->
               numbered result
               /\ (length result <= length steps + length (a :: actions))%nat).
    { intros s S C.
      apply IH in C.
      - destruct C as [A B]. split; [exact A|].
        rewrite length_app in B. simpl in *. lia.
      - rewrite length_app. simpl. lia.
      - apply numbered_snoc; [exact N|]. now rewrite <- Hn. }
    destruct (Json.is_str ty "navigate").
    { destruct (Json.get a "url" (JStr EmptyString)) as [url|e];
        [|discriminate].
      cbn [Exn.bind] in H. eapply Next; [|exact H].
      apply (begins_with_number (pretty n) ("Navigate to " +:+ Fmt.str url)). }
    destruct (Json.is_str ty "click").
    { destruct (_make_selector_readable sel) as [r|e]; [|discriminate].
      cbn [Exn.bind] in H. eapply Next; [|exact H].
      apply (begins_with_number (pretty n) ("Click on " +:+ r)). }
    destruct (Json.is_str ty "fill").
    { destruct (_make_selector_readable sel) as [r|e]; [|discriminate].
      cbn [Exn.bind] in H. eapply Next; [|exact H].
      apply (begins_with_number (pretty n)
               ("Enter '" +:+ Fmt.str val +:+ "' in " +:+ r)). }
    destruct (Json.is_str ty "keypress").
    { destruct (Json.get a "key" (JStr EmptyString)) as [key|e];
        [|discriminate].
      cbn [Exn.bind] in H. eapply Next; [|exact H].
      apply (begins_with_number (pretty n)
               ("Press " +:+ Fmt.str key +:+ " key")). }
    apply IH in H; [|exact Hn|exact N].
    destruct H as [A B]. split; [exact A | simpl; lia].
Qed.

(** X6: whenever the conversion returns steps, they are numbered 1, 2, 3
    and so on without a gap, whatever actions of an unknown type were
    skipped, and there are at most as many steps as actions. *)
Theorem steps_are_numbered_in_sequence (actions : list json)
  (steps : list string) :
  convert_actions_to_test_steps actions = Ok steps ->
  numbered steps /\ (length steps <= length actions)%nat.
Proof.
  intros H. unfold convert_actions_to_test_steps in H.
  apply (convert_loop_numbered actions [] steps 1) in H.
  - exact H.
  - reflexivity.
  - intros i s E. destruct i; discriminate.
Qed.

Import Examples.

(** The declarations of the scenario, generated once and twice over. *)
Lemma locator_declarations_idempotent_witness :
  let actions := _extract_actions_from_code tick "https://x.test"
                   scenario_code [] in
  locator_declarations (actions ++ actions)%list
  = locator_declarations actions.
Proof.
  intros actions.
  destruct (locator_declarations actions) as [decls|e] eqn:E.
  - now apply locator_declarations_idempotent.
  - vm_compute in E. discriminate.
Defined.

(** Code that only navigates converts; the scenario, which clicks, does
    not. *)
Lemma conversion_of_extracted_actions_witness :
  (exists steps,
     convert_actions_to_test_steps
       (_extract_actions_from_code tick "https://x.test"
          (Py.lit "page.goto(`https://x.test/a`)") []) = Ok steps
     /\ length steps = 1%nat)
  /\ convert_actions_to_test_steps
       (_extract_actions_from_code tick "https://x.test" scenario_code [])
     = Raise AttributeError.
Proof.
  split.
  - destruct (proj1 (conversion_of_extracted_actions tick "https://x.test"
                       (Py.lit "page.goto(`https://x.test/a`)")))
      as (steps & C & L); [vm_compute; reflexivity|].
    exists steps. split; [exact C | exact L].
  - apply (proj2 (conversion_of_extracted_actions tick "https://x.test"
                    scenario_code)).
    vm_compute. reflexivity.
Defined.

(** The numbering on a list that holds an action of an unknown type. *)
Lemma steps_are_numbered_in_sequence_witness :
  numbered ["1. Navigate to u"; "2. Press Enter key"]
  /\ (2 <= 3)%nat.
Proof.
  apply (steps_are_numbered_in_sequence
           [JObj [("type", JStr "navigate"); ("url", JStr "u")];
            JObj [("type", JStr "hover")];
            JObj [("type", JStr "keypress"); ("key", JStr "Enter")]]).
  vm_compute. reflexivity.
Defined.

End DerivedFacts.

(** ** Reading back what the generation paths cached *)

Module ReadThroughFacts.

Import TestCaseGeneration ReadThrough Padding.

(** Rows are the padding of their own two columns. *)
Lemma padded_columns (rows : list step_row) :
  padded (map Step rows) (map Expected_Result rows) = rows.
Proof.
  induction rows as [|[s e] rows IH]; simpl; [reflexivity|]. now rewrite IH.
Qed.

Lemma format_cache_test_case (tc : test_case) :
  format_test_case (cache_test_case tc) = Ok tc.
Proof.
  unfold format_test_case, cache_test_case.
  cbn [Json.get Json.assoc Exn.bind Json.iter].
  change (String.eqb "id" "id") with true.
  cbn.
  rewrite NormalizerFacts.format_steps_padded. cbn [Exn.bind skipn].
  rewrite padded_columns. now destruct tc.
Qed.

Lemma format_cached_layout (formatted : list test_case) :
  format_test_cases (JArr (map cache_test_case formatted)) = Ok formatted.
Proof.
  unfold format_test_cases. cbn [Json.iter Exn.bind].
  induction formatted as [|tc formatted IH]; [reflexivity|].
  cbn [map mapM]. rewrite format_cache_test_case. cbn [Exn.bind].
  now rewrite IH.
Qed.

(** X7: the layout in which regeneration caches its test cases formats
    back to exactly the test cases it returned: every id, title, step and
    expected result is kept, the padding included. *)
Theorem regenerated_cache_formats_back (formatted : list test_case) :
  format_test_cases (JArr (map cache_test_case formatted)) = Ok formatted.
Proof. apply format_cached_layout. Qed.

Section Statement.

Variable json_loads : string -> option json.
Variable json_dumps : json -> string.
Variable writable : string -> bool.
Variable to_records :
  list TestCaseGeneration.step_row -> list TestCaseGeneration.step_row.
Variable extract_ticket_id : string -> option string.

(** What the cached branch returns for a stored entry. *)
Lemma cached_entry_answers (fs : gmap string string) (ticket_id : string)
  (notes tcs : json) (formatted : list test_case) :
  fs !! get_cache_file_path ticket_id
    = Some (json_dumps (cache_entry notes tcs)) ->
  json_loads (json_dumps (cache_entry notes tcs))
    = Some (cache_entry notes tcs) ->
  Json.truthy tcs = true ->
  format_test_cases tcs = Ok formatted ->
  cached_test_cases json_loads fs ticket_id
  = Ok (Some {| df := all_rows formatted;
                raw_output := "Cached test cases for " +:+ ticket_id;
                error := None;
                formatted_test_cases := Some formatted;
                context_data := None |}).
Proof.
  intros F R T E.
  unfold cached_test_cases, load_cached_test_cases, loads_exn.
  rewrite F, R. unfold cache_entry at 1. cbn [Json.truthy].
  unfold cache_entry. cbn [Json.get Json.assoc Exn.bind].
  change (String.eqb "status" "test_cases") with false.
  change (String.eqb "notes" "test_cases") with false.
  change (String.eqb "test_cases" "test_cases") with true.
  cbv iota. rewrite T, E. reflexivity.
Qed.

(** X8: when the initial path succeeds on a [ready] payload, and the cache
    file of the ticket can be written and the JSON library reads back the
    entry it wrote, the cached branch answers the next request for the same
    ticket with the same rows and the same formatted test cases, without
    going on to generate.  When the file cannot be written the path
    succeeds all the same and the store is as it was. *)
Theorem cache_answers_after_generation
  (fs : gmap string string)
  (ticket_id jira_key jira_project jira_summary jira_description : string)
  (raw out : string) (fields : list (string * json)) (tcs : json)
  (formatted : list test_case) :
  let notes := match Json.assoc fields "notes" with
               | Some n => n
               | None => JStr EmptyString
               end in
  let r := generate_test_cases json_loads json_dumps writable to_records fs
             ticket_id jira_key jira_project jira_summary jira_description
             raw out in
  json_loads (json_text out) = Some (JObj fields) ->
  Json.assoc fields "status" = Some (JStr "ready") ->
  Json.assoc fields "test_cases" = Some tcs ->
  Json.truthy tcs = true ->
  format_test_cases tcs = Ok formatted ->
  fst r = success (all_rows formatted) raw formatted
  /\ (writable (get_cache_file_path ticket_id) = true ->
      json_loads (json_dumps (cache_entry notes tcs))
        = Some (cache_entry notes tcs) ->
      cached_test_cases json_loads (snd r) ticket_id
      = Ok (Some {| df := df (fst r);
                    raw_output := "Cached test cases for " +:+ ticket_id;
                    error := None;
                    formatted_test_cases := formatted_test_cases (fst r);
                    context_data := None |}))
  /\ (writable (get_cache_file_path ticket_id) = false -> snd r = fs).
Proof.
  intros notes r L S T Tr E.
  assert (G : r = (success (all_rows formatted) raw formatted,
                   save_test_cases_to_cache json_dumps writable fs ticket_id
                     (cache_entry notes tcs))).
  { unfold r, generate_test_cases, generate_test_cases_try, loads_exn.
    rewrite L. cbn [Exn.bind Json.get]. rewrite S, T.
    change (Json.is_str (JStr "ready") "invalid") with false.
    change (Json.is_str (JStr "ready") "needs_more_info") with false.
    change (Json.is_str (JStr "ready") "ready") with true.
    cbv iota. rewrite Tr. cbn [negb]. rewrite E. reflexivity. }
  rewrite G. cbn [fst snd]. split; [reflexivity|]. split.
  - intros W R.
    apply (cached_entry_answers _ ticket_id notes tcs formatted); auto.
    unfold save_test_cases_to_cache. rewrite W. apply lookup_insert_eq.
  - intros W. unfold save_test_cases_to_cache. now rewrite W.
Qed.

(** X9: when a regeneration with feedback succeeds for a given ticket id,
    and the cache file of the ticket can be written and the JSON library
    reads back the entry it wrote, the cached branch of the initial path
    answers the next request for that ticket with exactly the regenerated
    test cases.  When the file cannot be written the regeneration succeeds
    all the same and the store is as it was. *)
Theorem cache_answers_after_regeneration
  (fs : gmap string string) (feature ticket_id raw out : string)
  (fields : list (string * json)) (tcs : json)
  (formatted : list test_case) :
  let notes := match Json.assoc fields "notes" with
               | Some n => n
               | None => JStr "Test cases regenerated based on user feedback"
               end in
  let entry := cache_entry notes (JArr (map cache_test_case formatted)) in
  let r := regenerate_test_cases_with_feedback json_loads json_dumps writable
             extract_ticket_id fs feature (Some ticket_id) raw out in
  ticket_id <> EmptyString ->
  json_loads (json_text out) = Some (JObj fields) ->
  Json.assoc fields "status" = Some (JStr "ready") ->
  Json.assoc fields "test_cases" = Some tcs ->
  Json.truthy tcs = true ->
  format_test_cases tcs = Ok formatted ->
  formatted <> [] ->
  fst r = success (all_rows formatted) raw formatted
  /\ (writable (get_cache_file_path ticket_id) = true ->
      json_loads (json_dumps entry) = Some entry ->
      cached_test_cases json_loads (snd r) ticket_id
      = Ok (Some {| df := all_rows formatted;
                    raw_output := "Cached test cases for " +:+ ticket_id;
                    error := None;
                    formatted_test_cases := Some formatted;
                    context_data := None |}))
  /\ (writable (get_cache_file_path ticket_id) = false -> snd r = fs).
Proof.
  intros notes entry r N L S T Tr E NE.
  assert (Q : String.eqb ticket_id EmptyString = false)
    by now apply String.eqb_neq.
  assert (G : r = (success (all_rows formatted) raw formatted,
                   save_test_cases_to_cache json_dumps writable fs ticket_id
                     entry)).
  { unfold r, regenerate_test_cases_with_feedback,
      regenerate_test_cases_with_feedback_try, loads_exn, cache_ticket_id.
    rewrite L. cbn [Exn.bind Json.get]. rewrite S, T.
    change (Json.is_str (JStr "ready") "ready") with true.
    cbv iota. rewrite Tr. cbn [negb]. rewrite E. cbn [Exn.bind].
    rewrite Q. cbn [negb]. rewrite Q. reflexivity. }
  rewrite G. cbn [fst snd]. split; [reflexivity|]. split.
  - intros W R.
    apply (cached_entry_answers _ ticket_id notes
             (JArr (map cache_test_case formatted)) formatted).
    + unfold save_test_cases_to_cache. rewrite W. apply lookup_insert_eq.
    + exact R.
    + destruct formatted; [contradiction | reflexivity].
    + apply format_cached_layout.
  - intros W. unfold save_test_cases_to_cache. now rewrite W.
Qed.

Lemma quiet_bind {A : Type} (fs : gmap string string) (m : res A)
  (k : A -> res (gen_result * gmap string string)) :
  (forall a, quiet fs (k a)) -> quiet fs (Exn.bind m k).
Proof. intros H. destruct m as [a|e]; simpl; [apply H | exact I]. Qed.

Lemma quiet_failure (fs : gmap string string) (msg : message)
  (ctx : option context) : quiet fs (Ok (failure msg ctx, fs)).
Proof. intros _. reflexivity. Qed.

Lemma quiet_success (fs fs' : gmap string string) (rows : list step_row)
  (raw : string) (formatted : list test_case) :
  quiet fs (Ok (success rows raw formatted, fs')).
Proof. intros H. now contradiction H. Qed.

Ltac hush :=
  repeat first
    [ apply quiet_failure
    | apply quiet_success
    | apply quiet_bind; intros ?
    | match goal with
      | |- quiet _ (if ?c then _ else _) => destruct c
      | |- quiet _ (match ?c with _ => _ end) => destruct c
      end ].

Lemma quiet_result (fs : gmap string string)
  (m : res (gen_result * gmap string string))
  (on_decode : gen_result * gmap string string)
  (on_other : exn -> message) :
  quiet fs m ->
  quiet fs (Ok on_decode) ->
  quiet fs (Ok match m with
               | Ok r => r
               | Raise JSONDecodeError => on_decode
               | Raise e => (failure (on_other e) None, fs)
               end).
Proof.
  intros Q D. destruct m as [[g fs']|e]; [exact Q|].
  destruct e; try exact D; intros _; reflexivity.
Qed.

(** X10: none of the three generation paths touches the file store unless
    it returns without an error: whenever the result carries an error
    message (invalid ticket, request for more information, empty or unknown
    status, invalid JSON, an exception), the store is the one the path was
    given. *)
Theorem failures_leave_the_cache_alone
  (fs : gmap string string)
  (ticket_id jira_key jira_project jira_summary jira_description : string)
  (ctx : context) (feature : string) (regen_ticket : option string)
  (raw out : string) :
  (let r := generate_test_cases json_loads json_dumps writable to_records fs ticket_id jira_key
              jira_project jira_summary jira_description raw out in
   error (fst r) <> None -> snd r = fs)
  /\ (let r := generate_test_cases_with_additional_info json_loads json_dumps writable
                 fs ctx raw out in
      error (fst r) <> None -> snd r = fs)
  /\ (let r := regenerate_test_cases_with_feedback json_loads json_dumps writable
                 extract_ticket_id fs feature regen_ticket raw out in
      error (fst r) <> None -> snd r = fs).
Proof.
  split; [|split]; intros r.
  - assert (Q : quiet fs (Ok r)); [|destruct r; exact Q].
    unfold r, generate_test_cases.
    apply (quiet_result fs _ _ ErrorGenerating).
    + unfold generate_test_cases_try. hush.
    + assert (L : quiet fs (legacy_array_fallback json_loads json_dumps writable to_records fs
                              ticket_id raw)).
      { unfold legacy_array_fallback. hush. }
      destruct (legacy_array_fallback json_loads json_dumps writable to_records fs ticket_id raw)
        as [[g fs']|e]; [exact L | intros _; reflexivity].
  - assert (Q : quiet fs (Ok r)); [|destruct r; exact Q].
    unfold r, generate_test_cases_with_additional_info.
    apply (quiet_result fs _ _ ErrorGenerating).
    + unfold generate_test_cases_with_additional_info_try. hush.
    + apply quiet_failure.
  - assert (Q : quiet fs (Ok r)); [|destruct r; exact Q].
    unfold r, regenerate_test_cases_with_feedback.
    apply (quiet_result fs _ _ ErrorRegenerating).
    + unfold regenerate_test_cases_with_feedback_try. hush.
    + apply quiet_failure.
Qed.

End Statement.

Import Examples.

(** The read-through on the example answer, and the same request on a
    file system that refuses the write. *)
Lemma cache_answers_after_generation_witness :
  let r := generate_test_cases JsonRef.loads JsonRef.dumps all_writable
             same_records ∅ "PAN-1" "PAN-1"
             "P" "S" "D" (answer ready_fields) (answer ready_fields) in
  let r' := generate_test_cases JsonRef.loads JsonRef.dumps read_only
              same_records ∅ "PAN-1" "PAN-1"
              "P" "S" "D" (answer ready_fields) (answer ready_fields) in
  fst r = success (all_rows ready_formatted) (answer ready_fields)
            ready_formatted
  /\ cached_test_cases JsonRef.loads (snd r) "PAN-1"
     = Ok (Some {| df := df (fst r);
                   raw_output := "Cached test cases for PAN-1";
                   error := None;
                   formatted_test_cases := formatted_test_cases (fst r);
                   context_data := None |})
  /\ fst r' = fst r /\ snd r' = ∅.
Proof.
  intros r r'.
  destruct (cache_answers_after_generation JsonRef.loads JsonRef.dumps
              all_writable same_records ∅
              "PAN-1" "PAN-1" "P" "S" "D" (answer ready_fields)
              (answer ready_fields) ready_fields (JArr [case_3_1; case_2_0])
              ready_formatted) as (A & B & _);
    try (vm_compute; reflexivity).
  destruct (cache_answers_after_generation JsonRef.loads JsonRef.dumps
              read_only same_records ∅
              "PAN-1" "PAN-1" "P" "S" "D" (answer ready_fields)
              (answer ready_fields) ready_fields (JArr [case_3_1; case_2_0])
              ready_formatted) as (A' & _ & C');
    try (vm_compute; reflexivity).
  split; [exact A|]. split; [apply B; vm_compute; reflexivity|].
  split; [|apply C'; reflexivity].
  unfold r'. rewrite A'. symmetry. exact A.
Defined.

Lemma cache_answers_after_regeneration_witness :
  let r := regenerate_test_cases_with_feedback JsonRef.loads JsonRef.dumps
             all_writable (fun _ => None) ∅ "feature" (Some "PAN-1")
             (answer ready_fields) (answer ready_fields) in
  let r' := regenerate_test_cases_with_feedback JsonRef.loads JsonRef.dumps
              read_only (fun _ => None) ∅ "feature" (Some "PAN-1")
              (answer ready_fields) (answer ready_fields) in
  fst r = success (all_rows ready_formatted) (answer ready_fields)
            ready_formatted
  /\ cached_test_cases JsonRef.loads (snd r) "PAN-1"
     = Ok (Some {| df := all_rows ready_formatted;
                   raw_output := "Cached test cases for PAN-1";
                   error := None;
                   formatted_test_cases := Some ready_formatted;
                   context_data := None |})
  /\ snd r' = ∅.
Proof.
  intros r r'.
  destruct (cache_answers_after_regeneration JsonRef.loads JsonRef.dumps
              all_writable (fun _ => None) ∅ "feature" "PAN-1"
              (answer ready_fields) (answer ready_fields) ready_fields
              (JArr [case_3_1; case_2_0]) ready_formatted) as (A & B & _);
    try discriminate; try (vm_compute; reflexivity).
  destruct (cache_answers_after_regeneration JsonRef.loads JsonRef.dumps
              read_only (fun _ => None) ∅ "feature" "PAN-1"
              (answer ready_fields) (answer ready_fields) ready_fields
              (JArr [case_3_1; case_2_0]) ready_formatted) as (_ & _ & C');
    try discriminate; try (vm_compute; reflexivity).
  split; [exact A|]. split; [apply B; vm_compute; reflexivity|].
  apply C'. reflexivity.
Defined.

(** A request for more information and an answer that is not JSON leave an
    existing cache file as it was. *)
Lemma failures_leave_the_cache_alone_witness :
  let fs : gmap string string := {[ "testcaseGenerated/PAN-1_test_case.json"
                                    := "old" ]} in
  snd (generate_test_cases JsonRef.loads JsonRef.dumps all_writable same_records fs "PAN-1" "PAN-1"
         "P" "S" "D" (answer needs_more_info_fields)
         (answer needs_more_info_fields)) = fs
  /\ snd (regenerate_test_cases_with_feedback JsonRef.loads JsonRef.dumps all_writable
            (fun _ => None) fs "feature" (Some "PAN-1") "not json" "not json")
     = fs.
Proof.
  intros fs.
  destruct (failures_leave_the_cache_alone JsonRef.loads JsonRef.dumps all_writable
              same_records (fun _ => None) fs "PAN-1" "PAN-1" "P" "S" "D" a_context
              "feature" (Some "PAN-1") (answer needs_more_info_fields)
              (answer needs_more_info_fields)) as (A & _ & _).
  destruct (failures_leave_the_cache_alone JsonRef.loads JsonRef.dumps all_writable
              same_records (fun _ => None) fs "PAN-1" "PAN-1" "P" "S" "D" a_context
              "feature" (Some "PAN-1") "not json" "not json") as (_ & _ & C).
  split.
  - apply A. vm_compute. discriminate.
  - apply C. vm_compute. discriminate.
Defined.

End ReadThroughFacts.

(** ** The span found by the brace scan, and the old array format *)

Module SpanShape.

Import TestCaseGeneration ReadThrough.

Lemma find_from_split (c : ascii) (s : string) (i n : Z) :
  Py.find_from (String c EmptyString) s i = n -> n <> -1 ->
  exists pre rest,
    s = pre +:+ String c rest /\ n = i + Py.len pre
    /\ Py.has_char c pre = false.
Proof.
  revert i. induction s as [|d s IH]; intros i F N.
  - simpl in F. congruence.
  - cbn [Py.find_from] in F. rewrite PyFacts.prefix_one in F.
    destruct (Ascii.eqb d c) eqn:E.
    + apply Ascii.eqb_eq in E. subst d.
      exists EmptyString, s. repeat split. unfold Py.len. simpl. lia.
    + destruct (IH (i + 1) F N) as (pre & rest & -> & Hn & Hp).
      exists (String d pre), rest. repeat split.
      * rewrite PyFacts.len_cons. lia.
      * simpl. now rewrite E, Hp.
Qed.

(** A scan that ends with the counter at zero, having started above zero,
    stopped right after a closing brace. *)
Lemma scan_stops_at_brace (chars : string) :
  forall (i n e e' : Z) (ins esc : bool),
    1 <= n ->
    scan_braces chars i n ins esc e = (0, e') ->
    exists a b, chars = a +:+ String "}" b /\ e' = i + Py.len a + 1.
Proof.
  induction chars as [|c chars IH]; intros i n e e' ins esc Hn H.
  - simpl in H. injection H as H _. lia.
  - assert (Step : forall n' ins' esc',
               1 <= n' ->
               scan_braces chars (i + 1) n' ins' esc' e = (0, e') ->
               exists a b, String c chars = a +:+ String "}" b
                           /\ e' = i + Py.len a + 1).
    { intros n' ins' esc' Hn' R.
      destruct (IH _ _ _ _ _ _ Hn' R) as (a & b & -> & He).
      exists (String c a), b. split; [reflexivity|].
      rewrite PyFacts.len_cons. lia. }
    cbn [scan_braces] in H.
    destruct esc; [now apply (Step n ins false)|].
    destruct (Ascii.eqb c Py.backslash); [now apply (Step n ins true)|].
    destruct (Ascii.eqb c Py.dquote); [now apply (Step n (negb ins) false)|].
    destruct (negb ins); [|now apply (Step n ins false)].
    destruct (Ascii.eqb c "{"); [apply (Step (n + 1) ins false); [lia|easy]|].
    destruct (Ascii.eqb c "}") eqn:B; [|now apply (Step n ins false)].
    apply Ascii.eqb_eq in B. subst c.
    destruct (n - 1 =? 0) eqn:Z0.
    + injection H as _ <-. exists EmptyString, chars. split; [reflexivity|].
      unfold Py.len. simpl. lia.
    + apply Z.eqb_neq in Z0. apply (Step (n - 1) ins false); [lia|easy].
Qed.

(** X11: whenever the scan finds a span, the span is a contiguous piece of
    the input that begins with the first opening brace of the input and
    ends with a closing brace. *)
Theorem span_is_a_braced_slice (s j : string) :
  find_json_span s = Some j ->
  exists pre inner post,
    s = pre +:+ j +:+ post
    /\ j = String "{" (inner +:+ "}")
    /\ Py.has_char "{" pre = false.
Proof.
  unfold find_json_span. intros H.
  destruct (Py.find s "{" =? -1) eqn:E; [discriminate|].
  apply Z.eqb_neq in E. cbn [negb] in H.
  assert (F : Py.find_from "{" s 0 = Py.find s "{").
  { unfold Py.find, Py.find_at. pose proof (PyFacts.len_nonneg s).
    destruct (Py.len s <? 0) eqn:L; [apply Z.ltb_lt in L; lia|reflexivity]. }
  destruct (find_from_split "{" s 0 _ F E) as (pre & rest & -> & Hn & Hp).
  rewrite Z.add_0_l in Hn. rewrite Hn in H.
  rewrite PyFacts.slice_from_app in H.
  cbn [scan_braces] in H.
  change (Ascii.eqb "{" Py.backslash) with false in H.
  change (Ascii.eqb "{" Py.dquote) with false in H.
  change (Ascii.eqb "{" "{") with true in H.
  cbn [negb] in H. cbv iota in H.
  destruct (scan_braces rest (Py.len pre + 1) (0 + 1) false false (Py.len pre))
    as [bc e] eqn:S.
  destruct (bc =? 0) eqn:B; [|discriminate].
  apply Z.eqb_eq in B. subst bc.
  apply scan_stops_at_brace in S; [|lia].
  destruct S as (a & b & -> & He).
  injection H as <-.
  exists pre, a, b.
  assert (M : Py.slice (pre +:+ String "{" (a +:+ String "}" b))
                (Py.len pre) e = String "{" (a +:+ "}")).
  { replace e with (Py.len pre + Py.len (String "{" (a +:+ "}"))).
    - replace (String "{" (a +:+ String "}" b))
        with (String "{" (a +:+ "}") +:+ b).
      + apply PyFacts.slice_middle.
      + simpl. now rewrite PyFacts.app_assoc.
    - rewrite He, PyFacts.len_cons, PyFacts.len_app.
      unfold Py.len at 3. simpl String.length. lia. }
  rewrite M. repeat split; [|exact Hp].
  simpl. now rewrite PyFacts.app_assoc.
Qed.

Lemma span_is_a_braced_slice_witness :
  exists pre inner post,
    Py.lit "see {x} {`a`: 1}" = pre +:+ "{x}" +:+ post
    /\ "{x}" = String "{" (inner +:+ "}")
    /\ Py.has_char "{" pre = false.
Proof.
  apply (span_is_a_braced_slice (Py.lit "see {x} {`a`: 1}") "{x}").
  vm_compute. reflexivity.
Defined.

Section Statement.

Variable json_loads : string -> option json.
Variable json_dumps : json -> string.
Variable writable : string -> bool.
Variable to_records :
  list TestCaseGeneration.step_row -> list TestCaseGeneration.step_row.



End Statement.


End SpanShape.

(** ** The code generation request *)

Module CodeFlowFacts.

Import CodeGenerator CodeFlow.

Lemma section_text_ok (fields : list (string * json)) (section lang : string) :
  section_ok fields section = true ->
  exists x, section_text (JObj fields) section lang = Ok x.
Proof.
  unfold section_ok, section_text. cbn [Json.get Exn.bind].
  destruct (Json.assoc fields section) as [v|]; [|intros _; eexists; reflexivity].
  destruct v; try discriminate. intros _. eexists. reflexivity.
Qed.

Lemma section_text_bad (fields : list (string * json)) (section lang : string) :
  section_ok fields section = false ->
  section_text (JObj fields) section lang = Raise AttributeError.
Proof.
  unfold section_ok, section_text. cbn [Json.get Exn.bind].
  destruct (Json.assoc fields section) as [v|]; [|discriminate].
  destruct v; try discriminate; reflexivity.
Qed.

Lemma format_code_ok (fields : list (string * json)) :
  sections_ok fields = true ->
  exists lp lj rp rj tp tj cp,
    format_code_for_display (JObj fields)
    = Ok (JObj [("locators_python", lp); ("locators_javascript", lj);
                ("reusable_functions_python", rp);
                ("reusable_functions_javascript", rj);
                ("test_functions_python", tp);
                ("test_functions_javascript", tj);
                ("cursor_prompt", cp)]).
Proof.
  unfold sections_ok. intros H.
  apply andb_prop in H as [H T]. apply andb_prop in H as [L R].
  unfold format_code_for_display.
  destruct (section_text_ok fields "locators" "python" L) as (lp & ->).
  destruct (section_text_ok fields "locators" "javascript" L) as (lj & ->).
  destruct (section_text_ok fields "reusable_functions" "python" R)
    as (rp & ->).
  destruct (section_text_ok fields "reusable_functions" "javascript" R)
    as (rj & ->).
  destruct (section_text_ok fields "test_functions" "python" T) as (tp & ->).
  destruct (section_text_ok fields "test_functions" "javascript" T)
    as (tj & ->).
  cbn [Exn.bind Json.get]. repeat eexists.
Qed.

Lemma format_code_bad (fields : list (string * json)) :
  sections_ok fields = false ->
  format_code_for_display (JObj fields) = Raise AttributeError.
Proof.
  unfold sections_ok, format_code_for_display. intros H.
  destruct (section_ok fields "locators") eqn:L.
  - destruct (section_text_ok fields "locators" "python" L) as (lp & ->).
    destruct (section_text_ok fields "locators" "javascript" L) as (lj & ->).
    cbn [Exn.bind].
    destruct (section_ok fields "reusable_functions") eqn:R.
    + destruct (section_text_ok fields "reusable_functions" "python" R)
        as (rp & ->).
      destruct (section_text_ok fields "reusable_functions" "javascript" R)
        as (rj & ->).
      cbn [Exn.bind].
      destruct (section_ok fields "test_functions") eqn:T; [discriminate|].
      now rewrite (section_text_bad fields "test_functions" "python" T).
    + now rewrite (section_text_bad fields "reusable_functions" "python" R).
  - now rewrite (section_text_bad fields "locators" "python" L).
Qed.

(** X13: [format_code_for_display] on a dictionary returns the seven
    display entries exactly when each of the three code sections is absent
    or is itself a dictionary; if one of them is present with any other
    kind of value, it raises [AttributeError]. *)
Theorem display_needs_dictionary_sections (fields : list (string * json)) :
  (sections_ok fields = true ->
   exists lp lj rp rj tp tj cp,
     format_code_for_display (JObj fields)
     = Ok (JObj [("locators_python", lp); ("locators_javascript", lj);
                 ("reusable_functions_python", rp);
                 ("reusable_functions_javascript", rj);
                 ("test_functions_python", tp);
                 ("test_functions_javascript", tj);
                 ("cursor_prompt", cp)]))
  /\ (sections_ok fields = false ->
      format_code_for_display (JObj fields) = Raise AttributeError).
Proof. split; [apply format_code_ok | apply format_code_bad]. Qed.

Section Statement.

Variable json_loads : string -> option json.
Variable json_dumps : json -> string.
Variable writable : string -> bool.
Variable to_records :
  list TestCaseGeneration.step_row -> list TestCaseGeneration.step_row.

Lemma sections_bad_nonempty (fields : list (string * json)) :
  sections_ok fields = false -> Json.truthy (JObj fields) = true.
Proof. destruct fields; [discriminate | reflexivity]. Qed.

(** X14: a payload that [parse_code_json] accepts (it has the four keys)
    but in which a code section is not a dictionary makes
    [handle_generate_code] raise [AttributeError] on a cache miss: the
    validation tests the presence of the keys only, and the formatting that
    follows is not inside any handler. *)
Theorem accepted_payload_can_break_the_request
  (fs : gmap string string) (now test_case_id test_case_title : string)
  (test_steps : list string) (ticket_id : option string)
  (raw_output : string) (fields : list (string * json)) :
  test_case_id <> EmptyString ->
  test_case_title <> EmptyString ->
  test_steps <> [] ->
  load_cached_code json_loads fs test_case_id ticket_id = None ->
  parse_code_json json_loads raw_output = Ok (Some (JObj fields)) ->
  sections_ok fields = false ->
  handle_generate_code json_loads json_dumps writable fs now test_case_id
    test_case_title test_steps ticket_id raw_output
  = Raise AttributeError.
Proof.
  intros I T S C P B. unfold handle_generate_code.
  apply String.eqb_neq in I, T. rewrite I, T. cbn [orb].
  destruct test_steps as [|st sts]; [contradiction|].
  rewrite C. unfold generate_playwright_code. rewrite P.
  rewrite (sections_bad_nonempty fields B).
  cbn [item Json.assoc Exn.bind].
  change (String.eqb "success" "success") with true. cbv iota.
  cbn [Json.truthy]. cbn [item Json.assoc].
  change (String.eqb "success" "code") with false.
  change (String.eqb "code" "code") with true. cbv iota. cbn [Exn.bind].
  now rewrite (format_code_bad fields B).
Qed.

(** X15: a request with a ticket id whose answer parses, validates and
    formats returns the code with its display form.  When the cache file
    can be written and the JSON library reads back the entry it wrote, the
    next request for the same test case and ticket is answered from the
    cache, flagged as cached, with the same code and the same display form,
    whatever the crew would answer, and the store is left as it is.  When
    the file cannot be written, the failure is swallowed and the store
    after the first request is the one before it. *)
Theorem code_cache_answers_next_request
  (fs : gmap string string) (now test_case_id test_case_title : string)
  (test_steps : list string) (ticket_id raw_output raw_next now_next : string)
  (code formatted : json) :
  let entry := save_data now test_case_id test_case_title (Some ticket_id)
                 code formatted in
  let cache_file := get_code_cache_file_path test_case_id (Some ticket_id) in
  let first := handle_generate_code json_loads json_dumps writable fs now
                 test_case_id test_case_title test_steps (Some ticket_id)
                 raw_output in
  test_case_id <> EmptyString ->
  test_case_title <> EmptyString ->
  test_steps <> [] ->
  ticket_id <> EmptyString ->
  load_cached_code json_loads fs test_case_id (Some ticket_id) = None ->
  parse_code_json json_loads raw_output = Ok (Some code) ->
  Json.truthy code = true ->
  format_code_for_display code = Ok formatted ->
  exists fs',
    first = Ok (JObj [("success", JBool true); ("code", code);
                      ("raw", JStr raw_output); ("formatted", formatted)], fs')
    /\ (writable cache_file = true ->
        json_loads (json_dumps entry) = Some entry ->
        handle_generate_code json_loads json_dumps writable fs' now_next
          test_case_id test_case_title test_steps (Some ticket_id) raw_next
        = Ok (JObj [("success", JBool true); ("code", code);
                    ("formatted", formatted); ("cached", JBool true)], fs'))
    /\ (writable cache_file = false -> fs' = fs).
Proof.
  intros entry cache_file first I T S K C P Tr F.
  apply String.eqb_neq in I, T, K.
  destruct test_steps as [|st sts]; [contradiction|].
  exists (save_code_to_cache json_dumps writable fs now test_case_id
            test_case_title (Some ticket_id) code formatted).
  split; [|split].
  - unfold first, handle_generate_code. rewrite I, T. cbn [orb].
    rewrite C. unfold generate_playwright_code. rewrite P, Tr.
    cbn [item Json.assoc Exn.bind].
    change (String.eqb "success" "success") with true. cbv iota.
    cbn [Json.truthy]. cbn [item Json.assoc].
    change (String.eqb "success" "code") with false.
    change (String.eqb "code" "code") with true. cbv iota. cbn [Exn.bind].
    rewrite F. cbn [Exn.bind]. unfold given. rewrite K.
    reflexivity.
  - intros W R. unfold handle_generate_code. rewrite I, T. cbn [orb].
    unfold load_cached_code, save_code_to_cache, loads_exn.
    fold cache_file. rewrite W.
    rewrite lookup_insert_eq. fold entry. rewrite R.
    unfold entry at 1. unfold save_data at 1. cbn [Json.truthy].
    unfold entry, save_data. cbn. reflexivity.
  - intros W. unfold save_code_to_cache. fold cache_file. now rewrite W.
Qed.

End Statement.

Import Examples.

Lemma display_needs_dictionary_sections_witness :
  format_code_for_display (JObj code_fields) = Ok code_formatted
  /\ format_code_for_display (JObj flat_code_fields) = Raise AttributeError.
Proof.
  destruct (display_needs_dictionary_sections code_fields) as [A _].
  destruct (display_needs_dictionary_sections flat_code_fields) as [_ B].
  split.
  - destruct A as (lp & lj & rp & rj & tp & tj & cp & E);
      [reflexivity|].
    rewrite E. vm_compute in E. injection E as <- <- <- <- <- <- <-.
    reflexivity.
  - apply B. reflexivity.
Defined.

Lemma accepted_payload_can_break_the_request_witness :
  parse_code_json JsonRef.loads (JsonRef.dumps (JObj flat_code_fields))
    = Ok (Some (JObj flat_code_fields))
  /\ handle_generate_code JsonRef.loads JsonRef.dumps all_writable ∅ "2026-01-01" "TC-01"
       "Login" ["open the page"] (Some "PAN-1")
       (JsonRef.dumps (JObj flat_code_fields))
     = Raise AttributeError.
Proof.
  split; [vm_compute; reflexivity|].
  apply (accepted_payload_can_break_the_request JsonRef.loads JsonRef.dumps all_writable ∅
           "2026-01-01" "TC-01" "Login" ["open the page"] (Some "PAN-1")
           (JsonRef.dumps (JObj flat_code_fields)) flat_code_fields);
    try discriminate; vm_compute; reflexivity.
Defined.

Lemma code_cache_answers_next_request_witness :
  (exists fs',
     handle_generate_code JsonRef.loads JsonRef.dumps all_writable ∅
       "2026-01-01" "TC-01" "Login" ["open the page"] (Some "PAN-1")
       (fenced (JsonRef.dumps (JObj code_fields)))
     = Ok (JObj [("success", JBool true); ("code", JObj code_fields);
                 ("raw", JStr (fenced (JsonRef.dumps (JObj code_fields))));
                 ("formatted", code_formatted)], fs')
     /\ handle_generate_code JsonRef.loads JsonRef.dumps all_writable fs'
          "2026-02-02" "TC-01" "Login" ["open the page"] (Some "PAN-1")
          "no answer"
        = Ok (JObj [("success", JBool true); ("code", JObj code_fields);
                    ("formatted", code_formatted); ("cached", JBool true)],
              fs'))
  /\ handle_generate_code JsonRef.loads JsonRef.dumps read_only ∅
       "2026-01-01" "TC-01" "Login" ["open the page"] (Some "PAN-1")
       (fenced (JsonRef.dumps (JObj code_fields)))
     = Ok (JObj [("success", JBool true); ("code", JObj code_fields);
                 ("raw", JStr (fenced (JsonRef.dumps (JObj code_fields))));
                 ("formatted", code_formatted)], ∅).
Proof.
  split.
  - destruct (code_cache_answers_next_request JsonRef.loads JsonRef.dumps
                all_writable ∅
                "2026-01-01" "TC-01" "Login" ["open the page"] "PAN-1"
                (fenced (JsonRef.dumps (JObj code_fields))) "no answer"
                "2026-02-02" (JObj code_fields) code_formatted)
      as (fs' & A & B & _);
      try discriminate; try (vm_compute; reflexivity).
    exists fs'. split; [exact A|].
    apply B; [reflexivity | vm_compute; reflexivity].
  - destruct (code_cache_answers_next_request JsonRef.loads JsonRef.dumps
                read_only ∅
                "2026-01-01" "TC-01" "Login" ["open the page"] "PAN-1"
                (fenced (JsonRef.dumps (JObj code_fields))) "no answer"
                "2026-02-02" (JObj code_fields) code_formatted)
      as (fs' & A & _ & C);
      [discriminate | discriminate | discriminate | discriminate
      | vm_compute; reflexivity | vm_compute; reflexivity
      | reflexivity | vm_compute; reflexivity |].
    rewrite A. rewrite (C eq_refl). reflexivity.
Defined.

End CodeFlowFacts.

(** ** The text that the code parser reads *)

Module FenceFacts.

Import CodeGenerator.

(** The first occurrence of a text whose first character the prefix does
    not hold. *)
Lemma find_from_fresh (c : ascii) (sub pre rest : string) (i : Z) :
  Py.has_char c pre = false ->
  Py.find_from (String c sub) (pre +:+ String c sub +:+ rest) i
  = i + Py.len pre.
Proof.
  revert i. induction pre as [|d pre IH]; intros i H.
  - change (EmptyString +:+ String c sub +:+ rest)
      with (String c sub +:+ rest).
    pose proof (ActionFacts.prefix_app (String c sub) rest) as P.
    destruct (String c sub +:+ rest) eqn:E; cbn [Py.find_from]; rewrite P;
      unfold Py.len; simpl; lia.
  - simpl in H. apply orb_false_elim in H as [Hd Hp].
    change (String d pre +:+ String c sub +:+ rest)
      with (String d (pre +:+ String c sub +:+ rest)).
    cbn [Py.find_from String.prefix].
    destruct (ascii_dec c d) as [->|N];
      [rewrite Ascii.eqb_refl in Hd; discriminate|].
    rewrite IH by exact Hp. rewrite PyFacts.len_cons. lia.
Qed.

(** A string without the first character of a text has no occurrence of
    the text. *)
Lemma find_from_lacking (c : ascii) (sub s : string) (i : Z) :
  Py.has_char c s = false -> Py.find_from (String c sub) s i = -1.
Proof.
  revert i. induction s as [|d s IH]; intros i H.
  - reflexivity.
  - simpl in H. apply orb_false_elim in H as [Hd Hs].
    cbn [Py.find_from String.prefix].
    destruct (ascii_dec c d) as [->|N];
      [rewrite Ascii.eqb_refl in Hd; discriminate|].
    now apply IH.
Qed.

Lemma find_at_start (s sub : string) :
  Py.find s sub = Py.find_from sub s 0.
Proof.
  unfold Py.find, Py.find_at. pose proof (PyFacts.len_nonneg s).
  destruct (Py.len s <? 0) eqn:E; [apply Z.ltb_lt in E; lia|]. reflexivity.
Qed.

Lemma find_at_drop (pre rest sub : string) :
  Py.find_at (pre +:+ rest) sub (Py.len pre)
  = Py.find_from sub rest (Py.len pre).
Proof.
  unfold Py.find_at. rewrite PyFacts.len_app.
  pose proof (PyFacts.len_nonneg rest).
  destruct (Py.len pre + Py.len rest <? Py.len pre) eqn:E;
    [apply Z.ltb_lt in E; lia|].
  unfold Py.len at 1. rewrite Nat2Z.id. now rewrite PyFacts.drop_app.
Qed.

Lemma lacking_not_contained (c : ascii) (sub s : string) :
  Py.has_char c s = false -> Py.contains s (String c sub) = false.
Proof.
  intros H. unfold Py.contains. rewrite find_at_start.
  now rewrite find_from_lacking.
Qed.

Lemma has_char_snoc (c d : ascii) (s : string) :
  Py.has_char c s = false -> d <> c ->
  Py.has_char c (s +:+ String d EmptyString) = false.
Proof.
  intros H N. induction s as [|e s IH].
  - simpl. rewrite orb_false_r. now apply Ascii.eqb_neq.
  - simpl in H. apply orb_false_elim in H as [He Hs].
    simpl. rewrite He. now apply IH.
Qed.

(** Slicing up to the last character but one. *)
Lemma slice_to_last (pre body : string) (c : ascii) :
  Py.slice (pre +:+ body +:+ String c EmptyString) (Py.len pre) (-1) = body.
Proof.
  unfold Py.slice.
  pose proof (PyFacts.len_nonneg pre). pose proof (PyFacts.len_nonneg body).
  assert (L : Py.len (pre +:+ body +:+ String c EmptyString)
              = Py.len pre + Py.len body + 1).
  { rewrite !PyFacts.len_app. unfold Py.len at 3. simpl. lia. }
  rewrite (PyFacts.clamp_inside _ (Py.len pre)) by lia.
  assert (C : Py.clamp (pre +:+ body +:+ String c EmptyString) (-1)
              = Py.len pre + Py.len body).
  { unfold Py.clamp. change (-1 <? 0) with true. cbv iota. lia. }
  rewrite C.
  replace (Py.len pre + Py.len body - Py.len pre) with (Py.len body) by lia.
  unfold Py.len. rewrite !Nat2Z.id. rewrite PyFacts.drop_app.
  apply PyFacts.take_app.
Qed.

Lemma rfind_from_none (c : ascii) (s : string) (i last : Z) :
  Py.has_char c s = false ->
  Py.rfind_from (String c EmptyString) s i last = last.
Proof.
  revert i last. induction s as [|d s IH]; intros i last H.
  - reflexivity.
  - simpl in H. apply orb_false_elim in H as [Hd Hs].
    cbn [Py.rfind_from]. rewrite PyFacts.prefix_one, Hd. now apply IH.
Qed.

(** The last occurrence of a character that the suffix does not hold. *)
Lemma rfind_from_last (c : ascii) (pre post : string) (i last : Z) :
  Py.has_char c post = false ->
  Py.rfind_from (String c EmptyString) (pre +:+ String c post) i last
  = i + Py.len pre.
Proof.
  intros H. revert i last. induction pre as [|d pre IH]; intros i last.
  - change (EmptyString +:+ String c post) with (String c post).
    cbn [Py.rfind_from]. rewrite PyFacts.prefix_one, Ascii.eqb_refl.
    rewrite rfind_from_none by exact H. unfold Py.len. simpl. lia.
  - change (String d pre +:+ String c post)
      with (String d (pre +:+ String c post)).
    cbn [Py.rfind_from]. rewrite IH. rewrite PyFacts.len_cons. lia.
Qed.

Lemma json_fence_start (pre rest : string) :
  Py.has_char "`" pre = false ->
  Py.contains (pre +:+ FENCE_JSON +:+ rest) FENCE_JSON = true
  /\ Py.find (pre +:+ FENCE_JSON +:+ rest) FENCE_JSON + 7
     = Py.len (pre +:+ FENCE_JSON).
Proof.
  intros H. split; [apply ActionFacts.contains_present|].
  rewrite find_at_start. unfold FENCE_JSON.
  rewrite find_from_fresh by exact H.
  rewrite PyFacts.len_app. unfold Py.len at 3. simpl. lia.
Qed.

(** X16: in an answer whose first backquote opens a json fence, the text
    handed to the parser is the stripped body of the fence when the fence
    is closed, whatever stands before and after it; when the fence is never
    closed, the search for its end gives -1 and the slice loses the last
    character of the answer. *)
Theorem fence_body_and_open_fence (pre body post : string) (c : ascii) :
  Py.has_char "`" pre = false ->
  Py.has_char "`" body = false ->
  c <> "`"%char ->
  code_json_text (pre +:+ FENCE_JSON +:+ body +:+ FENCE +:+ post)
  = Py.strip body
  /\ code_json_text (pre +:+ FENCE_JSON +:+ body +:+ String c EmptyString)
     = Py.strip body.
Proof.
  intros Hp Hb Hc. split.
  - unfold code_json_text.
    destruct (json_fence_start pre (body +:+ FENCE +:+ post) Hp) as [C S].
    rewrite C, S.
    rewrite <- (PyFacts.app_assoc pre FENCE_JSON).
    rewrite find_at_drop. unfold FENCE at 1 2.
    rewrite find_from_fresh by exact Hb.
    now rewrite PyFacts.slice_middle.
  - unfold code_json_text.
    destruct (json_fence_start pre (body +:+ String c EmptyString) Hp)
      as [C S].
    rewrite C, S.
    rewrite <- (PyFacts.app_assoc pre FENCE_JSON).
    rewrite find_at_drop. unfold FENCE.
    rewrite find_from_lacking by (now apply has_char_snoc).
    now rewrite slice_to_last.
Qed.

(** X17: in an answer without backquotes, the text handed to the parser
    runs from the first opening brace to the last closing brace, whatever
    lies between them; an answer with no opening brace is handed over
    whole. *)
Theorem bare_answer_is_first_to_last_brace (pre mid post : string) :
  Py.has_char "`" (pre +:+ "{" +:+ mid +:+ "}" +:+ post) = false ->
  Py.has_char "{" pre = false ->
  Py.has_char "}" post = false ->
  code_json_text (pre +:+ "{" +:+ mid +:+ "}" +:+ post)
  = "{" +:+ mid +:+ "}"
  /\ (Py.has_char "`" pre = false -> code_json_text pre = pre).
Proof.
  intros Hq Hp Hs. split.
  - unfold code_json_text.
    unfold FENCE_JSON, FENCE.
    rewrite !lacking_not_contained by exact Hq.
    change ("{" +:+ mid +:+ "}" +:+ post)
      with (String "{" (mid +:+ "}" +:+ post)).
    rewrite PyFacts.find_absent by exact Hp.
    change (String "{" (mid +:+ "}" +:+ post))
      with ("{" +:+ mid +:+ "}" +:+ post).
    assert (R : Py.rfind (pre +:+ "{" +:+ mid +:+ "}" +:+ post) "}"
                = Py.len pre + Py.len ("{" +:+ mid)).
    { unfold Py.rfind.
      replace (pre +:+ "{" +:+ mid +:+ "}" +:+ post)
        with ((pre +:+ "{" +:+ mid) +:+ String "}" post)
        by (now rewrite !PyFacts.app_assoc).
      rewrite rfind_from_last by exact Hs.
      rewrite PyFacts.len_app. lia. }
    rewrite R.
    pose proof (PyFacts.len_nonneg pre). pose proof (PyFacts.len_nonneg mid).
    assert (L : Py.len ("{" +:+ mid) = 1 + Py.len mid)
      by apply PyFacts.len_cons.
    destruct (Py.len pre >=? 0) eqn:E1; [|lia].
    destruct (Py.len pre + Py.len ("{" +:+ mid) + 1 >? Py.len pre) eqn:E2;
      [|lia].
    cbn [andb].
    replace (Py.len pre + Py.len ("{" +:+ mid) + 1)
      with (Py.len pre + Py.len ("{" +:+ mid +:+ "}")).
    + pose proof (PyFacts.slice_middle pre ("{" +:+ mid +:+ "}") post) as M.
      rewrite <- M at 2. f_equal. now rewrite !PyFacts.app_assoc.
    + change ("{" +:+ mid +:+ "}") with (String "{" (mid +:+ "}")).
      change ("{" +:+ mid) with (String "{" mid).
      rewrite !PyFacts.len_cons, PyFacts.len_app.
      change (Py.len "}") with 1. lia.
  - intros Hq'. unfold code_json_text. unfold FENCE_JSON, FENCE.
    rewrite !lacking_not_contained by exact Hq'.
    rewrite PyFacts.find_none by exact Hp. reflexivity.
Qed.

Lemma fence_body_and_open_fence_witness :
  code_json_text
    ("Here: ```json" +:+ Py.NL +:+ "{}" +:+ Py.NL +:+ "``` and {more}")
  = "{}"
  /\ code_json_text ("```json" +:+ Py.NL +:+ "{}") = "{".
Proof.
  destruct (fence_body_and_open_fence "Here: " (Py.NL +:+ "{}" +:+ Py.NL)
              " and {more}" "}") as [A _];
    [reflexivity | reflexivity | discriminate |].
  destruct (fence_body_and_open_fence EmptyString (Py.NL +:+ "{")
              EmptyString "}") as [_ B];
    [reflexivity | reflexivity | discriminate |].
  split; [exact A | exact B].
Defined.

Lemma bare_answer_is_first_to_last_brace_witness :
  code_json_text "Either {1} or {2}, as said" = "{1} or {2}"
  /\ code_json_text "no object here" = "no object here".
Proof.
  destruct (bare_answer_is_first_to_last_brace "Either " "1} or {2"
              ", as said") as [A _];
    [reflexivity | reflexivity | reflexivity |].
  destruct (bare_answer_is_first_to_last_brace "no object here" EmptyString
              EmptyString) as [_ B];
    [reflexivity | reflexivity | reflexivity |].
  split; [exact A | apply B; reflexivity].
Defined.

End FenceFacts.

(** ** The ticket history *)

Module HistoryFacts.

Import History.

Lemma names_ticket_of (e : json) (ticket_id : string) (b : bool) :
  names e ticket_id = Ok b ->
  (b = true <-> ticket_of e = Some ticket_id).
Proof.
  unfold names, ticket_of. destruct e as [| | | | |fields]; try discriminate.
  cbn [Json.get Exn.bind].
  destruct (Json.assoc fields "ticket_id") as [v|].
  - destruct v; cbn [Json.is_str]; intros E; injection E as <-;
      split; try discriminate.
    + intros E. apply String.eqb_eq in E. now subst.
    + intros E. injection E as ->. apply String.eqb_refl.
  - cbn [Json.is_str]. intros E; injection E as <-. split; discriminate.
Qed.

Lemma names_other (e : json) (ticket_id other : string) :
  names e ticket_id = Ok true -> other <> ticket_id ->
  names e other = Ok false.
Proof.
  unfold names. destruct e as [| | | | |fields]; try discriminate.
  cbn [Json.get Exn.bind].
  destruct (Json.assoc fields "ticket_id") as [v|]; [|discriminate].
  destruct v; cbn [Json.is_str]; try discriminate.
  intros E N. injection E as E. apply String.eqb_eq in E. subst.
  f_equal. apply String.eqb_neq. congruence.
Qed.

Lemma names_entry (now ticket_id ticket_summary other : string)
  (test_cases : list json) :
  names (history_entry now ticket_id ticket_summary test_cases) other
  = Ok (String.eqb ticket_id other).
Proof. reflexivity. Qed.

Lemma get_skip (pre rest : list json) (ticket_id : string) :
  Forall (fun x => names x ticket_id = Ok false) pre ->
  get_ticket_history_entry (pre ++ rest)%list ticket_id
  = get_ticket_history_entry rest ticket_id.
Proof.
  induction 1 as [|x pre Hx _ IH]; [reflexivity|].
  cbn [app get_ticket_history_entry]. rewrite Hx. exact IH.
Qed.

Lemma get_middle_miss (pre post : list json) (x : json) (ticket_id : string) :
  names x ticket_id = Ok false ->
  get_ticket_history_entry (pre ++ x :: post)%list ticket_id
  = get_ticket_history_entry (pre ++ post)%list ticket_id.
Proof.
  intros Hx. induction pre as [|y pre IH].
  - cbn [app get_ticket_history_entry]. now rewrite Hx.
  - cbn [app get_ticket_history_entry].
    destruct (names y ticket_id) as [[|]|err]; cbn [Exn.bind];
      [reflexivity | exact IH | reflexivity].
Qed.

(** What the search for the index finds. *)
Lemma index_shape (h : list json) (ticket_id : string) (k : nat) :
  match existing_index h ticket_id k with
  | Ok (Some n) =>
      exists pre e post,
        h = (pre ++ e :: post)%list /\ n = (k + length pre)%nat
        /\ names e ticket_id = Ok true
        /\ Forall (fun x => names x ticket_id = Ok false) pre
        /\ get_ticket_history_entry h ticket_id = Ok (Some e)
  | Ok None =>
      Forall (fun x => names x ticket_id = Ok false) h
      /\ get_ticket_history_entry h ticket_id = Ok None
  | Raise err => get_ticket_history_entry h ticket_id = Raise err
  end.
Proof.
  revert k. induction h as [|x h IH]; intros k.
  - cbn. split; [constructor | reflexivity].
  - cbn [existing_index get_ticket_history_entry].
    destruct (names x ticket_id) as [[|]|err] eqn:Hx; cbn [Exn.bind].
    + exists [], x, h. repeat split; [cbn; lia | exact Hx | constructor].
    + specialize (IH (S k)).
      destruct (existing_index h ticket_id (S k)) as [[n|]|err].
      * destruct IH as (pre & e & post & -> & -> & He & Hpre & G).
        exists (x :: pre), e, post.
        repeat split; [cbn; lia | exact He | now constructor | exact G].
      * destruct IH as [F G]. split; [now constructor | exact G].
      * exact IH.
    + reflexivity.
Qed.

Lemma miss_not_filed (h : list json) (ticket_id : string) :
  Forall (fun x => names x ticket_id = Ok false) h ->
  Some ticket_id ∉ map ticket_of h.
Proof.
  induction 1 as [|x h Hx _ IH]; [apply not_elem_of_nil|].
  cbn [map]. intros E. apply elem_of_cons in E as [E|I]; [|now apply IH].
  symmetry in E.
  apply (names_ticket_of x ticket_id false Hx) in E. discriminate.
Qed.

(** The update on a history in which the lookup of the ticket returns. *)
Lemma update_spec (now : string) (h : list json)
  (ticket_id ticket_summary : string) (test_cases : list json)
  (r : option json) :
  get_ticket_history_entry h ticket_id = Ok r ->
  exists h',
    update_ticket_in_history now h ticket_id ticket_summary test_cases = Ok h'
    /\ get_ticket_history_entry h' ticket_id
       = Ok (Some (history_entry now ticket_id ticket_summary test_cases))
    /\ (forall other, other <> ticket_id ->
        get_ticket_history_entry h' other = get_ticket_history_entry h other)
    /\ match r with
       | Some _ => map ticket_of h' = map ticket_of h
       | None =>
           map ticket_of h' = (map ticket_of h ++ [Some ticket_id])%list
           /\ (Some ticket_id ∉ map ticket_of h)
       end.
Proof.
  intros G. unfold update_ticket_in_history.
  pose proof (index_shape h ticket_id 0) as S.
  set (entry := history_entry now ticket_id ticket_summary test_cases).
  assert (Hentry : names entry ticket_id = Ok true).
  { unfold entry. rewrite names_entry. now rewrite String.eqb_refl. }
  assert (Hother : forall other, other <> ticket_id ->
                                 names entry other = Ok false).
  { intros other N. unfold entry. rewrite names_entry. f_equal.
    apply String.eqb_neq. congruence. }
  destruct (existing_index h ticket_id 0) as [[n|]|err]; cbn [Exn.bind].
  - destruct S as (pre & e & post & -> & -> & He & Hpre & G').
    rewrite G in G'. injection G' as ->.
    exists (pre ++ entry :: post)%list.
    assert (I : <[(0 + length pre)%nat := entry]> (pre ++ e :: post)%list
                = (pre ++ entry :: post)%list).
    { cbn [Nat.add].
      replace (length pre) with (length pre + 0)%nat at 1 by lia.
      now rewrite insert_app_r. }
    rewrite I. repeat split.
    + rewrite get_skip by exact Hpre.
      cbn [get_ticket_history_entry]. now rewrite Hentry.
    + intros other N.
      rewrite !get_middle_miss;
        [reflexivity | now apply (names_other e ticket_id) | now apply Hother].
    + rewrite !map_app. cbn [map]. do 2 f_equal.
      symmetry. apply (names_ticket_of e ticket_id true He). reflexivity.
  - destruct S as [F G']. rewrite G in G'. injection G' as ->.
    exists (h ++ [entry])%list. repeat split.
    + rewrite get_skip by exact F.
      cbn [get_ticket_history_entry]. now rewrite Hentry.
    + intros other N. rewrite get_middle_miss by now apply Hother.
      now rewrite app_nil_r.
    + now rewrite map_app.
    + now apply miss_not_filed.
  - rewrite G in S. discriminate.
Qed.

(** X18: on a history in which the lookup of a ticket returns,
    [update_ticket_in_history] returns a history in which the lookup of
    that ticket gives the new entry and the lookup of every other ticket
    gives what it gave before; the history keeps its length when the
    ticket was there and grows by one when it was not.  When the lookup
    raises (an entry before the ticket is not a dictionary), the update
    raises the same exception. *)
Theorem update_then_lookup (now : string) (h : list json)
  (ticket_id ticket_summary : string) (test_cases : list json) :
  (forall r, get_ticket_history_entry h ticket_id = Ok r ->
   exists h',
     update_ticket_in_history now h ticket_id ticket_summary test_cases
     = Ok h'
     /\ get_ticket_history_entry h' ticket_id
        = Ok (Some (history_entry now ticket_id ticket_summary test_cases))
     /\ (forall other, other <> ticket_id ->
         get_ticket_history_entry h' other
         = get_ticket_history_entry h other)
     /\ length h' = match r with
                    | Some _ => length h
                    | None => S (length h)
                    end)
  /\ (forall err, get_ticket_history_entry h ticket_id = Raise err ->
      update_ticket_in_history now h ticket_id ticket_summary test_cases
      = Raise err).
Proof.
  split.
  - intros r G.
    destruct (update_spec now h ticket_id ticket_summary test_cases r G)
      as (h' & U & L & O & M).
    exists h'. repeat split; [exact U | exact L | exact O |].
    destruct r as [e|].
    + apply (f_equal (@length _)) in M. now rewrite !length_map in M.
    + destruct M as [M _]. apply (f_equal (@length _)) in M.
      rewrite length_app, !length_map in M. cbn in M. lia.
  - intros err G. unfold update_ticket_in_history.
    pose proof (index_shape h ticket_id 0) as S.
    destruct (existing_index h ticket_id 0) as [[n|]|err'].
    + destruct S as (pre & e & post & _ & _ & _ & _ & G').
      rewrite G in G'. discriminate.
    + destruct S as [_ G']. rewrite G in G'. discriminate.
    + rewrite G in S. injection S as ->. reflexivity.
Qed.

Lemma filed_lookup_returns (h : list json) (ticket_id : string) :
  None ∉ map ticket_of h ->
  exists r, get_ticket_history_entry h ticket_id = Ok r.
Proof.
  induction h as [|x h IH]; intros F; [eexists; reflexivity|].
  cbn [map] in F. apply not_elem_of_cons in F as [Fx Fh].
  cbn [get_ticket_history_entry].
  assert (D : exists b, names x ticket_id = Ok b).
  { destruct x as [| | | | |fields]; try (now exfalso; apply Fx).
    eexists. reflexivity. }
  destruct D as [b ->]. cbn [Exn.bind]. destruct b.
  - eexists. reflexivity.
  - now apply IH.
Qed.

Lemma nodup_snoc {A : Type} (l : list A) (x : A) :
  NoDup l -> x ∉ l -> NoDup (l ++ [x]).
Proof.
  intros D N. apply NoDup_app. split; [exact D|]. split.
  - intros y I J. apply list_elem_of_singleton in J. now subst.
  - apply NoDup_singleton.
Qed.

(** The replay of updates from a history in which every entry is filed
    under a ticket and no ticket is filed twice. *)
Lemma replay_spec (updates : list update) :
  forall h : list json,
    None ∉ map ticket_of h -> NoDup (map ticket_of h) ->
    exists h',
      replay h updates = Ok h'
      /\ (None ∉ map ticket_of h')
      /\ NoDup (map ticket_of h')
      /\ forall ticket_id found,
           get_ticket_history_entry h ticket_id = Ok found ->
           get_ticket_history_entry h' ticket_id
           = Ok (latest updates ticket_id found).
Proof.
  induction updates as [|u updates IH]; intros h F D.
  - exists h. repeat split; [exact F | exact D | intros ? ? G; exact G].
  - cbn [replay].
    destruct (filed_lookup_returns h (ticket u) F) as [r G].
    destruct (update_spec (at_time u) h (ticket u) (summary u) (cases u) r G)
      as (h1 & U & L & O & M).
    rewrite U. cbn [Exn.bind].
    assert (F1 : None ∉ map ticket_of h1).
    { destruct r; [now rewrite M|]. destruct M as [-> _].
      intros I. apply elem_of_app in I as [I|I]; [now apply F|].
      apply list_elem_of_singleton in I. discriminate. }
    assert (D1 : NoDup (map ticket_of h1)).
    { destruct r; [now rewrite M|]. destruct M as [-> N].
      now apply nodup_snoc. }
    destruct (IH h1 F1 D1) as (h' & R & F' & D' & G').
    exists h'. repeat split; [exact R | exact F' | exact D' |].
    intros ticket_id found Gf. cbn [latest]. apply G'.
    destruct (String.eqb (ticket u) ticket_id) eqn:E.
    + apply String.eqb_eq in E. subst. exact L.
    + apply String.eqb_neq in E. rewrite O by congruence. exact Gf.
Qed.

(** X19: a history built from the cleared one through
    [update_ticket_in_history] alone is a map from tickets to entries: no
    update raises, the lookup of a ticket returns the entry of the last
    update of that ticket (nothing for a ticket never updated), every
    entry is filed under a ticket and no ticket is filed twice. *)
Theorem replayed_history_is_a_map (updates : list update) :
  exists h,
    replay clear_ticket_history updates = Ok h
    /\ (forall ticket_id,
        get_ticket_history_entry h ticket_id
        = Ok (latest updates ticket_id None))
    /\ NoDup (map ticket_of h)
    /\ (None ∉ map ticket_of h).
Proof.
  destruct (replay_spec updates clear_ticket_history) as (h & R & F & D & G).
  - apply not_elem_of_nil.
  - apply NoDup_nil_2.
  - exists h. repeat split; [exact R | | exact D | exact F].
    intros ticket_id. now apply G.
Qed.

Lemma update_then_lookup_witness :
  let old := History.history_entry "2026-01-01 10:00:00" "PAN-1" "Login" [] in
  let new := History.history_entry "2026-01-02 10:00:00" "PAN-1" "Sign in"
               [JStr "a case"] in
  (exists h',
     update_ticket_in_history "2026-01-02 10:00:00" [old] "PAN-1" "Sign in"
       [JStr "a case"] = Ok h'
     /\ get_ticket_history_entry h' "PAN-1" = Ok (Some new)
     /\ (forall other, other <> "PAN-1" ->
         get_ticket_history_entry h' other
         = get_ticket_history_entry [old] other)
     /\ length h' = 1%nat)
  /\ update_ticket_in_history "2026-01-02 10:00:00" [JNum 1; old] "PAN-1"
       "Sign in" [JStr "a case"] = Raise AttributeError.
Proof.
  intros old new. split.
  - apply (proj1 (update_then_lookup "2026-01-02 10:00:00" [old] "PAN-1"
                    "Sign in" [JStr "a case"]) (Some old)).
    reflexivity.
  - apply (proj2 (update_then_lookup "2026-01-02 10:00:00" [JNum 1; old]
                    "PAN-1" "Sign in" [JStr "a case"])).
    reflexivity.
Defined.

End HistoryFacts.

(** ** The cache of recorded flows and its neighbours *)

Module FlowCacheFacts.

Import Sanitized FlowCache.

Lemma safe_recording_chars (recording_id : string) :
  safe_recording recording_id
  = map_chars no_separator_no_space recording_id.
Proof. apply KeyFacts.sanitize_test_case. Qed.

Lemma safe_recording_no_slash (recording_id : string) :
  Py.has_char "/" (safe_recording recording_id) = false.
Proof.
  rewrite safe_recording_chars. apply KeyFacts.has_char_map.
  intros x. apply KeyFacts.no_separator_no_space_spec.
Qed.

Lemma safe_ticket_no_slash (t : string) :
  Py.has_char "/" (Py.replace (Py.replace t "/" "_") Py.BS "_") = false.
Proof.
  rewrite KeyFacts.sanitize_ticket. apply KeyFacts.has_char_map.
  apply KeyFacts.no_separator_slash.
Qed.

Lemma recording_path (recording_id : string) :
  get_recording_cache_file_path recording_id
  = "recordings/" +:+ safe_recording recording_id +:+ "_recording.json".
Proof.
  unfold get_recording_cache_file_path.
  rewrite KeyFacts.join_dir; [reflexivity | | reflexivity | reflexivity].
  apply KeyFacts.startswith_slash_app;
    [apply safe_recording_no_slash | reflexivity].
Qed.

Lemma codegen_path (recording_id : string) (ticket_id : option string) :
  exists x,
    codegen_file recording_id ticket_id
    = "codeGenerated/" +:+ x +:+ "_recording.json".
Proof.
  unfold codegen_file. destruct (CodeGenerator.given ticket_id) as [t|].
  - exists (Py.replace (Py.replace t "/" "_") Py.BS "_" +:+ "_"
            +:+ safe_recording recording_id).
    rewrite KeyFacts.join_dir;
      [now rewrite !PyFacts.app_assoc | | reflexivity | reflexivity].
    apply KeyFacts.startswith_slash_app;
      [apply safe_ticket_no_slash | reflexivity].
  - exists (safe_recording recording_id).
    rewrite KeyFacts.join_dir; [reflexivity | | reflexivity | reflexivity].
    apply KeyFacts.startswith_slash_app;
      [apply safe_recording_no_slash | reflexivity].
Qed.

Lemma code_path (test_case_id : string) (ticket_id : option string) :
  exists x,
    CodeGenerator.get_code_cache_file_path test_case_id ticket_id
    = "codeGenerated/" +:+ x +:+ "_code.json".
Proof.
  unfold CodeGenerator.get_code_cache_file_path.
  fold (safe_recording test_case_id).
  destruct (CodeGenerator.given ticket_id) as [t|].
  - exists (Py.replace (Py.replace t "/" "_") Py.BS "_" +:+ "_"
            +:+ safe_recording test_case_id).
    rewrite KeyFacts.join_dir;
      [now rewrite !PyFacts.app_assoc | | reflexivity | reflexivity].
    apply KeyFacts.startswith_slash_app;
      [apply safe_ticket_no_slash | reflexivity].
  - exists (safe_recording test_case_id).
    rewrite KeyFacts.join_dir; [reflexivity | | reflexivity | reflexivity].
    apply KeyFacts.startswith_slash_app;
      [apply safe_recording_no_slash | reflexivity].
Qed.

Lemma test_case_path (ticket_id : string) :
  exists x,
    TestCaseGeneration.get_cache_file_path ticket_id
    = "testcaseGenerated/" +:+ x.
Proof.
  unfold TestCaseGeneration.get_cache_file_path. eexists.
  rewrite KeyFacts.join_dir; [reflexivity | | reflexivity | reflexivity].
  apply KeyFacts.startswith_slash_app;
    [apply safe_ticket_no_slash | reflexivity].
Qed.

Lemma ending_app (a s : string) : ending (String.length s) (a +:+ s) = s.
Proof.
  unfold ending. rewrite PyFacts.length_app.
  replace (String.length a + String.length s - String.length s)%nat
    with (String.length a) by lia.
  apply PyFacts.drop_app.
Qed.

(** A name of the code cache is no name of a recording. *)
Lemma suffixes_differ (a b : string) :
  a +:+ "_code.json" <> b +:+ "_recording.json".
Proof.
  intros E. apply (f_equal (ending 10)) in E.
  change 10%nat with (String.length "_code.json") in E at 1.
  rewrite ending_app in E.
  replace (b +:+ "_recording.json") with ((b +:+ "_reco") +:+ "rding.json")
    in E by (now rewrite PyFacts.app_assoc).
  change 10%nat with (String.length "rding.json") in E.
  rewrite ending_app in E. discriminate.
Qed.

Lemma code_is_no_codegen (test_case_id recording_id : string)
  (ticket_id ticket_id' : option string) :
  CodeGenerator.get_code_cache_file_path test_case_id ticket_id
  <> codegen_file recording_id ticket_id'.
Proof.
  destruct (code_path test_case_id ticket_id) as [x ->].
  destruct (codegen_path recording_id ticket_id') as [y ->].
  intros E. apply (suffixes_differ x y).
  cbn in E. now repeat injection E as E.
Qed.

Lemma code_is_no_recording (test_case_id recording_id : string)
  (ticket_id : option string) :
  CodeGenerator.get_code_cache_file_path test_case_id ticket_id
  <> get_recording_cache_file_path recording_id.
Proof.
  destruct (code_path test_case_id ticket_id) as [x ->].
  rewrite recording_path. discriminate.
Qed.

Lemma test_case_is_no_codegen (ticket_id recording_id : string)
  (ticket_id' : option string) :
  TestCaseGeneration.get_cache_file_path ticket_id
  <> codegen_file recording_id ticket_id'.
Proof.
  destruct (test_case_path ticket_id) as [x ->].
  destruct (codegen_path recording_id ticket_id') as [y ->]. discriminate.
Qed.

Lemma test_case_is_no_recording (ticket_id recording_id : string) :
  TestCaseGeneration.get_cache_file_path ticket_id
  <> get_recording_cache_file_path recording_id.
Proof.
  destruct (test_case_path ticket_id) as [x ->].
  rewrite recording_path. discriminate.
Qed.

Lemma test_case_is_no_code (ticket_id test_case_id : string)
  (ticket_id' : option string) :
  TestCaseGeneration.get_cache_file_path ticket_id
  <> CodeGenerator.get_code_cache_file_path test_case_id ticket_id'.
Proof.
  destruct (test_case_path ticket_id) as [x ->].
  destruct (code_path test_case_id ticket_id') as [y ->]. discriminate.
Qed.

Lemma recording_is_no_codegen (recording_id recording_id' : string)
  (ticket_id : option string) :
  get_recording_cache_file_path recording_id
  <> codegen_file recording_id' ticket_id.
Proof.
  rewrite recording_path.
  destruct (codegen_path recording_id' ticket_id) as [y ->]. discriminate.
Qed.

Section Statement.

Variable json_loads : string -> option json.
Variable json_dumps : json -> string.
Variable writable : string -> bool.
Variable to_records :
  list TestCaseGeneration.step_row -> list TestCaseGeneration.step_row.

(** X20: when the cache file of a recording can be written and the JSON
    library reads back what it wrote, [load_recorded_flow] after
    [save_recorded_flow] returns the flow saved, for the saved identifier
    and for every identifier with the same sanitised form (their cache
    files coincide), whether or not the second write succeeds.  When the
    second file can be written too, its path is returned, it holds the full
    record and it is another file than the first; when it cannot, the
    empty string is returned and only the first file is written.  When the
    first file cannot be written, the empty string is returned and nothing
    is written. *)
Theorem recorded_flow_round_trip (fs : gmap string string)
  (now later recording_id other_id url test_case_title : string)
  (actions : list json) (test_steps : list string)
  (ticket_id : option string) (generated_code : option json)
  (test_case_id : option string) :
  let saved := save_recorded_flow json_dumps writable fs now later
                 recording_id url actions test_steps test_case_title
                 ticket_id generated_code test_case_id in
  let entry := flow_data now recording_id url test_case_title actions
                 test_steps in
  let cache_file := get_recording_cache_file_path recording_id in
  let second_file := codegen_file recording_id ticket_id in
  (writable cache_file = true ->
   json_loads (json_dumps entry) = Some entry ->
   safe_recording other_id = safe_recording recording_id ->
   load_recorded_flow json_loads (snd saved) other_id = Some entry)
  /\ (writable cache_file = true -> writable second_file = true ->
      fst saved = second_file
      /\ snd saved !! second_file
         = Some (json_dumps
                   (codegen_data later recording_id url test_case_title
                      actions test_steps ticket_id generated_code
                      test_case_id))
      /\ second_file <> get_recording_cache_file_path other_id)
  /\ (writable cache_file = true -> writable second_file = false ->
      saved = (EmptyString, <[cache_file := json_dumps entry]> fs))
  /\ (writable cache_file = false -> saved = (EmptyString, fs)).
Proof.
  intros saved entry cache_file second_file.
  split; [|split; [|split]].
  - intros W R S.
    assert (P : get_recording_cache_file_path other_id = cache_file)
      by (unfold cache_file; now rewrite !recording_path, S).
    unfold load_recorded_flow, saved, save_recorded_flow.
    fold cache_file. fold second_file. fold entry. rewrite W, P.
    destruct (writable second_file); cbn [snd].
    + rewrite lookup_insert_ne
        by (apply not_eq_sym, recording_is_no_codegen).
      rewrite lookup_insert_eq. now rewrite R.
    + rewrite lookup_insert_eq. now rewrite R.
  - intros W W'. unfold saved, save_recorded_flow.
    fold cache_file. fold second_file. rewrite W, W'. cbn [fst snd].
    split; [reflexivity|]. split; [now rewrite lookup_insert_eq|].
    apply not_eq_sym, recording_is_no_codegen.
  - intros W W'. unfold saved, save_recorded_flow.
    fold cache_file. fold second_file. now rewrite W, W'.
  - intros W. unfold saved, save_recorded_flow.
    fold cache_file. now rewrite W.
Qed.

(** X21: the three caches do not overlap.  Saving a recorded flow changes
    no answer of the test case cache or of the code cache, saving generated
    code changes no answer of the test case cache or of the cache of
    recorded flows, and saving test cases changes no answer of the other
    two, whatever the identifiers are. *)
Theorem caches_do_not_overlap (fs : gmap string string)
  (now later recording_id url test_case_title : string)
  (actions : list json) (test_steps : list string)
  (ticket_id : option string) (generated_code : option json)
  (test_case_id : option string)
  (code_id code_title : string) (code_ticket : option string)
  (code_data formatted_code : json)
  (cases_ticket : string) (test_cases_data : json) :
  let flows := snd (save_recorded_flow json_dumps writable fs now later recording_id
                      url actions test_steps test_case_title ticket_id
                      generated_code test_case_id) in
  let codes := CodeGenerator.save_code_to_cache json_dumps writable fs now code_id
                 code_title code_ticket code_data formatted_code in
  let cases := TestCaseGeneration.save_test_cases_to_cache json_dumps writable fs
                 cases_ticket test_cases_data in
  (forall t,
     TestCaseGeneration.load_cached_test_cases json_loads flows t
     = TestCaseGeneration.load_cached_test_cases json_loads fs t)
  /\ (forall c t,
      CodeGenerator.load_cached_code json_loads flows c t
      = CodeGenerator.load_cached_code json_loads fs c t)
  /\ (forall t,
      TestCaseGeneration.load_cached_test_cases json_loads codes t
      = TestCaseGeneration.load_cached_test_cases json_loads fs t)
  /\ (forall r,
      load_recorded_flow json_loads codes r
      = load_recorded_flow json_loads fs r)
  /\ (forall c t,
      CodeGenerator.load_cached_code json_loads cases c t
      = CodeGenerator.load_cached_code json_loads fs c t)
  /\ (forall r,
      load_recorded_flow json_loads cases r
      = load_recorded_flow json_loads fs r).
Proof.
  intros flows codes cases. repeat split.
  - intros t. unfold TestCaseGeneration.load_cached_test_cases, flows,
      save_recorded_flow.
    destruct (writable (get_recording_cache_file_path recording_id));
      [|reflexivity].
    destruct (writable (codegen_file recording_id ticket_id)); cbn [snd];
      rewrite !lookup_insert_ne;
      try reflexivity;
      first [ apply not_eq_sym, test_case_is_no_recording
            | apply not_eq_sym, test_case_is_no_codegen ].
  - intros c t. unfold CodeGenerator.load_cached_code, flows,
      save_recorded_flow.
    destruct (writable (get_recording_cache_file_path recording_id));
      [|reflexivity].
    destruct (writable (codegen_file recording_id ticket_id)); cbn [snd];
      rewrite !lookup_insert_ne;
      try reflexivity;
      first [ apply not_eq_sym, code_is_no_recording
            | apply not_eq_sym, code_is_no_codegen ].
  - intros t. unfold TestCaseGeneration.load_cached_test_cases, codes,
      CodeGenerator.save_code_to_cache.
    destruct (writable _); [|reflexivity].
    rewrite lookup_insert_ne;
      [reflexivity | apply not_eq_sym, test_case_is_no_code].
  - intros r. unfold load_recorded_flow, codes,
      CodeGenerator.save_code_to_cache.
    destruct (writable _); [|reflexivity].
    rewrite lookup_insert_ne; [reflexivity | apply code_is_no_recording].
  - intros c t. unfold CodeGenerator.load_cached_code, cases,
      TestCaseGeneration.save_test_cases_to_cache.
    destruct (writable _); [|reflexivity].
    rewrite lookup_insert_ne;
      [reflexivity | apply test_case_is_no_code].
  - intros r. unfold load_recorded_flow, cases,
      TestCaseGeneration.save_test_cases_to_cache.
    destruct (writable _); [|reflexivity].
    rewrite lookup_insert_ne;
      [reflexivity | apply test_case_is_no_recording].
Qed.

End Statement.

(** A file system that takes the cache of recordings only. *)
Lemma recorded_flow_round_trip_witness :
  let recordings_only (path : string) := Py.startswith path "recordings/" in
  let save (w : string -> bool) :=
    save_recorded_flow JsonRef.dumps w ∅ "2026-01-01T10:00:00"
      "2026-01-01T10:00:01" "rec 1" "https://example.com"
      [JObj [("type", JStr "navigate")]] ["Navigate"] "Recorded Flow"
      (Some "PAN-1") None None in
  let entry := flow_data "2026-01-01T10:00:00" "rec 1" "https://example.com"
                 "Recorded Flow" [JObj [("type", JStr "navigate")]]
                 ["Navigate"] in
  load_recorded_flow JsonRef.loads (snd (save Examples.all_writable)) "rec_1"
    = Some entry
  /\ fst (save Examples.all_writable) = "codeGenerated/PAN-1_rec_1_recording.json"
  /\ save recordings_only
     = (EmptyString,
        {[ "recordings/rec_1_recording.json" := JsonRef.dumps entry ]})
  /\ save Examples.read_only = (EmptyString, ∅).
Proof.
  intros recordings_only save entry.
  destruct (recorded_flow_round_trip JsonRef.loads JsonRef.dumps Examples.all_writable
              ∅ "2026-01-01T10:00:00" "2026-01-01T10:00:01" "rec 1" "rec_1"
              "https://example.com" "Recorded Flow"
              [JObj [("type", JStr "navigate")]] ["Navigate"]
              (Some "PAN-1") None None) as (L & P & _ & _).
  destruct (recorded_flow_round_trip JsonRef.loads JsonRef.dumps
              recordings_only
              ∅ "2026-01-01T10:00:00" "2026-01-01T10:00:01" "rec 1" "rec_1"
              "https://example.com" "Recorded Flow"
              [JObj [("type", JStr "navigate")]] ["Navigate"]
              (Some "PAN-1") None None) as (_ & _ & Q & _).
  destruct (recorded_flow_round_trip JsonRef.loads JsonRef.dumps Examples.read_only
              ∅ "2026-01-01T10:00:00" "2026-01-01T10:00:01" "rec 1" "rec_1"
              "https://example.com" "Recorded Flow"
              [JObj [("type", JStr "navigate")]] ["Navigate"]
              (Some "PAN-1") None None) as (_ & _ & _ & N).
  split; [|split; [|split]].
  - apply L; [reflexivity | vm_compute; reflexivity | reflexivity].
  - destruct P as (F & _ & _); [reflexivity | reflexivity |].
    unfold save. rewrite F. reflexivity.
  - unfold save. rewrite Q; [reflexivity | reflexivity | reflexivity].
  - apply N. reflexivity.
Defined.

End FlowCacheFacts.

(** ** The conversion to JavaScript *)

Module JsFacts.

Import JsConversion.

Lemma lstrip_spaces (n : nat) (s : string) :
  Py.lstrip (spaces n +:+ s) = Py.lstrip s.
Proof. induction n as [|n IH]; [reflexivity | exact IH]. Qed.

(** Stripping on the right keeps a text that ends in a character other
    than white space. *)
Lemma rstrip_closed (a : string) (c : ascii) :
  Py.is_space c = false ->
  Py.rstrip (a +:+ String c EmptyString) = a +:+ String c EmptyString.
Proof.
  intros H. induction a as [|x a IH].
  - cbn. now rewrite H.
  - change (String x a +:+ String c EmptyString)
      with (String x (a +:+ String c EmptyString)).
    cbn [Py.rstrip]. rewrite IH.
    now destruct (a +:+ String c EmptyString) eqn:E;
      [destruct a; discriminate|].
Qed.

Lemma awaited_text (n : nat) (stripped : string) :
  Py.strip (spaces n +:+ "await " +:+ stripped +:+ ";")
  = "await " +:+ stripped +:+ ";".
Proof.
  unfold Py.strip. rewrite lstrip_spaces.
  change (Py.lstrip ("await " +:+ stripped +:+ ";"))
    with ("await " +:+ stripped +:+ ";").
  replace ("await " +:+ stripped +:+ ";")
    with (("await " +:+ stripped) +:+ ";")
    by (now rewrite PyFacts.app_assoc).
  now apply rstrip_closed.
Qed.

Lemma page_is_not_awaited (s : string) :
  Py.startswith s "page." = true -> Py.startswith s "await" = false.
Proof.
  unfold Py.startswith. destruct s as [|c s]; [discriminate|].
  cbn [String.prefix].
  destruct (ascii_dec "p" c) as [<-|N]; [reflexivity | discriminate].
Qed.

Lemma await_line_spec (line : string) :
  Py.startswith (Py.strip (await_line line)) "page." = false
  /\ (Py.startswith (Py.strip line) "page." = true ->
      Py.strip (await_line line) = "await " +:+ Py.strip line +:+ ";")
  /\ (Py.startswith (Py.strip line) "page." = false ->
      await_line line = line).
Proof.
  unfold await_line.
  destruct (Py.startswith (Py.strip line) "page.") eqn:E.
  - rewrite (page_is_not_awaited _ E). cbn [negb andb].
    rewrite awaited_text. split; [reflexivity|]. split; [reflexivity|].
    discriminate.
  - cbn [andb]. split; [exact E|]. split; [discriminate | reflexivity].
Qed.

(** X22: in the JavaScript that [_convert_python_to_javascript] builds, no
    line begins, once stripped, with a bare [page.] call.  A line that did
    is replaced by [await], its stripped text and a semicolon (a second
    semicolon when the text already ends in one), and every other line is
    kept as it is. *)
Theorem page_calls_are_awaited (python_code : string) :
  Forall (fun l => Py.startswith (Py.strip l) "page." = false)
         (js_lines python_code)
  /\ (forall line,
      Py.startswith (Py.strip line) "page." = true ->
      Py.strip (await_line line) = "await " +:+ Py.strip line +:+ ";")
  /\ (forall line,
      Py.startswith (Py.strip line) "page." = false ->
      await_line line = line).
Proof.
  split; [|split; intros line; apply await_line_spec].
  unfold js_lines. apply Forall_app. split.
  - induction (Py.split (replacements python_code) Py.newline)
      as [|l ls IH]; [constructor|].
    cbn [map]. constructor; [apply await_line_spec | exact IH].
  - destruct (negb (endswith (Py.strip (replacements python_code)) "});"));
      repeat constructor.
Qed.

Lemma page_calls_are_awaited_witness :
  _convert_python_to_javascript
    ("def test(page: Page):" +:+ Py.NL
     +:+ "    page.goto('https://example.com')" +:+ Py.NL
     +:+ "    page.get_by_test_id('go').click()")
  = "test('test', async ({ page }) => {" +:+ Py.NL
    +:+ "    await page.goto('https://example.com')" +:+ Py.NL
    +:+ "    await page.get_by_test_id('go').click();;" +:+ Py.NL
    +:+ "});"
  /\ Py.strip (await_line "    page.get_by_test_id('go').click();")
     = "await page.get_by_test_id('go').click();;"
  /\ await_line "    await page.goto('https://example.com')"
     = "    await page.goto('https://example.com')".
Proof.
  split; [vm_compute; reflexivity|].
  destruct (page_calls_are_awaited EmptyString) as (_ & A & K).
  split; [apply (A "    page.get_by_test_id('go').click();")
         | apply (K "    await page.goto('https://example.com')")];
    reflexivity.
Defined.

End JsFacts.
